(** * next-deploy, package aws-cloudfront: lib/index.ts

    A shallow embedding of the distribution lifecycle operations
    (create, update, disable, delete) together with the private-content
    flow (origin access identity, bucket policies).

    The operations talk to two remote control planes.  Both are kept
    abstract: a provider is a family of handlers over a world type [W],
    and every operation is a computation that threads the world, may be
    rejected with a JavaScript error, and records the provider calls it
    issues, in program order. *)

From Stdlib Require Import String ZArith List Bool Lia DecimalString.
Import ListNotations.
Open Scope string_scope.
Open Scope list_scope.

(** ** JavaScript values the module relies on *)

Module JS.

(** The part of an error object that the module inspects. *)
Record Error := mkError {
  name : string;
  code : option string;
  message : string
}.

(** [new Error(msg)] carries no [code]. *)
Definition newError (msg : string) : Error :=
  {| name := "Error"; code := None; message := msg |}.

(** What V8 raises on [undefined.prop]. *)
Definition TypeError_reading (prop : string) : Error :=
  {| name := "TypeError"; code := None;
     message := ("Cannot read properties of undefined (reading '" ++ prop ++ "')")%string |}.

(** [e.code === s] *)
Definition code_is (e : Error) (s : string) : bool :=
  match code e with
  | Some c => String.eqb c s
  | None => false
  end.

(** A settled promise, or the result of awaiting one. *)
Inductive Outcome (A : Type) :=
| Fulfilled (value : A)
| Rejected (reason : Error).
Arguments Fulfilled {A} value.
Arguments Rejected {A} reason.

Definition isFulfilled {A} (o : Outcome A) : bool :=
  match o with Fulfilled _ => true | Rejected _ => false end.

(** A promise started by an asynchronous call: how it settles and the
    logical time at which it does.  The time is chosen by whoever
    settles it (the remote service), not by the caller. *)
Record Promise (A : Type) := mkPromise {
  settledAt : nat;
  outcome : Outcome A
}.
Arguments mkPromise {A} settledAt outcome.
Arguments settledAt {A} p.
Arguments outcome {A} p.

(** The earliest rejection among [ps]; the promise that comes first in
    the list wins among rejections settled at the same time. *)
Fixpoint firstRejection {A} (ps : list (Promise A)) : option (nat * Error) :=
  match ps with
  | [] => None
  | p :: rest =>
      match outcome p, firstRejection rest with
      | Rejected e, Some (t', e') =>
          if (settledAt p <=? t')%nat then Some (settledAt p, e) else Some (t', e')
      | Rejected e, None => Some (settledAt p, e)
      | Fulfilled _, r => r
      end
  end.

(** The values of the fulfilled promises, in list order. *)
Fixpoint fulfilledValues {A} (ps : list (Promise A)) : list A :=
  match ps with
  | [] => []
  | p :: rest =>
      match outcome p with
      | Fulfilled v => v :: fulfilledValues rest
      | Rejected _ => fulfilledValues rest
      end
  end.

(** [Promise.all(ps)]: rejected with the first rejection, otherwise
    fulfilled with all the values in the order of [ps]. *)
Definition Promise_all {A} (ps : list (Promise A)) : Outcome (list A) :=
  match firstRejection ps with
  | Some (_, e) => Rejected e
  | None => Fulfilled (fulfilledValues ps)
  end.

(** Truthiness of a possibly undefined string: [if (s)]. *)
Definition truthy (s : option string) : bool :=
  match s with
  | Some v => negb (String.eqb v "")
  | None => false
  end.

(** Template-literal interpolation of a possibly undefined string. *)
Definition interpolate (s : option string) : string :=
  match s with
  | Some v => v
  | None => "undefined"
  end.

(** [String(n)] for an integer [n]. *)
Definition String_of_Z (n : Z) : string :=
  NilZero.string_of_int (Z.to_int n).

End JS.

Import JS.

(** ** Inputs of the component (types.ts) *)

Module Types.

(** A structured origin. *)
Record Origin := {
  url : string;
  path : option string;
  headers : option (list (string * string));
  private : option bool
}.

(** [string | Origin] *)
Inductive InputOrigin :=
| OriginUrl (s : string)
| OriginObject (o : Origin).

Record Forward := {
  cookies : option string;
  queryString : option bool;
  forwardHeaders : option (list string)
}.

(** The recognised cache options of [inputs.defaults]. *)
Record CacheOptions := {
  allowedHttpMethods : option (list string);
  forward : option Forward;
  minTTL : option Z;
  maxTTL : option Z;
  defaultTTL : option Z;
  viewerProtocolPolicy : option string
}.

Record CloudFrontInputs := {
  origins : list InputOrigin;
  defaults : option CacheOptions;
  comment : string;
  enabled : bool
}.

End Types.

Import Types.

(** ** Provider shapes (aws-sdk, CloudFront) *)

Module CloudFront.

Record S3OriginConfigT := { OriginAccessIdentity : string }.

Record CustomOriginConfigT := {
  HTTPPort : Z;
  HTTPSPort : Z;
  OriginProtocolPolicy : string
}.

Record Origin := {
  Id : string;
  DomainName : string;
  OriginPath : option string;
  CustomHeaders : option (list (string * string));
  S3OriginConfig : option S3OriginConfigT;
  CustomOriginConfig : option CustomOriginConfigT
}.

Record Origins := {
  Quantity : nat;
  Items : list Origin
}.

(** The cache settings every behaviour carries besides its target. *)
Record CacheSettings := {
  ViewerProtocolPolicy : string;
  AllowedMethods : list string;
  MinTTL : Z;
  DefaultTTL : Z;
  MaxTTL : Z;
  ForwardQueryString : bool;
  ForwardCookies : string;
  ForwardHeaders : list string
}.

Record DefaultCacheBehavior := {
  TargetOriginId : string;
  Settings : CacheSettings
}.

Record CacheBehavior := {
  PathPattern : string;
  cb_TargetOriginId : string;
  cb_Settings : CacheSettings
}.

Record CacheBehaviors := {
  cb_Quantity : nat;
  cb_Items : list CacheBehavior
}.

Record Aliases := {
  al_Quantity : nat;
  al_Items : list string
}.

(** The fields of a distribution config that index.ts reads or writes.
    The first five are required by the provider, the others optional. *)
Record DistributionConfig := {
  CallerReference : string;
  Comment : string;
  Enabled : bool;
  DefaultCacheBehavior_ : DefaultCacheBehavior;
  Origins_ : Origins;
  CacheBehaviors_ : option CacheBehaviors;
  Aliases_ : option Aliases;
  PriceClass : option string;
  HttpVersion : option string
}.

Record GetDistributionConfigResult := {
  DistributionConfig_ : option DistributionConfig;
  ETag : option string
}.

Record CreateDistributionRequest := {
  create_DistributionConfig : DistributionConfig
}.

Record UpdateDistributionRequest := {
  update_Id : string;
  IfMatch : option string;
  update_DistributionConfig : DistributionConfig
}.

Record DeleteDistributionRequest := {
  delete_Id : string;
  delete_IfMatch : option string
}.

Record Distribution := {
  dist_Id : string;
  ARN : string;
  dist_DomainName : string
}.

(** Result of createDistribution and of updateDistribution. *)
Record DistributionResult := {
  Distribution_ : option Distribution
}.

End CloudFront.

Import CloudFront.

(** What createOriginAccessIdentity hands back. *)
Record AccessIdentity := {
  originAccessIdentityId : string;
  s3CanonicalUserId : string
}.

(** The normalised result of create, update and disable. *)
Record Result := {
  id : option string;
  arn : option string;
  res_url : string
}.

(** ** Provider calls *)

Inductive Event :=
| EvGetDistributionConfig (Id : string)
| EvCreateDistribution (req : CreateDistributionRequest)
| EvUpdateDistribution (req : UpdateDistributionRequest)
| EvDeleteDistribution (req : DeleteDistributionRequest)
| EvCreateOriginAccessIdentity
| EvGrantCloudFrontBucketAccess (bucketName : string) (s3CanonicalUserId : string).

Definition isWrite (ev : Event) : bool :=
  match ev with
  | EvGetDistributionConfig _ => false
  | _ => true
  end.

Definition isProvision (ev : Event) : bool :=
  match ev with
  | EvCreateOriginAccessIdentity => true
  | _ => false
  end.

Definition isGrant (ev : Event) : bool :=
  match ev with
  | EvGrantCloudFrontBucketAccess _ _ => true
  | _ => false
  end.

Definition isDelete (ev : Event) : bool :=
  match ev with
  | EvDeleteDistribution _ => true
  | _ => false
  end.

Definition isFetch (ev : Event) : bool :=
  match ev with
  | EvGetDistributionConfig _ => true
  | _ => false
  end.

Definition isCreate (ev : Event) : bool :=
  match ev with
  | EvCreateDistribution _ => true
  | _ => false
  end.

Definition isUpdate (ev : Event) : bool :=
  match ev with
  | EvUpdateDistribution _ => true
  | _ => false
  end.

(** The remote services, as handlers over a world [W]. *)
Record Provider (W : Type) := {
  cf_getDistributionConfig : string -> W -> Outcome GetDistributionConfigResult * W;
  cf_createDistribution : CreateDistributionRequest -> W -> Outcome DistributionResult * W;
  cf_updateDistribution : UpdateDistributionRequest -> W -> Outcome DistributionResult * W;
  cf_deleteDistribution : DeleteDistributionRequest -> W -> Outcome unit * W;
  cf_createOriginAccessIdentity : W -> Outcome AccessIdentity * W;
  s3_grantBucketAccess : string -> string -> W -> Promise unit * W;
  Date_now : W -> Z
}.
Arguments cf_getDistributionConfig {W} p _ _.
Arguments cf_createDistribution {W} p _ _.
Arguments cf_updateDistribution {W} p _ _.
Arguments cf_deleteDistribution {W} p _ _.
Arguments cf_createOriginAccessIdentity {W} p _.
Arguments s3_grantBucketAccess {W} p _ _ _.
Arguments Date_now {W} p _.

(** ** Asynchronous computations *)

Module Async.

(** A finished run: how it ended, the world it left, the calls it made. *)
Record Run (W A : Type) := mkRun {
  result : Outcome A;
  world : W;
  calls : list Event
}.
Arguments mkRun {W A} result world calls.
Arguments result {W A} r.
Arguments world {W A} r.
Arguments calls {W A} r.

Definition M (W A : Type) : Type := W -> Run W A.

Definition ret {W A} (a : A) : M W A :=
  fun w => mkRun (Fulfilled a) w [].

Definition throw {W A} (e : Error) : M W A :=
  fun w => mkRun (Rejected e) w [].

Definition bind {W A B} (m : M W A) (k : A -> M W B) : M W B :=
  fun w =>
    let r := m w in
    match result r with
    | Fulfilled a =>
        let r' := k a (world r) in
        mkRun (result r') (world r') (calls r ++ calls r')
    | Rejected e => mkRun (Rejected e) (world r) (calls r)
    end.

(** [try { body } catch (e) { handler e }] *)
Definition try_catch {W A} (body : M W A) (handler : Error -> M W A) : M W A :=
  fun w =>
    let r := body w in
    match result r with
    | Fulfilled a => r
    | Rejected e =>
        let r' := handler e (world r) in
        mkRun (result r') (world r') (calls r ++ calls r')
    end.

(** [await] of a call that settles before the caller resumes. *)
Definition request {W A} (ev : Event) (h : W -> Outcome A * W) : M W A :=
  fun w => let '(o, w') := h w in mkRun o w' [ev].

(** Awaiting an already settled outcome. *)
Definition await {W A} (o : Outcome A) : M W A :=
  fun w => mkRun o w [].

(** Reading the world without a provider call. *)
Definition peek {W A} (f : W -> A) : M W A :=
  fun w => mkRun (Fulfilled (f w)) w [].

(** Starting an asynchronous call without awaiting it: the call is
    issued, and a promise is returned whatever its fate. *)
Definition start {W A} (ev : Event) (h : W -> Promise A * W) : W -> Promise A * W * list Event :=
  fun w => let '(p, w') := h w in (p, w', [ev]).

(** [xs.map(x => f(x))] for a function that starts a call per element. *)
Fixpoint startEach {W A X} (f : X -> W -> Promise A * W * list Event)
    (xs : list X) (w : W) : list (Promise A) * W * list Event :=
  match xs with
  | [] => ([], w, [])
  | x :: rest =>
      let '(p, w1, c1) := f x w in
      let '(ps, w2, c2) := startEach f rest w1 in
      (p :: ps, w2, c1 ++ c2)
  end.

(** [Promise.all(xs.map(f))], awaited. *)
Definition awaitAll {W A X} (f : X -> W -> Promise A * W * list Event)
    (xs : list X) : M W (list A) :=
  fun w =>
    let '(ps, w', c) := startEach f xs w in
    mkRun (Promise_all ps) w' c.

End Async.

Import Async.

Notation "x <- m ;; k" := (bind m (fun x => k))
  (at level 61, m at next level, right associativity).

(** ** The helpers imported by index.ts *)

(** What the origin parser and the cache-behaviour builder leave to
    their own helpers: the per-origin translation (which decides the
    generated [Id], the domain, and whether the origin is backed by a
    storage bucket), the hard-coded cache defaults, and the settings of
    a path behaviour. *)
Record Helpers := {
  getOriginConfig : nat -> InputOrigin -> option string -> CloudFront.Origin;
  hardCoded : CacheSettings;
  pathSettings : Types.Origin -> CacheSettings
}.

Record ParsedOrigins := {
  Origins : CloudFront.Origins;
  CacheBehaviors : option CloudFront.CacheBehaviors
}.

Definition isSome {A} (o : option A) : bool :=
  match o with Some _ => true | None => false end.

Definition orElse {A} (o : option A) (d : A) : A :=
  match o with Some v => v | None => d end.

Definition andThen {A B} (o : option A) (f : A -> option B) : option B :=
  match o with Some v => f v | None => None end.

(** Each element of a list with its position. *)
Definition indexed {A} (l : list A) : list (nat * A) :=
  combine (seq 0 (length l)) l.

Section Lib.

Context {W : Type}.
Variable provider : Provider W.
Variable helpers : Helpers.

(** Modelled from the spec: parseInputOrigins.ts is not part of the
    sources.  Section 4.1: the ordered list of input origins becomes
    the counted, ordered [Origins] collection, one entry per input
    origin, with identifiers generated from position and domain; a
    structured origin with a [path] also yields a cache behaviour
    routing that path to this origin; [CacheBehaviors] is omitted when
    there is no such origin. *)
Definition parseInputOrigins (origins : list InputOrigin)
    (originAccessIdentityId : option string) : ParsedOrigins :=
  let items :=
    map (fun '(i, origin) => getOriginConfig helpers i origin originAccessIdentityId)
        (indexed origins) in
  let behaviors :=
    flat_map (fun '(i, origin) =>
                match origin with
                | OriginObject o =>
                    match path o with
                    | Some p =>
                        [ {| PathPattern := p;
                             cb_TargetOriginId :=
                               Id (getOriginConfig helpers i origin originAccessIdentityId);
                             cb_Settings := pathSettings helpers o |} ]
                    | None => []
                    end
                | OriginUrl _ => []
                end)
             (indexed origins) in
  {| Origins := {| Quantity := length items; Items := items |};
     CacheBehaviors :=
       match behaviors with
       | [] => None
       | _ => Some {| cb_Quantity := length behaviors; cb_Items := behaviors |}
       end |}.

(** Modelled from the spec: getDefaultCacheBehavior.ts is not part of
    the sources.  Section 4.2: a single record bound to the given
    origin id; each recognised option overrides a hard-coded default,
    absent options fall back to it. *)
Definition getDefaultCacheBehavior (originId : string)
    (defaults : option CacheOptions) : DefaultCacheBehavior :=
  let hard := hardCoded helpers in
  let fwd := andThen defaults forward in
  {| TargetOriginId := originId;
     Settings :=
       {| ViewerProtocolPolicy :=
            orElse (andThen defaults viewerProtocolPolicy) (ViewerProtocolPolicy hard);
          AllowedMethods :=
            orElse (andThen defaults allowedHttpMethods) (AllowedMethods hard);
          MinTTL := orElse (andThen defaults minTTL) (MinTTL hard);
          DefaultTTL := orElse (andThen defaults defaultTTL) (DefaultTTL hard);
          MaxTTL := orElse (andThen defaults maxTTL) (MaxTTL hard);
          ForwardQueryString := orElse (andThen fwd queryString) (ForwardQueryString hard);
          ForwardCookies := orElse (andThen fwd cookies) (ForwardCookies hard);
          ForwardHeaders := orElse (andThen fwd forwardHeaders) (ForwardHeaders hard) |} |}.

(** Modelled from the spec: createOriginAccessIdentity.ts is not part
    of the sources.  Section 4.3: one call of the provider's create
    operation, whose error propagates. *)
Definition createOriginAccessIdentity : M W AccessIdentity :=
  request EvCreateOriginAccessIdentity (cf_createOriginAccessIdentity provider).

(** Modelled from the spec: grantCloudFrontBucketAccess.ts is not part
    of the sources.  Section 6: the bucket policy of [bucketName] is
    read, extended with a statement for the canonical user, and
    written back; taken here as one asynchronous provider call. *)
Definition grantCloudFrontBucketAccess (bucketName s3CanonicalUserId : string)
    : W -> Promise unit * W * list Event :=
  start (EvGrantCloudFrontBucketAccess bucketName s3CanonicalUserId)
        (s3_grantBucketAccess provider bucketName s3CanonicalUserId).

(** ** index.ts *)

(** [origin && (origin as Origin).private === true] *)
Definition isPrivateOrigin (origin : InputOrigin) : bool :=
  match origin with
  | OriginUrl s => negb (String.eqb s "") && false
  | OriginObject o =>
      match private o with
      | Some true => true
      | _ => false
      end
  end.

(** [inputs?.origins?.some(...)]; the origin list is present, as the
    input schema has it. *)
Definition servePrivateContentEnabled (inputs : CloudFrontInputs) : bool :=
  existsb isPrivateOrigin (origins inputs).

Definition updateBucketsPolicies (origins : CloudFront.Origins)
    (s3CanonicalUserId : string) : M W (list unit) :=
  let bucketNames :=
    map Id (filter (fun origin => isSome (S3OriginConfig origin)) (Items origins)) in
  awaitAll (fun bucketName => grantCloudFrontBucketAccess bucketName s3CanonicalUserId)
           bucketNames.

(** The identity is provisioned only for private content. *)
Definition provisionIfPrivate (inputs : CloudFrontInputs)
    : M W (option AccessIdentity) :=
  if servePrivateContentEnabled inputs
  then (r <- createOriginAccessIdentity ;; ret (Some r))
  else ret None.

(** [if (s3CanonicalUserId) await updateBucketsPolicies(...)] *)
Definition grantIfProvisioned (Origins : CloudFront.Origins)
    (s3CanonicalUserId : option string) : M W unit :=
  match s3CanonicalUserId with
  | Some uid =>
      if truthy (Some uid)
      then (_ <- updateBucketsPolicies Origins uid ;; ret tt)
      else ret tt
  | None => ret tt
  end.

(** [Origins.Items[0].Id] *)
Definition firstOriginId (Origins : CloudFront.Origins) : Outcome string :=
  match nth_error (Items Origins) 0 with
  | Some origin => Fulfilled (Id origin)
  | None => Rejected (TypeError_reading "Id")
  end.

(** [{ id, arn, url }] from the provider's answer. *)
Definition normalize (res : DistributionResult) : Result :=
  {| id := option_map dist_Id (Distribution_ res);
     arn := option_map ARN (Distribution_ res);
     res_url := ("https://" ++ interpolate (option_map dist_DomainName (Distribution_ res)))%string |}.

Definition createDistributionRequest (now : Z) (inputs : CloudFrontInputs)
    (parsed : ParsedOrigins) (targetOriginId : string) : CreateDistributionRequest :=
  {| create_DistributionConfig :=
       {| CallerReference := String_of_Z now;
          Comment := comment inputs;
          Aliases_ := Some {| al_Quantity := 0; al_Items := [] |};
          Origins_ := Origins parsed;
          PriceClass := Some "PriceClass_All";
          Enabled := enabled inputs;
          HttpVersion := Some "http2";
          DefaultCacheBehavior_ := getDefaultCacheBehavior targetOriginId (defaults inputs);
          CacheBehaviors_ := CacheBehaviors parsed |} |}.

Definition createCloudFrontDistribution (inputs : CloudFrontInputs) : M W Result :=
  oai <- provisionIfPrivate inputs ;;
  let originAccessIdentityId := option_map originAccessIdentityId oai in
  let s3CanonicalUserId := option_map s3CanonicalUserId oai in
  let parsed := parseInputOrigins (origins inputs) originAccessIdentityId in
  _ <- grantIfProvisioned (Origins parsed) s3CanonicalUserId ;;
  now <- peek (Date_now provider) ;;
  targetOriginId <- await (firstOriginId (Origins parsed)) ;;
  let req := createDistributionRequest now inputs parsed targetOriginId in
  res <- request (EvCreateDistribution req) (cf_createDistribution provider req) ;;
  ret (normalize res).

Definition updateDistributionRequest (distributionId : string)
    (distributionConfigResponse : GetDistributionConfigResult)
    (fetched : DistributionConfig) (inputs : CloudFrontInputs)
    (parsed : ParsedOrigins) (targetOriginId : string) : UpdateDistributionRequest :=
  {| update_Id := distributionId;
     IfMatch := ETag distributionConfigResponse;
     update_DistributionConfig :=
       {| CallerReference := CallerReference fetched;
          Enabled := enabled inputs;
          Comment := comment inputs;
          DefaultCacheBehavior_ := getDefaultCacheBehavior targetOriginId (defaults inputs);
          Origins_ := Origins parsed;
          CacheBehaviors_ := CacheBehaviors parsed;
          Aliases_ := None;
          PriceClass := None;
          HttpVersion := None |} |}.

Definition couldNotGetConfig : Error :=
  newError "Could not get a distribution config".

Definition updateCloudFrontDistribution (distributionId : string)
    (inputs : CloudFrontInputs) : M W Result :=
  distributionConfigResponse <-
    request (EvGetDistributionConfig distributionId)
            (cf_getDistributionConfig provider distributionId) ;;
  match DistributionConfig_ distributionConfigResponse with
  | None => throw couldNotGetConfig
  | Some fetched =>
      oai <- provisionIfPrivate inputs ;;
      let originAccessIdentityId := option_map originAccessIdentityId oai in
      let s3CanonicalUserId := option_map s3CanonicalUserId oai in
      let parsed := parseInputOrigins (origins inputs) originAccessIdentityId in
      _ <- grantIfProvisioned (Origins parsed) s3CanonicalUserId ;;
      targetOriginId <- await (firstOriginId (Origins parsed)) ;;
      let req :=
        updateDistributionRequest distributionId distributionConfigResponse
                                  fetched inputs parsed targetOriginId in
      res <- request (EvUpdateDistribution req) (cf_updateDistribution provider req) ;;
      ret (normalize res)
  end.

(** The request built by disableCloudFrontDistribution. *)
Definition disableDistributionRequest (distributionId : string)
    (distributionConfigResponse : GetDistributionConfigResult)
    (fetched : DistributionConfig) : UpdateDistributionRequest :=
  {| update_Id := distributionId;
     IfMatch := ETag distributionConfigResponse;
     update_DistributionConfig :=
       {| CallerReference := CallerReference fetched;
          Enabled := false;
          Comment := Comment fetched;
          DefaultCacheBehavior_ := DefaultCacheBehavior_ fetched;
          Origins_ := Origins_ fetched;
          CacheBehaviors_ := None;
          Aliases_ := None;
          PriceClass := None;
          HttpVersion := None |} |}.

Definition disableCloudFrontDistribution (distributionId : string) : M W Result :=
  distributionConfigResponse <-
    request (EvGetDistributionConfig distributionId)
            (cf_getDistributionConfig provider distributionId) ;;
  match DistributionConfig_ distributionConfigResponse with
  | None => throw couldNotGetConfig
  | Some fetched =>
      let req :=
        disableDistributionRequest distributionId distributionConfigResponse fetched in
      res <- request (EvUpdateDistribution req) (cf_updateDistribution provider req) ;;
      ret (normalize res)
  end.

Definition deleteCloudFrontDistribution (distributionId : string) : M W unit :=
  try_catch
    (res <- request (EvGetDistributionConfig distributionId)
                    (cf_getDistributionConfig provider distributionId) ;;
     let params := {| delete_Id := distributionId; delete_IfMatch := ETag res |} in
     request (EvDeleteDistribution params) (cf_deleteDistribution provider params))
    (fun e =>
       if code_is e "DistributionNotDisabled"
       then (_ <- disableCloudFrontDistribution distributionId ;; ret tt)
       else throw e).

End Lib.

Arguments parseInputOrigins helpers origins originAccessIdentityId : assert.
Arguments getDefaultCacheBehavior helpers originId defaults : assert.

(** ** Concrete collaborators used in the examples *)

Module Demo.

(** A provider that answers from a fixed script and keeps no state. *)
Record Script := {
  onGet : Outcome GetDistributionConfigResult;
  onCreate : Outcome DistributionResult;
  onUpdate : Outcome DistributionResult;
  onDelete : Outcome unit;
  onProvision : Outcome AccessIdentity;
  onGrant : string -> Promise unit;
  clock : Z
}.

Definition scripted : Provider Script :=
  {| cf_getDistributionConfig := fun _ w => (onGet w, w);
     cf_createDistribution := fun _ w => (onCreate w, w);
     cf_updateDistribution := fun _ w => (onUpdate w, w);
     cf_deleteDistribution := fun _ w => (onDelete w, w);
     cf_createOriginAccessIdentity := fun w => (onProvision w, w);
     s3_grantBucketAccess := fun bucketName _ w => (onGrant w bucketName, w);
     Date_now := clock |}.

(** A provider that remembers the last config written to it and hands
    it back, under a fixed ETag, on every fetch. *)
Definition answer (c : DistributionConfig) : DistributionResult :=
  {| Distribution_ :=
       Some {| dist_Id := "E2QWRUHAPOMQZL";
               ARN := "arn:aws:cloudfront::123456789012:distribution/E2QWRUHAPOMQZL";
               dist_DomainName := "d111111abcdef8.cloudfront.net" |} |}.

Definition remembering : Provider (option DistributionConfig) :=
  {| cf_getDistributionConfig := fun _ w =>
       (Fulfilled {| DistributionConfig_ := w; ETag := Some "E1" |}, w);
     cf_createDistribution := fun req w =>
       (Fulfilled (answer (create_DistributionConfig req)),
        Some (create_DistributionConfig req));
     cf_updateDistribution := fun req w =>
       (Fulfilled (answer (update_DistributionConfig req)),
        Some (update_DistributionConfig req));
     cf_deleteDistribution := fun _ w => (Fulfilled tt, None);
     cf_createOriginAccessIdentity := fun w =>
       (Fulfilled {| originAccessIdentityId := "E74FTE3AEXAMPLE";
                     s3CanonicalUserId := "b970b42360b81c8ddbd79d2f5df0069ba9033c8a79655752abe380cd6d63ba8bcf23384d568fcf89fc49700b5e11a0fd" |},
        w);
     s3_grantBucketAccess := fun _ _ w => (mkPromise 0 (Fulfilled tt), w);
     Date_now := fun _ => 1591000000000%Z |}.

Definition settings : CacheSettings :=
  {| ViewerProtocolPolicy := "redirect-to-https";
     AllowedMethods := ["HEAD"; "GET"];
     MinTTL := 0; DefaultTTL := 86400; MaxTTL := 31536000;
     ForwardQueryString := false;
     ForwardCookies := "none";
     ForwardHeaders := [] |}.

Definition startsWithHttp (s : string) : bool := String.prefix "http" s.

(** Bucket names become storage-bucket origins whose [Id] is the bucket
    name; URLs become custom origins. *)
Definition originConfig (i : nat) (origin : InputOrigin)
    (originAccessIdentityId : option string) : CloudFront.Origin :=
  let u := match origin with OriginUrl s => s | OriginObject o => url o end in
  let isPrivate :=
    match origin with
    | OriginObject o => match private o with Some true => true | _ => false end
    | OriginUrl _ => false
    end in
  if startsWithHttp u then
    {| Id := u; DomainName := u; OriginPath := None; CustomHeaders := None;
       S3OriginConfig := None;
       CustomOriginConfig :=
         Some {| HTTPPort := 80; HTTPSPort := 443;
                 OriginProtocolPolicy := "https-only" |} |}
  else
    {| Id := u; DomainName := (u ++ ".s3.amazonaws.com")%string;
       OriginPath := None; CustomHeaders := None;
       S3OriginConfig :=
         Some {| OriginAccessIdentity :=
                   if isPrivate
                   then ("origin-access-identity/cloudfront/"
                           ++ interpolate originAccessIdentityId)%string
                   else "" |};
       CustomOriginConfig := None |}.

Definition helpers : Helpers :=
  {| getOriginConfig := originConfig;
     hardCoded := settings;
     pathSettings := fun _ => settings |}.

Definition bucket (name : string) (priv : option bool) : InputOrigin :=
  OriginObject {| url := name; path := None; headers := None; private := priv |}.

End Demo.

(** ** Sample data *)

Module Sample.

Import Demo.

Definition distributionId : string := "E2QWRUHAPOMQZL".

(** The config of a distribution with one bucket origin, one alias and
    one path behaviour. *)
Definition stored : DistributionConfig :=
  {| CallerReference := "1591000000000";
     Comment := "x";
     Enabled := true;
     DefaultCacheBehavior_ := {| TargetOriginId := "my-bucket"; Settings := settings |};
     Origins_ :=
       {| Quantity := 1;
          Items := [ originConfig 0 (OriginUrl "my-bucket") None ] |};
     CacheBehaviors_ :=
       Some {| cb_Quantity := 1;
               cb_Items := [ {| PathPattern := "/api";
                                cb_TargetOriginId := "my-bucket";
                                cb_Settings := settings |} ] |};
     Aliases_ := Some {| al_Quantity := 1; al_Items := ["www.example.com"] |};
     PriceClass := Some "PriceClass_All";
     HttpVersion := Some "http2" |}.

Definition notDisabled : Error :=
  {| name := "DistributionNotDisabled";
     code := Some "DistributionNotDisabled";
     message := "The distribution you are trying to delete has not been disabled." |}.

Definition preconditionFailed : Error :=
  {| name := "PreconditionFailed";
     code := Some "PreconditionFailed";
     message := "The request failed because it didn't meet the preconditions in one or more request-header fields." |}.

Definition accessDenied : Error :=
  {| name := "AccessDenied"; code := Some "AccessDenied"; message := "Access Denied" |}.

Definition identity : AccessIdentity :=
  {| originAccessIdentityId := "E74FTE3AEXAMPLE";
     s3CanonicalUserId := "b970b42360b81c8ddbd79d2f5df0069ba9033c8a79655752abe380cd6d63ba8b" |}.

(** Every call succeeds; the fetch returns [stored] under ETag E1. *)
Definition happy : Script :=
  {| onGet := Fulfilled {| DistributionConfig_ := Some stored; ETag := Some "E1" |};
     onCreate := Fulfilled (answer stored);
     onUpdate := Fulfilled (answer stored);
     onDelete := Fulfilled tt;
     onProvision := Fulfilled identity;
     onGrant := fun _ => mkPromise 1 (Fulfilled tt);
     clock := 1591000000000 |}.

(** The distribution is still enabled: the delete is refused. *)
Definition enabledDistribution : Script :=
  {| onGet := onGet happy; onCreate := onCreate happy; onUpdate := onUpdate happy;
     onDelete := Rejected notDisabled;
     onProvision := onProvision happy; onGrant := onGrant happy; clock := clock happy |}.

(** As before, and the config changes under the disable: its update is
    refused as well. *)
Definition enabledAndChanging : Script :=
  {| onGet := onGet happy; onCreate := onCreate happy;
     onUpdate := Rejected preconditionFailed;
     onDelete := Rejected notDisabled;
     onProvision := onProvision happy; onGrant := onGrant happy; clock := clock happy |}.

(** The fetch answers with an ETag but without a config. *)
Definition withoutConfig : Script :=
  {| onGet := Fulfilled {| DistributionConfig_ := None; ETag := Some "E1" |};
     onCreate := onCreate happy; onUpdate := onUpdate happy;
     onDelete := Fulfilled tt;
     onProvision := onProvision happy; onGrant := onGrant happy; clock := clock happy |}.

Definition withoutConfigEnabled : Script :=
  {| onGet := onGet withoutConfig;
     onCreate := onCreate happy; onUpdate := onUpdate happy;
     onDelete := Rejected notDisabled;
     onProvision := onProvision happy; onGrant := onGrant happy; clock := clock happy |}.

(** The identity comes back with an empty canonical user id. *)
Definition emptyCanonicalUser : Script :=
  {| onGet := onGet happy; onCreate := onCreate happy; onUpdate := onUpdate happy;
     onDelete := onDelete happy;
     onProvision :=
       Fulfilled {| originAccessIdentityId := "E74FTE3AEXAMPLE"; s3CanonicalUserId := "" |};
     onGrant := onGrant happy; clock := clock happy |}.

Definition inputs (origins : list InputOrigin) (enabled : bool) : CloudFrontInputs :=
  {| origins := origins; defaults := None; comment := "x"; enabled := enabled |}.

Definition fetchedResponse : GetDistributionConfigResult :=
  {| DistributionConfig_ := Some stored; ETag := Some "E1" |}.

Definition emptyResponse : GetDistributionConfigResult :=
  {| DistributionConfig_ := None; ETag := Some "E1" |}.

Definition deleteParams : DeleteDistributionRequest :=
  {| delete_Id := distributionId; delete_IfMatch := Some "E1" |}.

Definition privateBucket : list InputOrigin := [bucket "my-bucket" (Some true)].

Definition publicBuckets : list InputOrigin :=
  [OriginUrl "my-bucket"; bucket "assets" (Some false); bucket "logs" None].

(** Three buckets and a custom origin; the grant for [b] is refused at
    time 5, the one for [c] at time 2. *)
Definition threeBuckets : CloudFront.Origins :=
  {| Quantity := 4;
     Items := [ originConfig 0 (OriginUrl "a") None;
                originConfig 1 (OriginUrl "https://api.example.com") None;
                originConfig 2 (OriginUrl "b") None;
                originConfig 3 (OriginUrl "c") None ] |}.

Definition noSuchBucket : Error :=
  {| name := "NoSuchBucket"; code := Some "NoSuchBucket";
     message := "The specified bucket does not exist" |}.

Definition twoRefusals : Script :=
  {| onGet := onGet happy; onCreate := onCreate happy; onUpdate := onUpdate happy;
     onDelete := onDelete happy; onProvision := onProvision happy;
     onGrant := fun bucketName =>
       if String.eqb bucketName "b" then mkPromise 5 (Rejected accessDenied)
       else if String.eqb bucketName "c" then mkPromise 2 (Rejected noSuchBucket)
       else mkPromise 1 (Fulfilled tt);
     clock := clock happy |}.


(** The identity cannot be provisioned. *)
Definition provisionRefused : Script :=
  {| onGet := onGet happy; onCreate := onCreate happy; onUpdate := onUpdate happy;
     onDelete := onDelete happy;
     onProvision := Rejected accessDenied;
     onGrant := onGrant happy; clock := clock happy |}.

(** The fetch is refused. *)
Definition fetchRefused : Script :=
  {| onGet := Rejected accessDenied;
     onCreate := onCreate happy; onUpdate := onUpdate happy;
     onDelete := onDelete happy; onProvision := onProvision happy;
     onGrant := onGrant happy; clock := clock happy |}.

(** The provider answers create and update without a Distribution. *)
Definition withoutDistribution : Script :=
  {| onGet := onGet happy;
     onCreate := Fulfilled {| Distribution_ := None |};
     onUpdate := Fulfilled {| Distribution_ := None |};
     onDelete := onDelete happy; onProvision := onProvision happy;
     onGrant := onGrant happy; clock := clock happy |}.

(** A provider whose world counts the writes it has seen: the ETag is E1
    before the first write and E2 afterwards, the delete is refused as
    not disabled. *)
Definition versioned : Provider nat :=
  {| cf_getDistributionConfig := fun _ n =>
       (Fulfilled {| DistributionConfig_ := Some stored;
                     ETag := Some (if Nat.eqb n 0 then "E1" else "E2") |}, n);
     cf_createDistribution := fun _ n => (Fulfilled (answer stored), S n);
     cf_updateDistribution := fun _ n => (Fulfilled (answer stored), S n);
     cf_deleteDistribution := fun _ n => (Rejected notDisabled, S n);
     cf_createOriginAccessIdentity := fun n => (Fulfilled identity, S n);
     s3_grantBucketAccess := fun _ _ n => (mkPromise n (Fulfilled tt), S n);
     Date_now := fun n => (1591000000000 + Z.of_nat n)%Z |}.

(** Origins none of which is backed by a bucket. *)
Definition customOnly : CloudFront.Origins :=
  {| Quantity := 2;
     Items := [ originConfig 0 (OriginUrl "https://api.example.com") None;
                originConfig 1 (OriginUrl "https://www.example.com") None ] |}.

(** Two private buckets and a public one. *)
Definition privateBuckets : list InputOrigin :=
  [bucket "a" (Some true); bucket "b" (Some true); OriginUrl "c"].


(** The config create submits for [my-bucket], enabled, at the clock of
    the remembering provider. *)
Definition afterCreate : DistributionConfig :=
  create_DistributionConfig
    (createDistributionRequest helpers 1591000000000
       (inputs [OriginUrl "my-bucket"] true)
       (parseInputOrigins helpers [OriginUrl "my-bucket"] None)
       "my-bucket").

End Sample.

(** ** Vocabulary of the statements *)

(** The config [c] except that [Enabled] is [b]. *)
Definition withEnabled (b : bool) (c : DistributionConfig) : DistributionConfig :=
  {| CallerReference := CallerReference c;
     Comment := Comment c;
     Enabled := b;
     DefaultCacheBehavior_ := DefaultCacheBehavior_ c;
     Origins_ := Origins_ c;
     CacheBehaviors_ := CacheBehaviors_ c;
     Aliases_ := Aliases_ c;
     PriceClass := PriceClass c;
     HttpVersion := HttpVersion c |}.

(** The config [c] without the fields an update request never carries. *)
Definition withoutOptional (c : DistributionConfig) : DistributionConfig :=
  {| CallerReference := CallerReference c;
     Comment := Comment c;
     Enabled := Enabled c;
     DefaultCacheBehavior_ := DefaultCacheBehavior_ c;
     Origins_ := Origins_ c;
     CacheBehaviors_ := CacheBehaviors_ c;
     Aliases_ := None;
     PriceClass := None;
     HttpVersion := None |}.

(** The inputs except that [enabled] is [b]. *)
Definition withInputEnabled (b : bool) (inputs : CloudFrontInputs) : CloudFrontInputs :=
  {| origins := origins inputs;
     defaults := defaults inputs;
     comment := comment inputs;
     enabled := b |}.

(** The [private] property of an input origin; a string has none. *)
Definition privateFlag (origin : InputOrigin) : option bool :=
  match origin with
  | OriginUrl _ => None
  | OriginObject o => private o
  end.

(** The origins the step selects. *)
Definition bucketBacked (origins : CloudFront.Origins) : list CloudFront.Origin :=
  filter (fun origin => isSome (S3OriginConfig origin)) (Items origins).

Section Decomposition.

Context {W : Type}.
Variable provider : Provider W.
Variable helpers : Helpers.

(** What the storage service answers when the grants for [names] reach
    it one after the other, and the world they leave behind. *)
Fixpoint grantAnswers (uid : string) (names : list string) (w : W)
    : list (Promise unit) :=
  match names with
  | [] => []
  | n :: rest =>
      let '(p, w') := s3_grantBucketAccess provider n uid w in
      p :: grantAnswers uid rest w'
  end.

Fixpoint worldAfterGrants (uid : string) (names : list string) (w : W) : W :=
  match names with
  | [] => w
  | n :: rest =>
      worldAfterGrants uid rest (snd (s3_grantBucketAccess provider n uid w))
  end.

(** The part of create that follows the private-content flow. *)
Definition submitCreate (inputs : CloudFrontInputs) (parsed : ParsedOrigins) : M W Result :=
  now <- peek (Date_now provider) ;;
  targetOriginId <- await (firstOriginId (Origins parsed)) ;;
  let req := createDistributionRequest helpers now inputs parsed targetOriginId in
  res <- request (EvCreateDistribution req) (cf_createDistribution provider req) ;;
  ret (normalize res).

(** The part of update that follows the private-content flow. *)
Definition submitUpdate (distributionId : string)
    (resp : GetDistributionConfigResult) (fetched : DistributionConfig)
    (inputs : CloudFrontInputs) (parsed : ParsedOrigins) : M W Result :=
  targetOriginId <- await (firstOriginId (Origins parsed)) ;;
  let req :=
    updateDistributionRequest helpers distributionId resp fetched inputs parsed
                              targetOriginId in
  res <- request (EvUpdateDistribution req) (cf_updateDistribution provider req) ;;
  ret (normalize res).

(** The origins create and update parse, given what the provisioning
    returned ([None]: nothing was provisioned). *)
Definition flowParsed (inputs : CloudFrontInputs) (oai : option AccessIdentity)
    : ParsedOrigins :=
  parseInputOrigins helpers (origins inputs) (option_map originAccessIdentityId oai).

(** The run of [if (s3CanonicalUserId) await updateBucketsPolicies(...)]
    in create and update, from the world the provisioning left. *)
Definition grantStep (inputs : CloudFrontInputs) (oai : option AccessIdentity)
    (w : W) : Run W unit :=
  grantIfProvisioned provider (Origins (flowParsed inputs oai))
                     (option_map s3CanonicalUserId oai) w.

(** The private-content flow shared by create and update, followed by
    [submit]. *)
Definition privateContentThen (inputs : CloudFrontInputs)
    (submit : ParsedOrigins -> M W Result) : M W Result :=
  oai <- provisionIfPrivate provider inputs ;;
  let parsed := parseInputOrigins helpers (origins inputs) (option_map originAccessIdentityId oai) in
  _ <- grantIfProvisioned provider (Origins parsed) (option_map s3CanonicalUserId oai) ;;
  submit parsed.

End Decomposition.

(** ** Promise.all *)

Section PromiseAll.

Context {A : Type}.

Lemma firstRejection_None (ps : list (Promise A)) :
  firstRejection ps = None <->
  (forall p, In p ps -> isFulfilled (outcome p) = true).
Proof.
  induction ps as [|p ps IH]; simpl.
  - split; [intros _ p [] | reflexivity].
  - destruct (outcome p) as [v|e] eqn:Hp.
    + rewrite IH. split.
      * intros H q [<-|Hq]; [rewrite Hp; reflexivity | auto].
      * intros H q Hq. apply H. now right.
    + split.
      * destruct (firstRejection ps) as [[t' e']|]; [|discriminate].
        destruct (settledAt p <=? t')%nat; discriminate.
      * intros H. specialize (H p (or_introl eq_refl)).
        rewrite Hp in H. discriminate.
Qed.

(** The rejection [Promise.all] reports belongs to one of the promises
    and no rejected promise settled strictly earlier. *)
Lemma firstRejection_Some (ps : list (Promise A)) t e :
  firstRejection ps = Some (t, e) ->
  (exists p, In p ps /\ settledAt p = t /\ outcome p = Rejected e) /\
  (forall q e', In q ps -> outcome q = Rejected e' -> (t <= settledAt q)%nat).
Proof.
  revert t e. induction ps as [|p ps IH]; simpl; intros t e H; [discriminate|].
  destruct (outcome p) as [v|e0] eqn:Hp.
  - destruct (IH _ _ H) as [(p' & Hin & Ht & Ho) Hmin]. split.
    + exists p'. auto.
    + intros q e' [<-|Hq] Hq'; [congruence | eauto].
  - destruct (firstRejection ps) as [[t' e']|] eqn:Hrest.
    + destruct (IH _ _ eq_refl) as [(p' & Hin & Ht & Ho) Hmin].
      destruct (settledAt p <=? t')%nat eqn:Hle; inversion H; subst.
      * apply Nat.leb_le in Hle. split.
        -- exists p. auto.
        -- intros q e'' [<-|Hq] Hq'; [lia|].
           specialize (Hmin _ _ Hq Hq'). lia.
      * apply Nat.leb_gt in Hle. split.
        -- exists p'. auto.
        -- intros q e'' [<-|Hq] Hq'; [lia | eauto].
    + inversion H; subst. split.
      * exists p. auto.
      * intros q e' [<-|Hq] Hq'; [lia|].
        apply firstRejection_None with (p := q) in Hrest; [|assumption].
        rewrite Hq' in Hrest. discriminate.
Qed.

Lemma fulfilledValues_length (ps : list (Promise A)) :
  (forall p, In p ps -> isFulfilled (outcome p) = true) ->
  length (fulfilledValues ps) = length ps.
Proof.
  induction ps as [|p ps IH]; simpl; intros H; [reflexivity|].
  pose proof (H p (or_introl eq_refl)) as Hp.
  destruct (outcome p); [|discriminate].
  simpl. f_equal. apply IH. intros q Hq. apply H. now right.
Qed.

End PromiseAll.

Lemma units_are_tt (l : list unit) : l = map (fun _ => tt) l.
Proof. induction l as [|[] l IH]; simpl; congruence. Qed.

(** ** The bucket-policy granting step *)

Section Granting.

Context {W : Type}.
Variable provider : Provider W.


Lemma startEach_grants uid names w :
  startEach (fun bucketName => grantCloudFrontBucketAccess provider bucketName uid)
            names w
  = (grantAnswers provider uid names w,
     worldAfterGrants provider uid names w,
     map (fun n => EvGrantCloudFrontBucketAccess n uid) names).
Proof.
  revert w. induction names as [|n names IH]; intros w; simpl; [reflexivity|].
  unfold grantCloudFrontBucketAccess at 1, start.
  destruct (s3_grantBucketAccess provider n uid w) as [p w1] eqn:Hg.
  rewrite IH. reflexivity.
Qed.

Lemma grantAnswers_length uid names w :
  length (grantAnswers provider uid names w) = length names.
Proof.
  revert w. induction names as [|n names IH]; intros w; simpl; [reflexivity|].
  destruct (s3_grantBucketAccess provider n uid w). simpl. now rewrite IH.
Qed.

Lemma updateBucketsPolicies_run origins uid w :
  updateBucketsPolicies provider origins uid w
  = mkRun (Promise_all (grantAnswers provider uid (map Id (bucketBacked origins)) w))
          (worldAfterGrants provider uid (map Id (bucketBacked origins)) w)
          (map (fun origin => EvGrantCloudFrontBucketAccess (Id origin) uid)
               (bucketBacked origins)).
Proof.
  unfold updateBucketsPolicies, awaitAll, bucketBacked.
  rewrite startEach_grants, map_map. reflexivity.
Qed.

(** C7.  The granting step issues exactly one grant per origin that
    carries an S3OriginConfig, all of them whatever their fate, and
    nothing else; every grant acts on the world, also when the step
    fails.  The step is fulfilled exactly when every grant is, and
    otherwise rejected with the rejection that settled first. *)
Theorem updateBucketsPolicies_all_or_nothing (origins : CloudFront.Origins)
    (uid : string) (w : W) :
  let selected := bucketBacked origins in
  let answers := grantAnswers provider uid (map Id selected) w in
  let r := updateBucketsPolicies provider origins uid w in
  calls r = map (fun origin => EvGrantCloudFrontBucketAccess (Id origin) uid) selected
  /\ length answers = length selected
  /\ world r = worldAfterGrants provider uid (map Id selected) w
  /\ ((forall p, In p answers -> isFulfilled (outcome p) = true) <->
      result r = Fulfilled (map (fun _ => tt) selected))
  /\ (forall p e0, In p answers -> outcome p = Rejected e0 ->
      exists first e,
        result r = Rejected e
        /\ In first answers /\ outcome first = Rejected e
        /\ forall q e', In q answers -> outcome q = Rejected e' ->
                        (settledAt first <= settledAt q)%nat).
Proof.
  intros selected answers r. subst r.
  rewrite updateBucketsPolicies_run. fold selected. fold answers. simpl.
  assert (Hlen : length answers = length selected).
  { unfold answers. now rewrite grantAnswers_length, length_map. }
  repeat split; try assumption.
  - intros Hall. unfold Promise_all.
    apply firstRejection_None in Hall as Hnone. rewrite Hnone.
    f_equal. rewrite (units_are_tt (fulfilledValues answers)).
    apply fulfilledValues_length in Hall.
    rewrite <- (length_map (fun _ : CloudFront.Origin => tt) selected) in Hlen.
    clear -Hall Hlen. rewrite <- Hall in Hlen.
    revert Hlen. generalize (fulfilledValues answers) as l.
    generalize selected as s. clear.
    induction s as [|o s IH]; intros [|[] l]; simpl; intros H; try discriminate; [reflexivity|].
    f_equal. apply IH. rewrite !length_map in *. simpl in H. lia.
  - unfold Promise_all.
    destruct (firstRejection answers) as [[t e]|] eqn:Hfr; [discriminate|].
    intros _. now apply firstRejection_None.
  - intros p e0 Hin Hrej. unfold Promise_all.
    destruct (firstRejection answers) as [[t e]|] eqn:Hfr.
    + destruct (firstRejection_Some _ _ _ Hfr) as [(first & Hf & Ht & Ho) Hmin].
      exists first, e. repeat split; try assumption.
      intros q e' Hq Hq'. rewrite Ht. eauto.
    + apply firstRejection_None with (p := p) in Hfr; [|assumption].
      rewrite Hrej in Hfr. discriminate.
Qed.

(** C10.  The bucket name of every grant is the [Id] of a selected
    origin, every selected origin's [Id] is granted, and the user is
    the one passed in: a [DomainName] is granted only where it happens
    to be the [Id] of a selected origin. *)
Theorem grant_bucketName_is_origin_Id (origins : CloudFront.Origins)
    (uid : string) (w : W) :
  let r := updateBucketsPolicies provider origins uid w in
  (forall ev, In ev (calls r) ->
     exists origin, In origin (Items origins)
                    /\ isSome (S3OriginConfig origin) = true
                    /\ ev = EvGrantCloudFrontBucketAccess (Id origin) uid)
  /\ (forall origin, In origin (Items origins) ->
        isSome (S3OriginConfig origin) = true ->
        In (EvGrantCloudFrontBucketAccess (Id origin) uid) (calls r))
  /\ (forall origin, In origin (Items origins) ->
        In (EvGrantCloudFrontBucketAccess (DomainName origin) uid) (calls r) ->
        exists origin', In origin' (Items origins)
                        /\ isSome (S3OriginConfig origin') = true
                        /\ Id origin' = DomainName origin).
Proof.
  intros r. subst r. rewrite updateBucketsPolicies_run. simpl.
  assert (Hev : forall ev,
    In ev (map (fun origin => EvGrantCloudFrontBucketAccess (Id origin) uid)
               (bucketBacked origins)) ->
    exists origin, In origin (Items origins)
                   /\ isSome (S3OriginConfig origin) = true
                   /\ ev = EvGrantCloudFrontBucketAccess (Id origin) uid).
  { intros ev Hin. apply in_map_iff in Hin as (origin & <- & Hin).
    apply filter_In in Hin as [Hin Hs3]. eauto. }
  split; [exact Hev|]. split.
  - intros origin Hin Hs3. apply in_map_iff. exists origin. split; [reflexivity|].
    apply filter_In. auto.
  - intros origin _ Hin. destruct (Hev _ Hin) as (origin' & Hin' & Hs3 & Heq).
    inversion Heq. eauto.
Qed.

End Granting.



(** ** Disable and delete *)

Section DisableDelete.

Context {W : Type}.
Variable provider : Provider W.
Variable helpers : Helpers.

Lemma disable_run_fetched id w resp fetched w1 :
  cf_getDistributionConfig provider id w = (Fulfilled resp, w1) ->
  DistributionConfig_ resp = Some fetched ->
  let req := disableDistributionRequest id resp fetched in
  disableCloudFrontDistribution provider id w
  = mkRun (match fst (cf_updateDistribution provider req w1) with
           | Fulfilled res => Fulfilled (normalize res)
           | Rejected e => Rejected e
           end)
          (snd (cf_updateDistribution provider req w1))
          [EvGetDistributionConfig id; EvUpdateDistribution req].
Proof.
  intros Hget Hcfg req.
  unfold disableCloudFrontDistribution, bind, request. rewrite Hget. simpl.
  rewrite Hcfg. fold req.
  destruct (cf_updateDistribution provider req w1) as [[res|e] w2]; reflexivity.
Qed.

Lemma disable_run_missing id w resp w1 :
  cf_getDistributionConfig provider id w = (Fulfilled resp, w1) ->
  DistributionConfig_ resp = None ->
  disableCloudFrontDistribution provider id w
  = mkRun (Rejected couldNotGetConfig) w1 [EvGetDistributionConfig id].
Proof.
  intros Hget Hcfg.
  unfold disableCloudFrontDistribution, bind, request. rewrite Hget. simpl.
  rewrite Hcfg. reflexivity.
Qed.

Lemma disable_run_failed id w e w1 :
  cf_getDistributionConfig provider id w = (Rejected e, w1) ->
  disableCloudFrontDistribution provider id w
  = mkRun (Rejected e) w1 [EvGetDistributionConfig id].
Proof.
  intros Hget.
  unfold disableCloudFrontDistribution, bind, request. rewrite Hget. reflexivity.
Qed.

(** Disable never issues a delete. *)
Lemma disable_calls_no_delete id w ev :
  In ev (calls (disableCloudFrontDistribution provider id w)) -> isDelete ev = false.
Proof.
  destruct (cf_getDistributionConfig provider id w) as [[resp|e] w1] eqn:Hget.
  - destruct (DistributionConfig_ resp) as [fetched|] eqn:Hcfg.
    + rewrite (disable_run_fetched _ _ _ _ _ Hget Hcfg). simpl.
      intros [<-|[<-|[]]]; reflexivity.
    + rewrite (disable_run_missing _ _ _ _ Hget Hcfg). simpl.
      intros [<-|[]]; reflexivity.
  - rewrite (disable_run_failed _ _ _ _ Hget). simpl.
    intros [<-|[]]; reflexivity.
Qed.

(** C1, as amended.  When the fetch returns a config, disable submits
    one update request, for the same distribution and guarded by the
    fetched ETag as IfMatch.  Its config takes CallerReference, Comment,
    DefaultCacheBehavior and Origins from the fetched config and sets
    Enabled to false; CacheBehaviors, Aliases, PriceClass and
    HttpVersion are not part of the request. *)
Theorem disable_submits_required_fields (id : string) (w w1 : W)
    (resp : GetDistributionConfigResult) (fetched : DistributionConfig) :
  cf_getDistributionConfig provider id w = (Fulfilled resp, w1) ->
  DistributionConfig_ resp = Some fetched ->
  exists req,
    calls (disableCloudFrontDistribution provider id w)
      = [EvGetDistributionConfig id; EvUpdateDistribution req]
    /\ update_Id req = id
    /\ IfMatch req = ETag resp
    /\ CallerReference (update_DistributionConfig req) = CallerReference fetched
    /\ Comment (update_DistributionConfig req) = Comment fetched
    /\ DefaultCacheBehavior_ (update_DistributionConfig req) = DefaultCacheBehavior_ fetched
    /\ Origins_ (update_DistributionConfig req) = Origins_ fetched
    /\ Enabled (update_DistributionConfig req) = false
    /\ CacheBehaviors_ (update_DistributionConfig req) = None
    /\ Aliases_ (update_DistributionConfig req) = None
    /\ PriceClass (update_DistributionConfig req) = None
    /\ HttpVersion (update_DistributionConfig req) = None.
Proof.
  intros Hget Hcfg.
  exists (disableDistributionRequest id resp fetched).
  rewrite (disable_run_fetched _ _ _ _ _ Hget Hcfg). simpl.
  repeat split.
Qed.

(** How delete runs once its fetch has answered. *)
Lemma delete_run id w res w1 :
  cf_getDistributionConfig provider id w = (Fulfilled res, w1) ->
  let params := {| delete_Id := id; delete_IfMatch := ETag res |} in
  let attempt := [EvGetDistributionConfig id; EvDeleteDistribution params] in
  deleteCloudFrontDistribution provider id w
  = match cf_deleteDistribution provider params w1 with
    | (Fulfilled u, w2) => mkRun (Fulfilled u) w2 attempt
    | (Rejected e, w2) =>
        if code_is e "DistributionNotDisabled"
        then
          let d := disableCloudFrontDistribution provider id w2 in
          mkRun (match result d with
                 | Fulfilled _ => Fulfilled tt
                 | Rejected e' => Rejected e'
                 end)
                (world d) (attempt ++ calls d)
        else mkRun (Rejected e) w2 attempt
    end.
Proof.
  intros Hget params attempt.
  unfold deleteCloudFrontDistribution, try_catch, bind, request, ret, throw.
  rewrite Hget. cbn [result world calls]. fold params.
  destruct (cf_deleteDistribution provider params w1) as [[u|e] w2];
    cbn [result world calls app].
  - reflexivity.
  - destruct (code_is e "DistributionNotDisabled"); cbn [result world calls app].
    + destruct (result (disableCloudFrontDistribution provider id w2));
        cbn [result world calls]; rewrite ?app_nil_r; reflexivity.
    + reflexivity.
Qed.

(** C2, as amended.  Once the fetch has answered, delete attempts the
    delete with the fetched ETag, exactly once.  If the attempt is
    refused with code DistributionNotDisabled, delete runs disable and
    ends as disable does: fulfilled, without a value, when disable is
    fulfilled, and rejected with disable's error otherwise.  If the
    attempt is refused with any other error, that error is the
    outcome. *)
Theorem delete_falls_back_to_disable (id : string) (w w1 : W)
    (res : GetDistributionConfigResult) :
  cf_getDistributionConfig provider id w = (Fulfilled res, w1) ->
  let params := {| delete_Id := id; delete_IfMatch := ETag res |} in
  let r := deleteCloudFrontDistribution provider id w in
  (exists rest,
      calls r = EvGetDistributionConfig id :: EvDeleteDistribution params :: rest
      /\ forall ev, In ev rest -> isDelete ev = false)
  /\ (forall w2,
        cf_deleteDistribution provider params w1 = (Fulfilled tt, w2) ->
        result r = Fulfilled tt)
  /\ (forall e w2,
        cf_deleteDistribution provider params w1 = (Rejected e, w2) ->
        code_is e "DistributionNotDisabled" = true ->
        let d := disableCloudFrontDistribution provider id w2 in
        calls r = [EvGetDistributionConfig id; EvDeleteDistribution params] ++ calls d
        /\ (forall v, result d = Fulfilled v -> result r = Fulfilled tt)
        /\ (forall e', result d = Rejected e' -> result r = Rejected e'))
  /\ (forall e w2,
        cf_deleteDistribution provider params w1 = (Rejected e, w2) ->
        code_is e "DistributionNotDisabled" = false ->
        result r = Rejected e
        /\ calls r = [EvGetDistributionConfig id; EvDeleteDistribution params]).
Proof.
  intros Hget params r. subst r.
  rewrite (delete_run _ _ _ _ Hget). fold params.
  destruct (cf_deleteDistribution provider params w1) as [[u|e] w2] eqn:Hdel.
  - split; [|split; [|split]].
    + exists []. split; [reflexivity | intros ev []].
    + intros w2' H. inversion H; subst. reflexivity.
    + intros e w2' H. discriminate.
    + intros e w2' H. discriminate.
  - destruct (code_is e "DistributionNotDisabled") eqn:Hcode.
    + split; [|split; [|split]].
      * eexists. split; [reflexivity|]. simpl. apply disable_calls_no_delete.
      * intros w2' H. discriminate.
      * intros e0 w2' H _. inversion H; subst. simpl. split; [reflexivity|].
        split; intros x Hx; rewrite Hx; reflexivity.
      * intros e0 w2' H Hc. inversion H; subst. congruence.
    + split; [|split; [|split]].
      * exists []. split; [reflexivity | intros ev []].
      * intros w2' H. discriminate.
      * intros e0 w2' H Hc. inversion H; subst. congruence.
      * intros e0 w2' H _. inversion H; subst. split; reflexivity.
Qed.

End DisableDelete.

(** ** Sequencing *)

Section Sequencing.

Context {W A B : Type}.

Lemma bind_calls (m : M W A) (k : A -> M W B) (w : W) :
  calls (bind m k w)
  = calls (m w) ++ match result (m w) with
                   | Fulfilled a => calls (k a (world (m w)))
                   | Rejected _ => []
                   end.
Proof.
  unfold bind. destruct (result (m w)); simpl; [reflexivity|].
  now rewrite app_nil_r.
Qed.

Lemma bind_result (m : M W A) (k : A -> M W B) (w : W) :
  result (bind m k w)
  = match result (m w) with
    | Fulfilled a => result (k a (world (m w)))
    | Rejected e => Rejected e
    end.
Proof. unfold bind. destruct (result (m w)); reflexivity. Qed.

Lemma bind_world (m : M W A) (k : A -> M W B) (w : W) :
  world (bind m k w)
  = match result (m w) with
    | Fulfilled a => world (k a (world (m w)))
    | Rejected e => world (m w)
    end.
Proof. unfold bind. destruct (result (m w)); reflexivity. Qed.

Lemma request_run (ev : Event) (h : W -> Outcome A * W) (w : W) :
  request ev h w = mkRun (fst (h w)) (snd (h w)) [ev].
Proof. unfold request. destruct (h w). reflexivity. Qed.

End Sequencing.

(** ** Create and update *)

Section CreateUpdate.

Context {W : Type}.
Variable provider : Provider W.
Variable helpers : Helpers.


Lemma create_unfold inputs :
  createCloudFrontDistribution provider helpers inputs
  = privateContentThen provider helpers inputs (submitCreate provider helpers inputs).
Proof. reflexivity. Qed.

Lemma update_unfold id inputs w :
  updateCloudFrontDistribution provider helpers id inputs w
  = let g := cf_getDistributionConfig provider id w in
    match fst g with
    | Fulfilled resp =>
        match DistributionConfig_ resp with
        | Some fetched =>
            let r := privateContentThen provider helpers inputs (submitUpdate provider helpers id resp fetched inputs) (snd g) in
            mkRun (result r) (world r) (EvGetDistributionConfig id :: calls r)
        | None => mkRun (Rejected couldNotGetConfig) (snd g) [EvGetDistributionConfig id]
        end
    | Rejected e => mkRun (Rejected e) (snd g) [EvGetDistributionConfig id]
    end.
Proof.
  unfold updateCloudFrontDistribution. unfold bind at 1. rewrite request_run.
  cbn [result world calls].
  destruct (cf_getDistributionConfig provider id w) as [[resp|e] w1];
    cbn [fst snd]; [|reflexivity].
  destruct (DistributionConfig_ resp) as [fetched|]; reflexivity.
Qed.

(** *** Provisioning *)

Lemma provision_skipped inputs w :
  servePrivateContentEnabled inputs = false ->
  provisionIfPrivate provider inputs w = mkRun (Fulfilled None) w [].
Proof. intros H. unfold provisionIfPrivate. rewrite H. reflexivity. Qed.

Lemma provision_run inputs w :
  servePrivateContentEnabled inputs = true ->
  provisionIfPrivate provider inputs w
  = mkRun (match fst (cf_createOriginAccessIdentity provider w) with
           | Fulfilled oai => Fulfilled (Some oai)
           | Rejected e => Rejected e
           end)
          (snd (cf_createOriginAccessIdentity provider w))
          [EvCreateOriginAccessIdentity].
Proof.
  intros H. unfold provisionIfPrivate, createOriginAccessIdentity, bind. rewrite H.
  rewrite request_run. cbn [result world calls].
  destruct (cf_createOriginAccessIdentity provider w) as [[oai|e] w1]; reflexivity.
Qed.

Lemma provision_calls inputs w ev :
  In ev (calls (provisionIfPrivate provider inputs w)) -> ev = EvCreateOriginAccessIdentity.
Proof.
  destruct (servePrivateContentEnabled inputs) eqn:H.
  - rewrite (provision_run _ _ H). simpl. intros [<-|[]]. reflexivity.
  - rewrite (provision_skipped _ _ H). intros [].
Qed.

(** Without provisioning there is no identity. *)
Lemma provision_skipped_result inputs w oai :
  servePrivateContentEnabled inputs = false ->
  result (provisionIfPrivate provider inputs w) = Fulfilled oai -> oai = None.
Proof. intros H. rewrite (provision_skipped _ _ H). simpl. congruence. Qed.

(** *** Granting *)

Lemma grant_skipped Origins uid w :
  truthy uid = false ->
  grantIfProvisioned provider Origins uid w = mkRun (Fulfilled tt) w [].
Proof.
  intros H. unfold grantIfProvisioned. destruct uid as [u|]; [|reflexivity].
  rewrite H. reflexivity.
Qed.

Lemma grant_run Origins u w :
  truthy (Some u) = true ->
  let names := map Id (bucketBacked Origins) in
  grantIfProvisioned provider Origins (Some u) w
  = mkRun (match Promise_all (grantAnswers provider u names w) with
           | Fulfilled _ => Fulfilled tt
           | Rejected e => Rejected e
           end)
          (worldAfterGrants provider u names w)
          (map (fun origin => EvGrantCloudFrontBucketAccess (Id origin) u)
               (bucketBacked Origins)).
Proof.
  intros H names. unfold grantIfProvisioned. rewrite H. unfold bind.
  rewrite updateBucketsPolicies_run. cbn [result world calls]. fold names.
  destruct (Promise_all (grantAnswers provider u names w));
    cbn [result world calls]; rewrite ?app_nil_r; reflexivity.
Qed.

Lemma grant_calls Origins uid w ev :
  In ev (calls (grantIfProvisioned provider Origins uid w)) -> isGrant ev = true.
Proof.
  destruct (truthy uid) eqn:H.
  - destruct uid as [u|]; [|discriminate].
    rewrite (grant_run _ _ _ H). simpl.
    intros Hin. apply in_map_iff in Hin as (o & <- & _). reflexivity.
  - rewrite (grant_skipped _ _ _ H). intros [].
Qed.

(** *** Submitting *)

Lemma submitCreate_run inputs parsed w :
  submitCreate provider helpers inputs parsed w
  = match firstOriginId (Origins parsed) with
    | Fulfilled targetOriginId =>
        let req :=
          createDistributionRequest helpers (Date_now provider w) inputs parsed
                                    targetOriginId in
        mkRun (match fst (cf_createDistribution provider req w) with
               | Fulfilled res => Fulfilled (normalize res)
               | Rejected e => Rejected e
               end)
              (snd (cf_createDistribution provider req w))
              [EvCreateDistribution req]
    | Rejected e => mkRun (Rejected e) w []
    end.
Proof.
  unfold submitCreate, bind, peek, await. cbn [result world calls].
  destruct (firstOriginId (Origins parsed)) as [t|e]; cbn [result world calls];
    [|reflexivity].
  rewrite request_run. cbn [result world calls].
  destruct (cf_createDistribution provider _ w) as [[res|e] w1]; reflexivity.
Qed.

Lemma submitUpdate_run id resp fetched inputs parsed w :
  submitUpdate provider helpers id resp fetched inputs parsed w
  = match firstOriginId (Origins parsed) with
    | Fulfilled targetOriginId =>
        let req :=
          updateDistributionRequest helpers id resp fetched inputs parsed
                                    targetOriginId in
        mkRun (match fst (cf_updateDistribution provider req w) with
               | Fulfilled res => Fulfilled (normalize res)
               | Rejected e => Rejected e
               end)
              (snd (cf_updateDistribution provider req w))
              [EvUpdateDistribution req]
    | Rejected e => mkRun (Rejected e) w []
    end.
Proof.
  unfold submitUpdate, bind, await. cbn [result world calls].
  destruct (firstOriginId (Origins parsed)) as [t|e]; cbn [result world calls];
    [|reflexivity].
  rewrite request_run. cbn [result world calls].
  destruct (cf_updateDistribution provider _ w) as [[res|e] w1]; reflexivity.
Qed.

Lemma firstOriginId_Fulfilled Origins t :
  firstOriginId Origins = Fulfilled t ->
  exists origin, nth_error (Items Origins) 0 = Some origin /\ t = Id origin.
Proof.
  unfold firstOriginId. destruct (nth_error (Items Origins) 0) as [o|]; [|discriminate].
  intros H. inversion H. eauto.
Qed.

(** *** The flow as a whole *)

Lemma privateContentThen_calls inputs submit w :
  calls (privateContentThen provider helpers inputs submit w)
  = let p := provisionIfPrivate provider inputs w in
    calls p ++
    match result p with
    | Fulfilled oai =>
        let parsed :=
          parseInputOrigins helpers (origins inputs)
                            (option_map originAccessIdentityId oai) in
        let g := grantIfProvisioned provider (Origins parsed)
                                    (option_map s3CanonicalUserId oai) (world p) in
        calls g ++
        match result g with
        | Fulfilled _ => calls (submit parsed (world g))
        | Rejected _ => []
        end
    | Rejected _ => []
    end.
Proof.
  unfold privateContentThen. rewrite bind_calls. cbn zeta.
  destruct (result (provisionIfPrivate provider inputs w)) as [oai|e]; [|reflexivity].
  rewrite bind_calls. reflexivity.
Qed.

Lemma privateContentThen_result inputs submit w :
  result (privateContentThen provider helpers inputs submit w)
  = let p := provisionIfPrivate provider inputs w in
    match result p with
    | Fulfilled oai =>
        let parsed :=
          parseInputOrigins helpers (origins inputs)
                            (option_map originAccessIdentityId oai) in
        let g := grantIfProvisioned provider (Origins parsed)
                                    (option_map s3CanonicalUserId oai) (world p) in
        match result g with
        | Fulfilled _ => result (submit parsed (world g))
        | Rejected e => Rejected e
        end
    | Rejected e => Rejected e
    end.
Proof.
  unfold privateContentThen. rewrite bind_result. cbn zeta.
  destruct (result (provisionIfPrivate provider inputs w)) as [oai|e]; [|reflexivity].
  rewrite bind_result. reflexivity.
Qed.

(** Every call of the flow is the provisioning, a grant, or a call of
    [submit] on the origins parsed with the provisioned identity. *)
Lemma privateContentThen_classified inputs submit w ev :
  In ev (calls (privateContentThen provider helpers inputs submit w)) ->
  ev = EvCreateOriginAccessIdentity
  \/ isGrant ev = true
  \/ exists oai w',
       result (provisionIfPrivate provider inputs w) = Fulfilled oai
       /\ In ev (calls (submit (parseInputOrigins helpers (origins inputs)
                                  (option_map originAccessIdentityId oai)) w')).
Proof.
  rewrite privateContentThen_calls. cbn zeta. intros Hin.
  apply in_app_or in Hin as [Hin|Hin].
  - left. eauto using provision_calls.
  - destruct (result (provisionIfPrivate provider inputs w)) as [oai|e] eqn:Hp;
      [|destruct Hin].
    apply in_app_or in Hin as [Hin|Hin].
    + right. left. eauto using grant_calls.
    + destruct (result (grantIfProvisioned _ _ _ _)); [|destruct Hin].
      right. right. eauto.
Qed.

Lemma submitCreate_calls inputs parsed w ev :
  In ev (calls (submitCreate provider helpers inputs parsed w)) ->
  exists origin,
    nth_error (Items (Origins parsed)) 0 = Some origin
    /\ ev = EvCreateDistribution
              (createDistributionRequest helpers (Date_now provider w) inputs parsed
                                         (Id origin)).
Proof.
  rewrite submitCreate_run.
  destruct (firstOriginId (Origins parsed)) as [t|e] eqn:Hf; [|intros []].
  apply firstOriginId_Fulfilled in Hf as (origin & Hnth & ->).
  simpl. intros [<-|[]]. eauto.
Qed.

Lemma submitUpdate_calls id resp fetched inputs parsed w ev :
  In ev (calls (submitUpdate provider helpers id resp fetched inputs parsed w)) ->
  exists origin,
    nth_error (Items (Origins parsed)) 0 = Some origin
    /\ ev = EvUpdateDistribution
              (updateDistributionRequest helpers id resp fetched inputs parsed
                                         (Id origin)).
Proof.
  rewrite submitUpdate_run.
  destruct (firstOriginId (Origins parsed)) as [t|e] eqn:Hf; [|intros []].
  apply firstOriginId_Fulfilled in Hf as (origin & Hnth & ->).
  simpl. intros [<-|[]]. eauto.
Qed.

(** A fulfilled submit has sent its request. *)
Lemma submitCreate_fulfilled inputs parsed w v :
  result (submitCreate provider helpers inputs parsed w) = Fulfilled v ->
  exists req, In (EvCreateDistribution req)
                 (calls (submitCreate provider helpers inputs parsed w)).
Proof.
  rewrite submitCreate_run.
  destruct (firstOriginId (Origins parsed)) as [t|e]; [|discriminate].
  simpl. eauto.
Qed.

Lemma submitUpdate_fulfilled id resp fetched inputs parsed w v :
  result (submitUpdate provider helpers id resp fetched inputs parsed w) = Fulfilled v ->
  exists req, In (EvUpdateDistribution req)
                 (calls (submitUpdate provider helpers id resp fetched inputs parsed w)).
Proof.
  rewrite submitUpdate_run.
  destruct (firstOriginId (Origins parsed)) as [t|e]; [|discriminate].
  simpl. eauto.
Qed.

Lemma privateContentThen_fulfilled inputs submit w v :
  result (privateContentThen provider helpers inputs submit w) = Fulfilled v ->
  exists parsed w',
    result (submit parsed w') = Fulfilled v
    /\ forall ev, In ev (calls (submit parsed w')) ->
                  In ev (calls (privateContentThen provider helpers inputs submit w)).
Proof.
  rewrite privateContentThen_result, privateContentThen_calls. cbn zeta.
  destruct (result (provisionIfPrivate provider inputs w)) as [oai|e]; [|discriminate].
  destruct (result (grantIfProvisioned _ _ _ _)) as [[]|e]; [|discriminate].
  intros H. do 2 eexists. split; [exact H|].
  intros ev Hin. apply in_or_app. right. apply in_or_app. now right.
Qed.

(** The requests create sends. *)
Lemma create_requests inputs w req :
  In (EvCreateDistribution req)
     (calls (createCloudFrontDistribution provider helpers inputs w)) ->
  exists oai w' origin,
    let parsed := parseInputOrigins helpers (origins inputs)
                                    (option_map originAccessIdentityId oai) in
    result (provisionIfPrivate provider inputs w) = Fulfilled oai
    /\ nth_error (Items (Origins parsed)) 0 = Some origin
    /\ req = createDistributionRequest helpers (Date_now provider w') inputs parsed
                                       (Id origin).
Proof.
  rewrite create_unfold. intros Hin.
  apply privateContentThen_classified in Hin as [H|[H|(oai & w' & Hp & Hin)]];
    try discriminate.
  apply submitCreate_calls in Hin as (origin & Hnth & Heq).
  inversion Heq. exists oai, w', origin. cbn zeta. auto.
Qed.

(** The requests update sends. *)
Lemma update_requests id inputs w req :
  In (EvUpdateDistribution req)
     (calls (updateCloudFrontDistribution provider helpers id inputs w)) ->
  exists resp fetched oai origin,
    let g := cf_getDistributionConfig provider id w in
    let parsed := parseInputOrigins helpers (origins inputs)
                                    (option_map originAccessIdentityId oai) in
    fst g = Fulfilled resp
    /\ DistributionConfig_ resp = Some fetched
    /\ result (provisionIfPrivate provider inputs (snd g)) = Fulfilled oai
    /\ nth_error (Items (Origins parsed)) 0 = Some origin
    /\ req = updateDistributionRequest helpers id resp fetched inputs parsed (Id origin).
Proof.
  rewrite update_unfold. cbn zeta.
  destruct (fst (cf_getDistributionConfig provider id w)) as [resp|e] eqn:Hg.
  - destruct (DistributionConfig_ resp) as [fetched|] eqn:Hc.
    + cbn [calls]. intros [H|Hin]; [discriminate|].
      apply privateContentThen_classified in Hin as [H|[H|(oai & w' & Hp & Hin)]];
        try discriminate.
      apply submitUpdate_calls in Hin as (origin & Hnth & Heq).
      inversion Heq. exists resp, fetched, oai, origin. auto.
    + cbn [calls]. intros [H|[]]. discriminate.
  - cbn [calls]. intros [H|[]]. discriminate.
Qed.

(** *** The ways create and update can run *)

Lemma provision_result_cases inputs (w : W) oai :
  result (provisionIfPrivate provider inputs w) = Fulfilled oai ->
  (servePrivateContentEnabled inputs = false /\ oai = None)
  \/ (servePrivateContentEnabled inputs = true
      /\ exists a w1,
          cf_createOriginAccessIdentity provider w = (Fulfilled a, w1)
          /\ oai = Some a).
Proof.
  destruct (servePrivateContentEnabled inputs) eqn:Hpriv.
  - rewrite (provision_run _ _ Hpriv). cbn [result].
    destruct (cf_createOriginAccessIdentity provider w) as [[a|e] w1]; cbn [fst];
      [|discriminate].
    intros H. inversion H. right. split; [reflexivity|]. eauto.
  - rewrite (provision_skipped _ _ Hpriv). cbn [result]. intros H. inversion H.
    left. split; reflexivity.
Qed.

Lemma flow_cases inputs submit (w : W) :
  (exists e,
      result (provisionIfPrivate provider inputs w) = Rejected e
      /\ privateContentThen provider helpers inputs submit w
         = mkRun (Rejected e)
                 (world (provisionIfPrivate provider inputs w))
                 (calls (provisionIfPrivate provider inputs w)))
  \/ (exists oai e,
        result (provisionIfPrivate provider inputs w) = Fulfilled oai
        /\ result (grantStep provider helpers inputs oai
                     (world (provisionIfPrivate provider inputs w))) = Rejected e
        /\ privateContentThen provider helpers inputs submit w
           = mkRun (Rejected e)
                   (world (grantStep provider helpers inputs oai
                             (world (provisionIfPrivate provider inputs w))))
                   (calls (provisionIfPrivate provider inputs w)
                    ++ calls (grantStep provider helpers inputs oai
                                (world (provisionIfPrivate provider inputs w)))))
  \/ (exists oai u,
        result (provisionIfPrivate provider inputs w) = Fulfilled oai
        /\ result (grantStep provider helpers inputs oai
                     (world (provisionIfPrivate provider inputs w))) = Fulfilled u
        /\ privateContentThen provider helpers inputs submit w
           = mkRun (result (submit (flowParsed helpers inputs oai)
                              (world (grantStep provider helpers inputs oai
                                        (world (provisionIfPrivate provider inputs w))))))
                   (world (submit (flowParsed helpers inputs oai)
                             (world (grantStep provider helpers inputs oai
                                       (world (provisionIfPrivate provider inputs w))))))
                   (calls (provisionIfPrivate provider inputs w)
                    ++ calls (grantStep provider helpers inputs oai
                                (world (provisionIfPrivate provider inputs w)))
                    ++ calls (submit (flowParsed helpers inputs oai)
                                (world (grantStep provider helpers inputs oai
                                          (world (provisionIfPrivate provider inputs w))))))).
Proof.
  unfold privateContentThen, bind, grantStep, flowParsed.
  destruct (result (provisionIfPrivate provider inputs w)) as [oai|e].
  - cbn [result world calls].
    destruct (result (grantIfProvisioned provider _ _ _)) as [u|e] eqn:Hg.
    + right. right. exists oai, u. split; [reflexivity|]. split; [exact Hg|].
      reflexivity.
    + right. left. exists oai, e. split; [reflexivity|]. split; [exact Hg|].
      reflexivity.
  - left. exists e. split; reflexivity.
Qed.

(** The calls before the request are the provisioning and the grants. *)
Lemma flow_prefix_quiet inputs oai (w : W) ev :
  In ev (calls (provisionIfPrivate provider inputs w)
         ++ calls (grantStep provider helpers inputs oai
                     (world (provisionIfPrivate provider inputs w)))) ->
  isProvision ev = true \/ isGrant ev = true.
Proof.
  intros Hin. apply in_app_or in Hin as [Hin|Hin].
  - apply provision_calls in Hin. subst ev. now left.
  - right. eapply grant_calls. exact Hin.
Qed.

(** Create: the provisioning is rejected, or the granting step is, or
    the first origin is missing, or the request goes out. *)
Lemma create_cases inputs (w : W) :
  (exists e,
      result (provisionIfPrivate provider inputs w) = Rejected e
      /\ createCloudFrontDistribution provider helpers inputs w
         = mkRun (Rejected e)
                 (world (provisionIfPrivate provider inputs w))
                 (calls (provisionIfPrivate provider inputs w)))
  \/ (exists oai e,
        result (provisionIfPrivate provider inputs w) = Fulfilled oai
        /\ result (grantStep provider helpers inputs oai
                     (world (provisionIfPrivate provider inputs w))) = Rejected e
        /\ createCloudFrontDistribution provider helpers inputs w
           = mkRun (Rejected e)
                   (world (grantStep provider helpers inputs oai
                             (world (provisionIfPrivate provider inputs w))))
                   (calls (provisionIfPrivate provider inputs w)
                    ++ calls (grantStep provider helpers inputs oai
                                (world (provisionIfPrivate provider inputs w)))))
  \/ (exists oai u,
        result (provisionIfPrivate provider inputs w) = Fulfilled oai
        /\ result (grantStep provider helpers inputs oai
                     (world (provisionIfPrivate provider inputs w))) = Fulfilled u
        /\ Items (Origins (flowParsed helpers inputs oai)) = []
        /\ createCloudFrontDistribution provider helpers inputs w
           = mkRun (Rejected (TypeError_reading "Id"))
                   (world (grantStep provider helpers inputs oai
                             (world (provisionIfPrivate provider inputs w))))
                   (calls (provisionIfPrivate provider inputs w)
                    ++ calls (grantStep provider helpers inputs oai
                                (world (provisionIfPrivate provider inputs w)))
                    ++ []))
  \/ (exists oai u origin,
        result (provisionIfPrivate provider inputs w) = Fulfilled oai
        /\ result (grantStep provider helpers inputs oai
                     (world (provisionIfPrivate provider inputs w))) = Fulfilled u
        /\ nth_error (Items (Origins (flowParsed helpers inputs oai))) 0 = Some origin
        /\ createCloudFrontDistribution provider helpers inputs w
           = mkRun (match fst (cf_createDistribution provider
                                 (createDistributionRequest helpers
                                    (Date_now provider
                                       (world (grantStep provider helpers inputs oai
                                                 (world (provisionIfPrivate provider inputs w)))))
                                    inputs (flowParsed helpers inputs oai) (Id origin))
                                 (world (grantStep provider helpers inputs oai
                                           (world (provisionIfPrivate provider inputs w)))))
                    with
                    | Fulfilled res => Fulfilled (normalize res)
                    | Rejected e => Rejected e
                    end)
                   (snd (cf_createDistribution provider
                           (createDistributionRequest helpers
                              (Date_now provider
                                 (world (grantStep provider helpers inputs oai
                                           (world (provisionIfPrivate provider inputs w)))))
                              inputs (flowParsed helpers inputs oai) (Id origin))
                           (world (grantStep provider helpers inputs oai
                                     (world (provisionIfPrivate provider inputs w))))))
                   (calls (provisionIfPrivate provider inputs w)
                    ++ calls (grantStep provider helpers inputs oai
                                (world (provisionIfPrivate provider inputs w)))
                    ++ [EvCreateDistribution
                          (createDistributionRequest helpers
                             (Date_now provider
                                (world (grantStep provider helpers inputs oai
                                          (world (provisionIfPrivate provider inputs w)))))
                             inputs (flowParsed helpers inputs oai) (Id origin))])).
Proof.
  rewrite create_unfold.
  destruct (flow_cases inputs (submitCreate provider helpers inputs) w)
    as [(e & Hp & ->)|[(oai & e & Hp & Hg & ->)|(oai & u & Hp & Hg & ->)]].
  - left. exists e. split; [exact Hp | reflexivity].
  - right. left. exists oai, e. split; [exact Hp|]. split; [exact Hg | reflexivity].
  - right. right. rewrite submitCreate_run. unfold firstOriginId.
    destruct (Items (Origins (flowParsed helpers inputs oai))) as [|origin rest] eqn:Hitems.
    + left. exists oai, u. split; [exact Hp|]. split; [exact Hg|].
      split; [first [exact Hitems | reflexivity] | rewrite ?Hitems; reflexivity].
    + right. exists oai, u, origin. split; [exact Hp|]. split; [exact Hg|].
      split; [rewrite ?Hitems; reflexivity | rewrite ?Hitems; reflexivity].
Qed.

(** Update, once its fetch has returned a config: the same four ways,
    after the fetch. *)
Lemma update_cases id inputs (w w0 : W) resp fetched :
  cf_getDistributionConfig provider id w = (Fulfilled resp, w0) ->
  DistributionConfig_ resp = Some fetched ->
  (exists e,
      result (provisionIfPrivate provider inputs w0) = Rejected e
      /\ updateCloudFrontDistribution provider helpers id inputs w
         = mkRun (Rejected e)
                 (world (provisionIfPrivate provider inputs w0))
                 (EvGetDistributionConfig id
                  :: calls (provisionIfPrivate provider inputs w0)))
  \/ (exists oai e,
        result (provisionIfPrivate provider inputs w0) = Fulfilled oai
        /\ result (grantStep provider helpers inputs oai
                     (world (provisionIfPrivate provider inputs w0))) = Rejected e
        /\ updateCloudFrontDistribution provider helpers id inputs w
           = mkRun (Rejected e)
                   (world (grantStep provider helpers inputs oai
                             (world (provisionIfPrivate provider inputs w0))))
                   (EvGetDistributionConfig id
                    :: calls (provisionIfPrivate provider inputs w0)
                    ++ calls (grantStep provider helpers inputs oai
                                (world (provisionIfPrivate provider inputs w0)))))
  \/ (exists oai u,
        result (provisionIfPrivate provider inputs w0) = Fulfilled oai
        /\ result (grantStep provider helpers inputs oai
                     (world (provisionIfPrivate provider inputs w0))) = Fulfilled u
        /\ Items (Origins (flowParsed helpers inputs oai)) = []
        /\ updateCloudFrontDistribution provider helpers id inputs w
           = mkRun (Rejected (TypeError_reading "Id"))
                   (world (grantStep provider helpers inputs oai
                             (world (provisionIfPrivate provider inputs w0))))
                   (EvGetDistributionConfig id
                    :: calls (provisionIfPrivate provider inputs w0)
                    ++ calls (grantStep provider helpers inputs oai
                                (world (provisionIfPrivate provider inputs w0)))
                    ++ []))
  \/ (exists oai u origin,
        result (provisionIfPrivate provider inputs w0) = Fulfilled oai
        /\ result (grantStep provider helpers inputs oai
                     (world (provisionIfPrivate provider inputs w0))) = Fulfilled u
        /\ nth_error (Items (Origins (flowParsed helpers inputs oai))) 0 = Some origin
        /\ updateCloudFrontDistribution provider helpers id inputs w
           = mkRun (match fst (cf_updateDistribution provider
                                 (updateDistributionRequest helpers id resp fetched inputs
                                    (flowParsed helpers inputs oai) (Id origin))
                                 (world (grantStep provider helpers inputs oai
                                           (world (provisionIfPrivate provider inputs w0)))))
                    with
                    | Fulfilled res => Fulfilled (normalize res)
                    | Rejected e => Rejected e
                    end)
                   (snd (cf_updateDistribution provider
                           (updateDistributionRequest helpers id resp fetched inputs
                              (flowParsed helpers inputs oai) (Id origin))
                           (world (grantStep provider helpers inputs oai
                                     (world (provisionIfPrivate provider inputs w0))))))
                   (EvGetDistributionConfig id
                    :: calls (provisionIfPrivate provider inputs w0)
                    ++ calls (grantStep provider helpers inputs oai
                                (world (provisionIfPrivate provider inputs w0)))
                    ++ [EvUpdateDistribution
                          (updateDistributionRequest helpers id resp fetched inputs
                             (flowParsed helpers inputs oai) (Id origin))])).
Proof.
  intros Hget Hcfg. rewrite update_unfold. cbn zeta. rewrite Hget. cbn [fst snd].
  rewrite Hcfg.
  destruct (flow_cases inputs (submitUpdate provider helpers id resp fetched inputs) w0)
    as [(e & Hp & ->)|[(oai & e & Hp & Hg & ->)|(oai & u & Hp & Hg & ->)]];
    cbn [result world calls].
  - left. exists e. split; [exact Hp | reflexivity].
  - right. left. exists oai, e. split; [exact Hp|]. split; [exact Hg | reflexivity].
  - right. right. rewrite submitUpdate_run. unfold firstOriginId.
    destruct (Items (Origins (flowParsed helpers inputs oai))) as [|origin rest] eqn:Hitems.
    + left. exists oai, u. split; [exact Hp|]. split; [exact Hg|].
      split; [first [exact Hitems | reflexivity] | rewrite ?Hitems; reflexivity].
    + right. exists oai, u, origin. split; [exact Hp|]. split; [exact Hg|].
      split; [rewrite ?Hitems; reflexivity | rewrite ?Hitems; reflexivity].
Qed.

(** With parsed origins at hand, create is rejected by the provisioning
    or by the granting step, or else its request goes out, for the first
    parsed origin, and decides the outcome. *)
Lemma create_reaches_request inputs (w : W) :
  (forall oaiId,
      Items (Origins (parseInputOrigins helpers (origins inputs) oaiId)) <> []) ->
  (exists e,
      result (provisionIfPrivate provider inputs w) = Rejected e
      /\ result (createCloudFrontDistribution provider helpers inputs w) = Rejected e
      /\ calls (createCloudFrontDistribution provider helpers inputs w)
         = calls (provisionIfPrivate provider inputs w))
  \/ (exists oai e,
        let g := grantStep provider helpers inputs oai
                           (world (provisionIfPrivate provider inputs w)) in
        result (provisionIfPrivate provider inputs w) = Fulfilled oai
        /\ result g = Rejected e
        /\ result (createCloudFrontDistribution provider helpers inputs w) = Rejected e
        /\ calls (createCloudFrontDistribution provider helpers inputs w)
           = calls (provisionIfPrivate provider inputs w) ++ calls g)
  \/ (exists oai origin,
        let g := grantStep provider helpers inputs oai
                           (world (provisionIfPrivate provider inputs w)) in
        let req := createDistributionRequest helpers (Date_now provider (world g)) inputs
                                             (flowParsed helpers inputs oai) (Id origin) in
        result (provisionIfPrivate provider inputs w) = Fulfilled oai
        /\ nth_error (Items (Origins (flowParsed helpers inputs oai))) 0 = Some origin
        /\ calls (createCloudFrontDistribution provider helpers inputs w)
           = calls (provisionIfPrivate provider inputs w) ++ calls g
             ++ [EvCreateDistribution req]
        /\ result (createCloudFrontDistribution provider helpers inputs w)
           = match fst (cf_createDistribution provider req (world g)) with
             | Fulfilled res => Fulfilled (normalize res)
             | Rejected e => Rejected e
             end).
Proof.
  intros Hne.
  destruct (create_cases inputs w)
    as [(e & Hp & Hrun)|[(oai & e & Hp & Hg & Hrun)
        |[(oai & u & Hp & Hg & Hitems & Hrun)|(oai & u & origin & Hp & Hg & Hnth & Hrun)]]];
    rewrite Hrun.
  - left. exists e. repeat split. exact Hp.
  - right. left. exists oai, e. cbn zeta. repeat split; assumption.
  - exfalso. exact (Hne _ Hitems).
  - right. right. exists oai, origin. cbn zeta. repeat split; assumption.
Qed.

Lemma update_reaches_request id inputs (w w0 : W) resp fetched :
  cf_getDistributionConfig provider id w = (Fulfilled resp, w0) ->
  DistributionConfig_ resp = Some fetched ->
  (forall oaiId,
      Items (Origins (parseInputOrigins helpers (origins inputs) oaiId)) <> []) ->
  (exists e,
      result (provisionIfPrivate provider inputs w0) = Rejected e
      /\ result (updateCloudFrontDistribution provider helpers id inputs w) = Rejected e
      /\ calls (updateCloudFrontDistribution provider helpers id inputs w)
         = EvGetDistributionConfig id :: calls (provisionIfPrivate provider inputs w0))
  \/ (exists oai e,
        let g := grantStep provider helpers inputs oai
                           (world (provisionIfPrivate provider inputs w0)) in
        result (provisionIfPrivate provider inputs w0) = Fulfilled oai
        /\ result g = Rejected e
        /\ result (updateCloudFrontDistribution provider helpers id inputs w) = Rejected e
        /\ calls (updateCloudFrontDistribution provider helpers id inputs w)
           = EvGetDistributionConfig id
             :: calls (provisionIfPrivate provider inputs w0) ++ calls g)
  \/ (exists oai origin,
        let g := grantStep provider helpers inputs oai
                           (world (provisionIfPrivate provider inputs w0)) in
        let req := updateDistributionRequest helpers id resp fetched inputs
                                             (flowParsed helpers inputs oai) (Id origin) in
        result (provisionIfPrivate provider inputs w0) = Fulfilled oai
        /\ nth_error (Items (Origins (flowParsed helpers inputs oai))) 0 = Some origin
        /\ calls (updateCloudFrontDistribution provider helpers id inputs w)
           = EvGetDistributionConfig id
             :: calls (provisionIfPrivate provider inputs w0) ++ calls g
                ++ [EvUpdateDistribution req]
        /\ result (updateCloudFrontDistribution provider helpers id inputs w)
           = match fst (cf_updateDistribution provider req (world g)) with
             | Fulfilled res => Fulfilled (normalize res)
             | Rejected e => Rejected e
             end).
Proof.
  intros Hget Hcfg Hne.
  destruct (update_cases id inputs w w0 resp fetched Hget Hcfg)
    as [(e & Hp & Hrun)|[(oai & e & Hp & Hg & Hrun)
        |[(oai & u & Hp & Hg & Hitems & Hrun)|(oai & u & origin & Hp & Hg & Hnth & Hrun)]]];
    rewrite Hrun.
  - left. exists e. repeat split. exact Hp.
  - right. left. exists oai, e. cbn zeta. repeat split; assumption.
  - exfalso. exact (Hne _ Hitems).
  - right. right. exists oai, origin. cbn zeta. repeat split; assumption.
Qed.

Lemma prefix_has_no_request inputs oai (w : W) ev :
  In ev (calls (provisionIfPrivate provider inputs w)
         ++ calls (grantStep provider helpers inputs oai
                     (world (provisionIfPrivate provider inputs w)))) ->
  isCreate ev = false /\ isUpdate ev = false /\ isFetch ev = false.
Proof.
  intros Hin. apply flow_prefix_quiet in Hin.
  destruct ev; simpl in *; destruct Hin; try discriminate; auto.
Qed.

Lemma provision_has_no_request inputs (w : W) ev :
  In ev (calls (provisionIfPrivate provider inputs w)) ->
  isCreate ev = false /\ isUpdate ev = false /\ isFetch ev = false.
Proof. intros Hin. apply provision_calls in Hin. subst ev. auto. Qed.

(** The create request of a run, and the run around it. *)
Lemma create_request_pinned inputs (w : W) req :
  In (EvCreateDistribution req)
     (calls (createCloudFrontDistribution provider helpers inputs w)) ->
  exists oai origin,
    let g := grantStep provider helpers inputs oai
                       (world (provisionIfPrivate provider inputs w)) in
    result (provisionIfPrivate provider inputs w) = Fulfilled oai
    /\ nth_error (Items (Origins (flowParsed helpers inputs oai))) 0 = Some origin
    /\ req = createDistributionRequest helpers (Date_now provider (world g)) inputs
                                       (flowParsed helpers inputs oai) (Id origin)
    /\ calls (createCloudFrontDistribution provider helpers inputs w)
       = calls (provisionIfPrivate provider inputs w) ++ calls g
         ++ [EvCreateDistribution req]
    /\ result (createCloudFrontDistribution provider helpers inputs w)
       = match fst (cf_createDistribution provider req (world g)) with
         | Fulfilled res => Fulfilled (normalize res)
         | Rejected e => Rejected e
         end
    /\ world (createCloudFrontDistribution provider helpers inputs w)
       = snd (cf_createDistribution provider req (world g)).
Proof.
  destruct (create_cases inputs w)
    as [(e & Hp & Hrun)|[(oai & e & Hp & Hg & Hrun)
        |[(oai & u & Hp & Hg & Hitems & Hrun)|(oai & u & origin & Hp & Hg & Hnth & Hrun)]]];
    rewrite Hrun; cbn [result world calls]; intros Hin.
  - apply provision_has_no_request in Hin. destruct Hin. discriminate.
  - apply prefix_has_no_request in Hin. destruct Hin. discriminate.
  - rewrite app_nil_r in Hin. apply prefix_has_no_request in Hin. destruct Hin.
    discriminate.
  - rewrite app_assoc in Hin. apply in_app_or in Hin as [Hin|[Heq|[]]].
    + apply prefix_has_no_request in Hin. destruct Hin. discriminate.
    + inversion Heq. exists oai, origin. cbn zeta. repeat split; assumption.
Qed.

(** The update request of a run, and the run around it. *)
Lemma update_request_pinned id inputs (w : W) req :
  In (EvUpdateDistribution req)
     (calls (updateCloudFrontDistribution provider helpers id inputs w)) ->
  exists resp fetched oai origin,
    let w0 := snd (cf_getDistributionConfig provider id w) in
    let g := grantStep provider helpers inputs oai
                       (world (provisionIfPrivate provider inputs w0)) in
    fst (cf_getDistributionConfig provider id w) = Fulfilled resp
    /\ DistributionConfig_ resp = Some fetched
    /\ result (provisionIfPrivate provider inputs w0) = Fulfilled oai
    /\ nth_error (Items (Origins (flowParsed helpers inputs oai))) 0 = Some origin
    /\ req = updateDistributionRequest helpers id resp fetched inputs
                                       (flowParsed helpers inputs oai) (Id origin)
    /\ calls (updateCloudFrontDistribution provider helpers id inputs w)
       = EvGetDistributionConfig id
         :: calls (provisionIfPrivate provider inputs w0) ++ calls g
            ++ [EvUpdateDistribution req]
    /\ result (updateCloudFrontDistribution provider helpers id inputs w)
       = match fst (cf_updateDistribution provider req (world g)) with
         | Fulfilled res => Fulfilled (normalize res)
         | Rejected e => Rejected e
         end
    /\ world (updateCloudFrontDistribution provider helpers id inputs w)
       = snd (cf_updateDistribution provider req (world g)).
Proof.
  destruct (cf_getDistributionConfig provider id w) as [[resp|e] w0] eqn:Hget.
  - destruct (DistributionConfig_ resp) as [fetched|] eqn:Hcfg.
    + destruct (update_cases id inputs w w0 resp fetched Hget Hcfg)
        as [(e & Hp & Hrun)|[(oai & e & Hp & Hg & Hrun)
            |[(oai & u & Hp & Hg & Hitems & Hrun)
             |(oai & u & origin & Hp & Hg & Hnth & Hrun)]]];
        rewrite Hrun; cbn [result world calls fst snd]; intros [Hin|Hin];
        try discriminate.
      * apply provision_has_no_request in Hin. destruct Hin as (_ & Hin & _).
        discriminate.
      * apply prefix_has_no_request in Hin. destruct Hin as (_ & Hin & _).
        discriminate.
      * rewrite app_nil_r in Hin. apply prefix_has_no_request in Hin.
        destruct Hin as (_ & Hin & _). discriminate.
      * rewrite app_assoc in Hin. apply in_app_or in Hin as [Hin|[Heq|[]]].
        -- apply prefix_has_no_request in Hin. destruct Hin as (_ & Hin & _).
           discriminate.
        -- inversion Heq. exists resp, fetched, oai, origin. cbn zeta.
           repeat split; assumption.
    + rewrite update_unfold. cbn zeta. rewrite Hget. cbn [fst snd]. rewrite Hcfg.
      cbn [calls]. intros [H|[]]. discriminate.
  - rewrite update_unfold. cbn zeta. rewrite Hget. cbn [fst snd calls].
    intros [H|[]]. discriminate.
Qed.

End CreateUpdate.

(** ** Properties of the lifecycle operations *)

Section Lifecycle.

Context {W : Type}.
Variable provider : Provider W.
Variable helpers : Helpers.

Lemma indexed_length {A} (l : list A) : length (indexed l) = length l.
Proof. unfold indexed. rewrite length_combine, length_seq. lia. Qed.

Lemma parse_length origins oaiId :
  length (Items (Origins (parseInputOrigins helpers origins oaiId))) = length origins.
Proof. simpl. now rewrite length_map, indexed_length. Qed.

Lemma parse_Quantity origins oaiId :
  Quantity (Origins (parseInputOrigins helpers origins oaiId)) = length origins.
Proof. simpl. now rewrite length_map, indexed_length. Qed.

Lemma servePrivate_false inputs :
  (forall origin, In origin (origins inputs) -> privateFlag origin <> Some true) ->
  servePrivateContentEnabled inputs = false.
Proof.
  intros H. unfold servePrivateContentEnabled.
  destruct (existsb isPrivateOrigin (origins inputs)) eqn:Hex; [|reflexivity].
  apply existsb_exists in Hex as (origin & Hin & Hp).
  specialize (H origin Hin). destruct origin as [s|o]; simpl in *.
  - rewrite andb_false_r in Hp. discriminate.
  - destruct (private o) as [[|]|]; congruence.
Qed.

Lemma servePrivate_true inputs :
  (exists origin, In origin (origins inputs) /\ privateFlag origin = Some true) ->
  servePrivateContentEnabled inputs = true.
Proof.
  intros (origin & Hin & Hp). apply existsb_exists. exists origin. split; [assumption|].
  destruct origin as [s|o]; simpl in *; [discriminate|]. now rewrite Hp.
Qed.

(** C3, as amended.  When the fetch answers without a config, update
    and disable fail with the fixed message and have issued nothing but
    the fetch.  Delete does not look at the config of its own fetch: it
    issues the delete with the fetched ETag all the same, and reports
    the fixed message only through the disable fallback, when that
    delete was refused as not disabled and the second fetch answers
    without a config too. *)
Theorem missing_config_is_reported (id : string) (w w1 : W)
    (resp : GetDistributionConfigResult) :
  cf_getDistributionConfig provider id w = (Fulfilled resp, w1) ->
  DistributionConfig_ resp = None ->
  message couldNotGetConfig = "Could not get a distribution config"
  /\ (forall inputs,
        result (updateCloudFrontDistribution provider helpers id inputs w)
          = Rejected couldNotGetConfig
        /\ calls (updateCloudFrontDistribution provider helpers id inputs w)
          = [EvGetDistributionConfig id])
  /\ (result (disableCloudFrontDistribution provider id w) = Rejected couldNotGetConfig
      /\ calls (disableCloudFrontDistribution provider id w)
         = [EvGetDistributionConfig id])
  /\ (let params := {| delete_Id := id; delete_IfMatch := ETag resp |} in
      (exists rest,
          calls (deleteCloudFrontDistribution provider id w)
          = EvGetDistributionConfig id :: EvDeleteDistribution params :: rest)
      /\ forall e w2 resp' w3,
          cf_deleteDistribution provider params w1 = (Rejected e, w2) ->
          code_is e "DistributionNotDisabled" = true ->
          cf_getDistributionConfig provider id w2 = (Fulfilled resp', w3) ->
          DistributionConfig_ resp' = None ->
          result (deleteCloudFrontDistribution provider id w) = Rejected couldNotGetConfig
          /\ calls (deleteCloudFrontDistribution provider id w)
             = [EvGetDistributionConfig id; EvDeleteDistribution params;
                EvGetDistributionConfig id]).
Proof.
  intros Hget Hcfg. split; [reflexivity|]. split; [|split].
  - intros inputs. rewrite update_unfold. cbn zeta. rewrite Hget. cbn [fst snd].
    rewrite Hcfg. split; reflexivity.
  - rewrite (disable_run_missing _ _ _ _ _ Hget Hcfg). split; reflexivity.
  - cbn zeta. rewrite (delete_run _ _ _ _ _ Hget). split.
    + destruct (cf_deleteDistribution provider _ w1) as [[u|e] w2].
      * eexists. reflexivity.
      * destruct (code_is e "DistributionNotDisabled"); eexists; reflexivity.
    + intros e w2 resp' w3 Hdel Hcode Hget' Hcfg'. rewrite Hdel, Hcode.
      rewrite (disable_run_missing _ _ _ _ _ Hget' Hcfg'). split; reflexivity.
Qed.

(** C4, as amended.  Every update request carries the CallerReference
    of the fetched config and is guarded by the fetched ETag; a
    fulfilled update has sent one.  With the inputs unchanged except
    that enabled goes from true to false, the submitted config differs
    only in Enabled from the config the same invocation submits with
    enabled true.  Against the fetched config, when the provider hands
    out the same identity on every provisioning: if the fetched config
    is the one an update submitted for the inputs with enabled true, the
    submitted config differs from it only in Enabled; if it is the one
    create submitted for them, the submitted config differs from it only
    in Enabled and in Aliases, PriceClass and HttpVersion, which create
    sets and an update request does not carry. *)
Theorem update_preserves_CallerReference (id : string) (w w1 : W)
    (resp : GetDistributionConfigResult) (fetched : DistributionConfig) :
  cf_getDistributionConfig provider id w = (Fulfilled resp, w1) ->
  DistributionConfig_ resp = Some fetched ->
  (forall inputs req,
      In (EvUpdateDistribution req)
         (calls (updateCloudFrontDistribution provider helpers id inputs w)) ->
      CallerReference (update_DistributionConfig req) = CallerReference fetched
      /\ IfMatch req = ETag resp
      /\ update_Id req = id)
  /\ (forall inputs v,
        result (updateCloudFrontDistribution provider helpers id inputs w) = Fulfilled v ->
        exists req,
          In (EvUpdateDistribution req)
             (calls (updateCloudFrontDistribution provider helpers id inputs w)))
  /\ (forall inputs req_on req_off,
        In (EvUpdateDistribution req_on)
           (calls (updateCloudFrontDistribution provider helpers id
                     (withInputEnabled true inputs) w)) ->
        In (EvUpdateDistribution req_off)
           (calls (updateCloudFrontDistribution provider helpers id
                     (withInputEnabled false inputs) w)) ->
        update_DistributionConfig req_off
          = withEnabled false (update_DistributionConfig req_on)
        /\ Enabled (update_DistributionConfig req_on) = true)
  /\ ((forall wa wb a b wa' wb',
          cf_createOriginAccessIdentity provider wa = (Fulfilled a, wa') ->
          cf_createOriginAccessIdentity provider wb = (Fulfilled b, wb') ->
          originAccessIdentityId a = originAccessIdentityId b) ->
      forall inputs req,
        In (EvUpdateDistribution req)
           (calls (updateCloudFrontDistribution provider helpers id
                     (withInputEnabled false inputs) w)) ->
        (forall id0 w0 prev,
            In (EvUpdateDistribution prev)
               (calls (updateCloudFrontDistribution provider helpers id0
                         (withInputEnabled true inputs) w0)) ->
            update_DistributionConfig prev = fetched ->
            update_DistributionConfig req = withEnabled false fetched)
        /\ (forall w0 prev,
              In (EvCreateDistribution prev)
                 (calls (createCloudFrontDistribution provider helpers
                           (withInputEnabled true inputs) w0)) ->
              create_DistributionConfig prev = fetched ->
              update_DistributionConfig req = withoutOptional (withEnabled false fetched)
              /\ Aliases_ fetched = Some {| al_Quantity := 0; al_Items := [] |}
              /\ PriceClass fetched = Some "PriceClass_All"
              /\ HttpVersion fetched = Some "http2")).
Proof.
  intros Hget Hcfg. split; [|split; [|split]].
  - intros inputs req Hin.
    apply update_requests in Hin as (resp' & fetched' & oai & origin & H).
    cbn zeta in H. rewrite Hget in H. cbn [fst snd] in H.
    destruct H as (Hr & Hc & _ & _ & ->). inversion Hr; subst resp'.
    rewrite Hcfg in Hc. inversion Hc; subst fetched'. repeat split.
  - intros inputs v. rewrite update_unfold. cbn zeta. rewrite Hget. cbn [fst snd].
    rewrite Hcfg. cbn [result calls]. intros Hres.
    apply privateContentThen_fulfilled in Hres as (parsed & w' & Hres & Hsub).
    apply submitUpdate_fulfilled in Hres as (req & Hin).
    exists req. right. auto.
  - intros inputs req_on req_off Hon Hoff.
    apply update_requests in Hon as (r1 & f1 & oai1 & o1 & H1).
    apply update_requests in Hoff as (r2 & f2 & oai2 & o2 & H2).
    cbn zeta in H1, H2. rewrite Hget in H1, H2. cbn [fst snd] in H1, H2.
    destruct H1 as (Hr1 & Hc1 & Hp1 & Hn1 & ->).
    destruct H2 as (Hr2 & Hc2 & Hp2 & Hn2 & ->).
    inversion Hr1; subst r1. inversion Hr2; subst r2.
    rewrite Hcfg in Hc1, Hc2. inversion Hc1; subst f1. inversion Hc2; subst f2.
    change (provisionIfPrivate provider (withInputEnabled false inputs) w1)
      with (provisionIfPrivate provider (withInputEnabled true inputs) w1) in Hp2.
    rewrite Hp1 in Hp2. inversion Hp2; subst oai2.
    cbn [origins withInputEnabled] in Hn1, Hn2. rewrite Hn1 in Hn2.
    inversion Hn2; subst o2. split; reflexivity.
  - intros Hsame inputs req Hin.
    apply update_requests in Hin as (r2 & f2 & oai2 & o2 & H2).
    cbn zeta in H2. rewrite Hget in H2. cbn [fst snd] in H2.
    destruct H2 as (Hr2 & Hc2 & Hp2 & Hn2 & ->).
    inversion Hr2; subst r2. rewrite Hcfg in Hc2. inversion Hc2; subst f2.
    cbn [origins withInputEnabled] in Hn2.
    assert (Hid : forall w0 oai1,
      result (provisionIfPrivate provider (withInputEnabled true inputs) w0)
        = Fulfilled oai1 ->
      option_map originAccessIdentityId oai1 = option_map originAccessIdentityId oai2).
    { intros w0 oai1 Hp1.
      apply provision_result_cases in Hp1 as [(Hpub1 & ->)|(Hpriv1 & a & wa' & Ha & ->)];
        apply provision_result_cases in Hp2 as [(Hpub2 & ->)|(Hpriv2 & b & wb' & Hb & ->)];
        try reflexivity.
      - change (servePrivateContentEnabled (withInputEnabled false inputs))
          with (servePrivateContentEnabled (withInputEnabled true inputs)) in Hpriv2.
        congruence.
      - change (servePrivateContentEnabled (withInputEnabled false inputs))
          with (servePrivateContentEnabled (withInputEnabled true inputs)) in Hpub2.
        congruence.
      - simpl. f_equal. eapply Hsame; eassumption. }
    split.
    + intros id0 w0 prev Hprev Heq.
      apply update_requests in Hprev as (r1 & f1 & oai1 & o1 & H1). cbn zeta in H1.
      destruct H1 as (_ & _ & Hp1 & Hn1 & ->).
      cbn [origins withInputEnabled] in Hn1.
      rewrite (Hid _ _ Hp1) in Hn1. rewrite Hn1 in Hn2. inversion Hn2; subst o2.
      subst fetched. cbn. rewrite (Hid _ _ Hp1). reflexivity.
    + intros w0 prev Hprev Heq.
      apply create_requests in Hprev as (oai1 & w' & o1 & H1). cbn zeta in H1.
      destruct H1 as (Hp1 & Hn1 & ->).
      cbn [origins withInputEnabled] in Hn1.
      rewrite (Hid _ _ Hp1) in Hn1. rewrite Hn1 in Hn2. inversion Hn2; subst o2.
      subst fetched. cbn. rewrite (Hid _ _ Hp1). repeat split.
Qed.

Lemma parse_nonempty origins oaiId :
  origins <> [] ->
  Items (Origins (parseInputOrigins helpers origins oaiId)) <> [].
Proof.
  intros Hne Hitems. apply (f_equal (@length _)) in Hitems.
  rewrite parse_length in Hitems. destruct origins; [congruence | discriminate].
Qed.

(** C5.  A non-empty list of input origins parses to at least one
    origin, counted as such.  The Origins of every create request and of
    every update request are the origins parsed from the inputs, and the
    TargetOriginId of its DefaultCacheBehavior is the Id of the first of
    them.  With a non-empty list, create and update send that request
    unless the provisioning or the granting step is rejected; a
    fulfilled create or update has sent it. *)
Theorem default_behavior_targets_first_origin (inputs : CloudFrontInputs) :
  origins inputs <> [] ->
  (forall oaiId,
      let parsed := parseInputOrigins helpers (origins inputs) oaiId in
      (1 <= length (Items (Origins parsed)))%nat
      /\ Quantity (Origins parsed) = length (Items (Origins parsed)))
  /\ (forall w req,
        In (EvCreateDistribution req)
           (calls (createCloudFrontDistribution provider helpers inputs w)) ->
        exists oai origin,
          result (provisionIfPrivate provider inputs w) = Fulfilled oai
          /\ Origins_ (create_DistributionConfig req)
             = Origins (parseInputOrigins helpers (origins inputs)
                          (option_map originAccessIdentityId oai))
          /\ nth_error (Items (Origins (parseInputOrigins helpers (origins inputs)
                                          (option_map originAccessIdentityId oai)))) 0
             = Some origin
          /\ nth_error (Items (Origins_ (create_DistributionConfig req))) 0 = Some origin
          /\ TargetOriginId (DefaultCacheBehavior_ (create_DistributionConfig req))
             = Id origin)
  /\ (forall id w req,
        In (EvUpdateDistribution req)
           (calls (updateCloudFrontDistribution provider helpers id inputs w)) ->
        exists oai origin,
          result (provisionIfPrivate provider inputs
                    (snd (cf_getDistributionConfig provider id w))) = Fulfilled oai
          /\ Origins_ (update_DistributionConfig req)
             = Origins (parseInputOrigins helpers (origins inputs)
                          (option_map originAccessIdentityId oai))
          /\ nth_error (Items (Origins (parseInputOrigins helpers (origins inputs)
                                          (option_map originAccessIdentityId oai)))) 0
             = Some origin
          /\ nth_error (Items (Origins_ (update_DistributionConfig req))) 0 = Some origin
          /\ TargetOriginId (DefaultCacheBehavior_ (update_DistributionConfig req))
             = Id origin)
  /\ (forall w,
        (exists e,
            result (provisionIfPrivate provider inputs w) = Rejected e
            /\ result (createCloudFrontDistribution provider helpers inputs w)
               = Rejected e)
        \/ (exists oai e,
              result (provisionIfPrivate provider inputs w) = Fulfilled oai
              /\ result (grantStep provider helpers inputs oai
                           (world (provisionIfPrivate provider inputs w))) = Rejected e
              /\ result (createCloudFrontDistribution provider helpers inputs w)
                 = Rejected e)
        \/ (exists before req origin,
              calls (createCloudFrontDistribution provider helpers inputs w)
                = before ++ [EvCreateDistribution req]
              /\ nth_error (Items (Origins_ (create_DistributionConfig req))) 0
                 = Some origin
              /\ TargetOriginId (DefaultCacheBehavior_ (create_DistributionConfig req))
                 = Id origin))
  /\ (forall id w w0 resp fetched,
        cf_getDistributionConfig provider id w = (Fulfilled resp, w0) ->
        DistributionConfig_ resp = Some fetched ->
        (exists e,
            result (provisionIfPrivate provider inputs w0) = Rejected e
            /\ result (updateCloudFrontDistribution provider helpers id inputs w)
               = Rejected e)
        \/ (exists oai e,
              result (provisionIfPrivate provider inputs w0) = Fulfilled oai
              /\ result (grantStep provider helpers inputs oai
                           (world (provisionIfPrivate provider inputs w0))) = Rejected e
              /\ result (updateCloudFrontDistribution provider helpers id inputs w)
                 = Rejected e)
        \/ (exists before req origin,
              calls (updateCloudFrontDistribution provider helpers id inputs w)
                = before ++ [EvUpdateDistribution req]
              /\ nth_error (Items (Origins_ (update_DistributionConfig req))) 0
                 = Some origin
              /\ TargetOriginId (DefaultCacheBehavior_ (update_DistributionConfig req))
                 = Id origin))
  /\ (forall w v,
        result (createCloudFrontDistribution provider helpers inputs w) = Fulfilled v ->
        exists req,
          In (EvCreateDistribution req)
             (calls (createCloudFrontDistribution provider helpers inputs w)))
  /\ (forall id w v,
        result (updateCloudFrontDistribution provider helpers id inputs w) = Fulfilled v ->
        exists req,
          In (EvUpdateDistribution req)
             (calls (updateCloudFrontDistribution provider helpers id inputs w))).
Proof.
  intros Hne.
  assert (Hparsed : forall oaiId,
    Items (Origins (parseInputOrigins helpers (origins inputs) oaiId)) <> []).
  { intros oaiId. now apply parse_nonempty. }
  split; [|split; [|split; [|split; [|split; [|split]]]]].
  - intros oaiId parsed. subst parsed.
    rewrite parse_Quantity, parse_length.
    destruct (origins inputs); [congruence | simpl; split; [lia | reflexivity]].
  - intros w req Hin.
    apply create_request_pinned in Hin as (oai & origin & H). cbn zeta in H.
    destruct H as (Hp & Hnth & -> & _). exists oai, origin.
    split; [exact Hp|]. split; [reflexivity|]. split; [exact Hnth|].
    split; [exact Hnth | reflexivity].
  - intros id w req Hin.
    apply update_request_pinned in Hin as (resp & fetched & oai & origin & H).
    cbn zeta in H. destruct H as (_ & _ & Hp & Hnth & -> & _). exists oai, origin.
    split; [exact Hp|]. split; [reflexivity|]. split; [exact Hnth|].
    split; [exact Hnth | reflexivity].
  - intros w.
    destruct (create_reaches_request provider helpers inputs w Hparsed)
      as [(e & Hp & Hres & _)|[(oai & e & H)|(oai & origin & H)]].
    + left. eauto.
    + right. left. cbn zeta in H. destruct H as (Hp & Hg & Hres & _). eauto.
    + right. right. cbn zeta in H. destruct H as (_ & Hnth & Hcalls & _).
      rewrite app_assoc in Hcalls. do 3 eexists. split; [exact Hcalls|].
      split; [exact Hnth | reflexivity].
  - intros id w w0 resp fetched Hget Hcfg.
    destruct (update_reaches_request provider helpers id inputs w w0 resp fetched
                Hget Hcfg Hparsed)
      as [(e & Hp & Hres & _)|[(oai & e & H)|(oai & origin & H)]].
    + left. eauto.
    + right. left. cbn zeta in H. destruct H as (Hp & Hg & Hres & _). eauto.
    + right. right. cbn zeta in H. destruct H as (_ & Hnth & Hcalls & _).
      rewrite app_assoc, app_comm_cons in Hcalls. do 3 eexists.
      split; [exact Hcalls|]. split; [exact Hnth | reflexivity].
  - intros w v. rewrite create_unfold. intros Hres.
    apply privateContentThen_fulfilled in Hres as (parsed & w' & Hres & Hsub).
    apply submitCreate_fulfilled in Hres as (req & Hin). eauto.
  - intros id w v. rewrite update_unfold. cbn zeta.
    destruct (fst (cf_getDistributionConfig provider id w)) as [resp|e]; [|discriminate].
    destruct (DistributionConfig_ resp) as [fetched|]; [|discriminate].
    cbn [result calls]. intros Hres.
    apply privateContentThen_fulfilled in Hres as (parsed & w' & Hres & Hsub).
    apply submitUpdate_fulfilled in Hres as (req & Hin).
    exists req. right. auto.
Qed.

Lemma grant_is_not_provision ev : isGrant ev = true -> isProvision ev = false.
Proof. destruct ev; simpl; congruence. Qed.

Lemma submitCreate_quiet inputs parsed (w : W) ev :
  In ev (calls (submitCreate provider helpers inputs parsed w)) ->
  isProvision ev = false /\ isGrant ev = false.
Proof.
  intros Hin. apply submitCreate_calls in Hin as (origin & _ & ->). split; reflexivity.
Qed.

Lemma submitUpdate_quiet id resp fetched inputs parsed (w : W) ev :
  In ev (calls (submitUpdate provider helpers id resp fetched inputs parsed w)) ->
  isProvision ev = false /\ isGrant ev = false.
Proof.
  intros Hin. apply submitUpdate_calls in Hin as (origin & _ & ->). split; reflexivity.
Qed.

Lemma truthy_nonempty u : u <> "" -> truthy (Some u) = true.
Proof. intros H. simpl. apply String.eqb_neq in H. now rewrite H. Qed.

(** Without a private origin the flow is [submit] alone. *)
Lemma privateContentThen_public inputs submit (w : W) :
  servePrivateContentEnabled inputs = false ->
  calls (privateContentThen provider helpers inputs submit w)
    = calls (submit (parseInputOrigins helpers (origins inputs) None) w)
  /\ result (privateContentThen provider helpers inputs submit w)
    = result (submit (parseInputOrigins helpers (origins inputs) None) w).
Proof.
  intros H. rewrite privateContentThen_calls, privateContentThen_result. cbn zeta.
  rewrite (provision_skipped _ _ _ H). cbn [result world calls option_map].
  rewrite grant_skipped by reflexivity. split; reflexivity.
Qed.

(** With a private origin: the provisioning comes first and only once;
    the grants follow it when the identity has a canonical user id. *)
Lemma privateContentThen_private inputs submit (w : W) :
  servePrivateContentEnabled inputs = true ->
  (forall parsed w' ev, In ev (calls (submit parsed w')) ->
                        isProvision ev = false /\ isGrant ev = false) ->
  (exists rest,
      calls (privateContentThen provider helpers inputs submit w)
        = EvCreateOriginAccessIdentity :: rest
      /\ forall ev, In ev rest -> isProvision ev = false)
  /\ (forall oai w1,
        cf_createOriginAccessIdentity provider w = (Fulfilled oai, w1) ->
        s3CanonicalUserId oai <> "" ->
        exists tail,
          calls (privateContentThen provider helpers inputs submit w)
            = EvCreateOriginAccessIdentity
              :: map (fun origin =>
                        EvGrantCloudFrontBucketAccess (Id origin) (s3CanonicalUserId oai))
                     (bucketBacked
                        (Origins (parseInputOrigins helpers (origins inputs)
                                    (Some (originAccessIdentityId oai)))))
              ++ tail
          /\ forall ev, In ev tail -> isProvision ev = false /\ isGrant ev = false)
  /\ (forall oai w1,
        cf_createOriginAccessIdentity provider w = (Fulfilled oai, w1) ->
        s3CanonicalUserId oai = "" ->
        forall ev, In ev (calls (privateContentThen provider helpers inputs submit w)) ->
                   isGrant ev = false).
Proof.
  intros Hpriv Hsubmit. rewrite privateContentThen_calls. cbn zeta.
  rewrite (provision_run _ _ _ Hpriv). cbn [result world calls].
  split; [|split].
  - eexists. split; [reflexivity|].
    destruct (fst (cf_createOriginAccessIdentity provider w)) as [oai|e];
      [|intros ev []].
    intros ev Hin. apply in_app_or in Hin as [Hin|Hin].
    + eauto using grant_is_not_provision, grant_calls.
    + destruct (result (grantIfProvisioned _ _ _ _)); [|destruct Hin].
      apply Hsubmit in Hin. tauto.
  - intros oai w1 Hoai Huid. rewrite Hoai. cbn [fst snd option_map].
    rewrite (grant_run _ _ _ _ (truthy_nonempty _ Huid)). cbn [result world calls].
    eexists. split; [reflexivity|].
    destruct (Promise_all _); [|intros ev []]. apply Hsubmit.
  - intros oai w1 Hoai Huid. rewrite Hoai. cbn [fst snd option_map].
    rewrite grant_skipped by (rewrite Huid; reflexivity).
    cbn [result world calls app]. intros ev [<-|Hin]; [reflexivity|].
    apply Hsubmit in Hin. tauto.
Qed.

(** C6, as amended.  If some input origin has private set to true,
    create starts with the provisioning of the access identity and
    provisions only once, and so does update once its fetch has returned
    a config.  If the provisioning returns a non-empty canonical user
    id, it is followed at once by one grant for each parsed origin with
    an S3OriginConfig, in order, for that user, and by no other grant;
    if the id is empty, no grant is issued; if the provisioning is
    rejected, the operation is rejected with its error and nothing
    follows it, so no grant is issued either. *)
Theorem private_content_flow (inputs : CloudFrontInputs) :
  (exists origin, In origin (origins inputs) /\ privateFlag origin = Some true) ->
  (forall w,
      let r := createCloudFrontDistribution provider helpers inputs w in
      (exists rest,
          calls r = EvCreateOriginAccessIdentity :: rest
          /\ forall ev, In ev rest -> isProvision ev = false)
      /\ (forall oai w1,
            cf_createOriginAccessIdentity provider w = (Fulfilled oai, w1) ->
            s3CanonicalUserId oai <> "" ->
            exists tail,
              calls r
                = EvCreateOriginAccessIdentity
                  :: map (fun origin =>
                            EvGrantCloudFrontBucketAccess (Id origin)
                                                          (s3CanonicalUserId oai))
                         (bucketBacked
                            (Origins (parseInputOrigins helpers (origins inputs)
                                        (Some (originAccessIdentityId oai)))))
                  ++ tail
              /\ forall ev, In ev tail -> isProvision ev = false /\ isGrant ev = false)
      /\ (forall oai w1,
            cf_createOriginAccessIdentity provider w = (Fulfilled oai, w1) ->
            s3CanonicalUserId oai = "" ->
            forall ev, In ev (calls r) -> isGrant ev = false)
      /\ (forall e w1,
            cf_createOriginAccessIdentity provider w = (Rejected e, w1) ->
            result r = Rejected e
            /\ calls r = [EvCreateOriginAccessIdentity]
            /\ forall ev, In ev (calls r) -> isGrant ev = false))
  /\ (forall id w w0 resp fetched,
        cf_getDistributionConfig provider id w = (Fulfilled resp, w0) ->
        DistributionConfig_ resp = Some fetched ->
        let r := updateCloudFrontDistribution provider helpers id inputs w in
        (exists rest,
            calls r = EvGetDistributionConfig id :: EvCreateOriginAccessIdentity :: rest
            /\ forall ev, In ev rest -> isProvision ev = false)
        /\ (forall oai w1,
              cf_createOriginAccessIdentity provider w0 = (Fulfilled oai, w1) ->
              s3CanonicalUserId oai <> "" ->
              exists tail,
                calls r
                  = EvGetDistributionConfig id
                    :: EvCreateOriginAccessIdentity
                    :: map (fun origin =>
                              EvGrantCloudFrontBucketAccess (Id origin)
                                                            (s3CanonicalUserId oai))
                           (bucketBacked
                              (Origins (parseInputOrigins helpers (origins inputs)
                                          (Some (originAccessIdentityId oai)))))
                    ++ tail
                /\ forall ev, In ev tail -> isProvision ev = false /\ isGrant ev = false)
        /\ (forall oai w1,
              cf_createOriginAccessIdentity provider w0 = (Fulfilled oai, w1) ->
              s3CanonicalUserId oai = "" ->
              forall ev, In ev (calls r) -> isGrant ev = false)
        /\ (forall e w1,
              cf_createOriginAccessIdentity provider w0 = (Rejected e, w1) ->
              result r = Rejected e
              /\ calls r = [EvGetDistributionConfig id; EvCreateOriginAccessIdentity]
              /\ forall ev, In ev (calls r) -> isGrant ev = false)).
Proof.
  intros Hex. apply servePrivate_true in Hex as Hpriv.
  assert (Hrejected : forall submit w e w1,
    cf_createOriginAccessIdentity provider w = (Rejected e, w1) ->
    privateContentThen provider helpers inputs submit w
    = mkRun (Rejected e) w1 [EvCreateOriginAccessIdentity]).
  { intros submit w e w1 Hoai. unfold privateContentThen, bind.
    rewrite (provision_run _ _ _ Hpriv), Hoai. reflexivity. }
  split.
  - intros w r. subst r. rewrite create_unfold.
    destruct (privateContentThen_private inputs (submitCreate provider helpers inputs)
                                         w Hpriv) as (Hfirst & Hgrants & Hnone).
    { intros parsed w' ev. apply submitCreate_quiet. }
    split; [exact Hfirst|]. split; [exact Hgrants|]. split; [exact Hnone|].
    intros e w1 Hoai. rewrite (Hrejected _ _ _ _ Hoai). cbn [result calls].
    split; [reflexivity|]. split; [reflexivity|].
    intros ev [<-|[]]. reflexivity.
  - intros id w w0 resp fetched Hget Hcfg r. subst r.
    rewrite update_unfold. cbn zeta. rewrite Hget. cbn [fst snd]. rewrite Hcfg.
    cbn [calls result].
    destruct (privateContentThen_private inputs
                (submitUpdate provider helpers id resp fetched inputs) w0 Hpriv)
      as ((rest & Hcalls & Hrest) & Hgrants & Hnone).
    { intros parsed w' ev. apply submitUpdate_quiet. }
    split; [|split; [|split]].
    + exists rest. rewrite Hcalls. auto.
    + intros oai w1 Hoai Huid.
      destruct (Hgrants oai w1 Hoai Huid) as (tail & Htail & Hquiet).
      exists tail. rewrite Htail. auto.
    + intros oai w1 Hoai Huid ev [<-|Hin]; [reflexivity|]. eauto.
    + intros e w1 Hoai. rewrite (Hrejected _ _ _ _ Hoai). cbn [result calls].
      split; [reflexivity|]. split; [reflexivity|].
      intros ev [<-|[<-|[]]]; reflexivity.
Qed.

(** C8.  When parseInputOrigins returns non-empty Items for the inputs,
    the access [Origins.Items[0].Id] yields the Id of the first item:
    create and update never end in its TypeError, they are rejected by
    the provisioning or by the granting step, or else send their request
    for the first parsed origin and end as the provider answers it.
    Nothing guards the access: with empty parsed Items the TypeError of
    the access ends the operation, for create before any call when
    nothing is private, for update right after its fetch. *)
Theorem first_origin_in_bounds (inputs : CloudFrontInputs) :
  (forall oaiId,
      Items (Origins (parseInputOrigins helpers (origins inputs) oaiId)) <> []) ->
  (forall oaiId,
      exists origin,
        nth_error (Items (Origins (parseInputOrigins helpers (origins inputs) oaiId))) 0
          = Some origin
        /\ firstOriginId (Origins (parseInputOrigins helpers (origins inputs) oaiId))
           = Fulfilled (Id origin))
  /\ (forall w,
        (exists e,
            result (provisionIfPrivate provider inputs w) = Rejected e
            /\ result (createCloudFrontDistribution provider helpers inputs w)
               = Rejected e
            /\ calls (createCloudFrontDistribution provider helpers inputs w)
               = calls (provisionIfPrivate provider inputs w))
        \/ (exists oai e,
              let g := grantStep provider helpers inputs oai
                                 (world (provisionIfPrivate provider inputs w)) in
              result (provisionIfPrivate provider inputs w) = Fulfilled oai
              /\ result g = Rejected e
              /\ result (createCloudFrontDistribution provider helpers inputs w)
                 = Rejected e
              /\ calls (createCloudFrontDistribution provider helpers inputs w)
                 = calls (provisionIfPrivate provider inputs w) ++ calls g)
        \/ (exists oai origin,
              let g := grantStep provider helpers inputs oai
                                 (world (provisionIfPrivate provider inputs w)) in
              let req :=
                createDistributionRequest helpers (Date_now provider (world g)) inputs
                                          (flowParsed helpers inputs oai) (Id origin) in
              result (provisionIfPrivate provider inputs w) = Fulfilled oai
              /\ nth_error (Items (Origins (flowParsed helpers inputs oai))) 0
                 = Some origin
              /\ calls (createCloudFrontDistribution provider helpers inputs w)
                 = calls (provisionIfPrivate provider inputs w) ++ calls g
                   ++ [EvCreateDistribution req]
              /\ result (createCloudFrontDistribution provider helpers inputs w)
                 = match fst (cf_createDistribution provider req (world g)) with
                   | Fulfilled res => Fulfilled (normalize res)
                   | Rejected e => Rejected e
                   end))
  /\ (forall id w w0 resp fetched,
        cf_getDistributionConfig provider id w = (Fulfilled resp, w0) ->
        DistributionConfig_ resp = Some fetched ->
        (exists e,
            result (provisionIfPrivate provider inputs w0) = Rejected e
            /\ result (updateCloudFrontDistribution provider helpers id inputs w)
               = Rejected e
            /\ calls (updateCloudFrontDistribution provider helpers id inputs w)
               = EvGetDistributionConfig id
                 :: calls (provisionIfPrivate provider inputs w0))
        \/ (exists oai e,
              let g := grantStep provider helpers inputs oai
                                 (world (provisionIfPrivate provider inputs w0)) in
              result (provisionIfPrivate provider inputs w0) = Fulfilled oai
              /\ result g = Rejected e
              /\ result (updateCloudFrontDistribution provider helpers id inputs w)
                 = Rejected e
              /\ calls (updateCloudFrontDistribution provider helpers id inputs w)
                 = EvGetDistributionConfig id
                   :: calls (provisionIfPrivate provider inputs w0) ++ calls g)
        \/ (exists oai origin,
              let g := grantStep provider helpers inputs oai
                                 (world (provisionIfPrivate provider inputs w0)) in
              let req :=
                updateDistributionRequest helpers id resp fetched inputs
                                          (flowParsed helpers inputs oai) (Id origin) in
              result (provisionIfPrivate provider inputs w0) = Fulfilled oai
              /\ nth_error (Items (Origins (flowParsed helpers inputs oai))) 0
                 = Some origin
              /\ calls (updateCloudFrontDistribution provider helpers id inputs w)
                 = EvGetDistributionConfig id
                   :: calls (provisionIfPrivate provider inputs w0) ++ calls g
                      ++ [EvUpdateDistribution req]
              /\ result (updateCloudFrontDistribution provider helpers id inputs w)
                 = match fst (cf_updateDistribution provider req (world g)) with
                   | Fulfilled res => Fulfilled (normalize res)
                   | Rejected e => Rejected e
                   end))
  /\ (forall parsed,
        Items (Origins parsed) <> [] ->
        exists origin,
          nth_error (Items (Origins parsed)) 0 = Some origin
          /\ firstOriginId (Origins parsed) = Fulfilled (Id origin)
          /\ (forall inputs1 w,
                calls (submitCreate provider helpers inputs1 parsed w)
                = [EvCreateDistribution
                     (createDistributionRequest helpers (Date_now provider w) inputs1
                                                parsed (Id origin))])
          /\ (forall inputs1 id resp fetched w,
                calls (submitUpdate provider helpers id resp fetched inputs1 parsed w)
                = [EvUpdateDistribution
                     (updateDistributionRequest helpers id resp fetched inputs1
                                                parsed (Id origin))]))
  /\ (forall inputs0 w,
        servePrivateContentEnabled inputs0 = false ->
        Items (Origins (parseInputOrigins helpers (origins inputs0) None)) = [] ->
        result (createCloudFrontDistribution provider helpers inputs0 w)
          = Rejected (TypeError_reading "Id")
        /\ calls (createCloudFrontDistribution provider helpers inputs0 w) = [])
  /\ (forall inputs0 id w w1 resp fetched,
        servePrivateContentEnabled inputs0 = false ->
        Items (Origins (parseInputOrigins helpers (origins inputs0) None)) = [] ->
        cf_getDistributionConfig provider id w = (Fulfilled resp, w1) ->
        DistributionConfig_ resp = Some fetched ->
        result (updateCloudFrontDistribution provider helpers id inputs0 w)
          = Rejected (TypeError_reading "Id")
        /\ calls (updateCloudFrontDistribution provider helpers id inputs0 w)
           = [EvGetDistributionConfig id]).
Proof.
  intros Hne.
  assert (Hbounds : forall parsed,
    Items (Origins parsed) <> [] ->
    exists origin,
      nth_error (Items (Origins parsed)) 0 = Some origin
      /\ firstOriginId (Origins parsed) = Fulfilled (Id origin)).
  { intros parsed Hp. unfold firstOriginId.
    destruct (Items (Origins parsed)) as [|origin rest]; [congruence|].
    exists origin. split; reflexivity. }
  split; [|split; [|split; [|split; [|split]]]].
  - intros oaiId. apply Hbounds, Hne.
  - intros w. apply create_reaches_request. exact Hne.
  - intros id w w0 resp fetched Hget Hcfg.
    apply update_reaches_request; assumption.
  - intros parsed Hp. destruct (Hbounds parsed Hp) as (origin & Hnth & Hfirst).
    exists origin. split; [exact Hnth|]. split; [exact Hfirst|]. split.
    + intros inputs1 w. rewrite submitCreate_run, Hfirst. reflexivity.
    + intros inputs1 id resp fetched w. rewrite submitUpdate_run, Hfirst. reflexivity.
  - intros inputs0 w Hpub Hempty. rewrite create_unfold.
    destruct (privateContentThen_public inputs0 (submitCreate provider helpers inputs0)
                                        w Hpub) as [-> ->].
    rewrite submitCreate_run. unfold firstOriginId. rewrite Hempty.
    split; reflexivity.
  - intros inputs0 id w w1 resp fetched Hpub Hempty Hget Hcfg.
    rewrite update_unfold. cbn zeta. rewrite Hget. cbn [fst snd]. rewrite Hcfg.
    cbn [result calls].
    destruct (privateContentThen_public inputs0
                (submitUpdate provider helpers id resp fetched inputs0) w1 Hpub)
      as [-> ->].
    rewrite submitUpdate_run. unfold firstOriginId. rewrite Hempty.
    split; reflexivity.
Qed.

(** C9.  If no input origin has private equal to true, be it a bare
    string or a structured origin whose private is absent or false, then
    no call of create and no call of update is the provisioning of the
    access identity or a bucket-policy grant, whatever the parsed
    origins are backed by. *)
Theorem no_private_origin_no_provisioning (inputs : CloudFrontInputs) :
  (forall origin, In origin (origins inputs) -> privateFlag origin <> Some true) ->
  (forall w ev,
      In ev (calls (createCloudFrontDistribution provider helpers inputs w)) ->
      isProvision ev = false /\ isGrant ev = false)
  /\ (forall id w ev,
        In ev (calls (updateCloudFrontDistribution provider helpers id inputs w)) ->
        isProvision ev = false /\ isGrant ev = false).
Proof.
  intros Hnone. apply servePrivate_false in Hnone as Hpub. split.
  - intros w ev. rewrite create_unfold.
    destruct (privateContentThen_public inputs (submitCreate provider helpers inputs)
                                        w Hpub) as [-> _].
    apply submitCreate_quiet.
  - intros id w ev. rewrite update_unfold. cbn zeta.
    destruct (fst (cf_getDistributionConfig provider id w)) as [resp|e].
    + destruct (DistributionConfig_ resp) as [fetched|]; cbn [calls].
      * intros [<-|Hin]; [split; reflexivity|].
        destruct (privateContentThen_public inputs
                    (submitUpdate provider helpers id resp fetched inputs)
                    (snd (cf_getDistributionConfig provider id w)) Hpub) as [Hc _].
        rewrite Hc in Hin. eapply submitUpdate_quiet; eassumption.
      * intros [<-|[]]. split; reflexivity.
    + cbn [calls]. intros [<-|[]]. split; reflexivity.
Qed.

End Lifecycle.

(** ** Further properties of index.ts *)

Section Footprint.

Context {W : Type}.
Variable provider : Provider W.
Variable helpers : Helpers.

Lemma filter_none {A} (f : A -> bool) (l : list A) :
  (forall x, In x l -> f x = false) -> filter f l = [].
Proof.
  induction l as [|x l IH]; simpl; intros H; [reflexivity|].
  rewrite (H x (or_introl eq_refl)). apply IH. intros y Hy. apply H. now right.
Qed.

(** servePrivateContentEnabled holds exactly when some structured origin
    has private equal to true; a bare string never counts. *)
Theorem servePrivateContentEnabled_iff (inputs : CloudFrontInputs) :
  servePrivateContentEnabled inputs = true <->
  exists o, In (OriginObject o) (origins inputs) /\ private o = Some true.
Proof.
  split.
  - intros H. apply existsb_exists in H as (origin & Hin & Hp).
    destruct origin as [s|o]; simpl in Hp.
    + rewrite andb_false_r in Hp. discriminate.
    + exists o. split; [assumption|]. destruct (private o) as [[|]|]; congruence.
  - intros (o & Hin & Hp). apply existsb_exists. exists (OriginObject o).
    split; [assumption|]. simpl. now rewrite Hp.
Qed.

(** With no origin backed by a bucket the granting step calls nothing,
    leaves the world alone and is fulfilled with the empty list. *)
Theorem updateBucketsPolicies_nothing_to_grant (origins : CloudFront.Origins)
    (uid : string) (w : W) :
  (forall origin, In origin (Items origins) -> S3OriginConfig origin = None) ->
  updateBucketsPolicies provider origins uid w = mkRun (Fulfilled []) w [].
Proof.
  intros H. rewrite updateBucketsPolicies_run.
  assert (Hnone : bucketBacked origins = []).
  { apply filter_none. intros origin Hin. now rewrite (H origin Hin). }
  rewrite Hnone. reflexivity.
Qed.

(** The calls of the private-content flow: provisioning and grants,
    then whatever [submit] calls, if it is reached. *)
Lemma privateContentThen_shape inputs submit (w : W) :
  exists pre post,
    calls (privateContentThen provider helpers inputs submit w) = pre ++ post
    /\ (forall ev, In ev pre -> isProvision ev = true \/ isGrant ev = true)
    /\ (post = []
        \/ exists oaiId w',
            post = calls (submit (parseInputOrigins helpers (origins inputs) oaiId) w')).
Proof.
  rewrite privateContentThen_calls. cbn zeta.
  assert (Hp : forall ev, In ev (calls (provisionIfPrivate provider inputs w)) ->
                          isProvision ev = true \/ isGrant ev = true).
  { intros ev Hin. apply provision_calls in Hin. subst ev. now left. }
  destruct (result (provisionIfPrivate provider inputs w)) as [oai|e].
  - set (g := grantIfProvisioned provider _ _ _).
    assert (Hg : forall ev, In ev (calls g) -> isProvision ev = true \/ isGrant ev = true).
    { intros ev Hin. right. eapply grant_calls. exact Hin. }
    exists (calls (provisionIfPrivate provider inputs w) ++ calls g).
    destruct (result g) as [[]|e].
    + eexists. split; [apply app_assoc|]. split.
      * intros ev Hin. apply in_app_or in Hin as [Hin|Hin]; auto.
      * right. eauto.
    + exists []. split; [apply app_assoc|]. split.
      * intros ev Hin. apply in_app_or in Hin as [Hin|Hin]; auto.
      * now left.
  - exists (calls (provisionIfPrivate provider inputs w)), []. auto.
Qed.

Lemma submitCreate_shape inputs parsed (w : W) :
  calls (submitCreate provider helpers inputs parsed w) = []
  \/ exists req, calls (submitCreate provider helpers inputs parsed w)
                 = [EvCreateDistribution req].
Proof.
  rewrite submitCreate_run.
  destruct (firstOriginId (Origins parsed)); [right; eexists; reflexivity | now left].
Qed.

Lemma submitUpdate_shape id resp fetched inputs parsed (w : W) :
  calls (submitUpdate provider helpers id resp fetched inputs parsed w) = []
  \/ exists req, calls (submitUpdate provider helpers id resp fetched inputs parsed w)
                 = [EvUpdateDistribution req].
Proof.
  rewrite submitUpdate_run.
  destruct (firstOriginId (Origins parsed)); [right; eexists; reflexivity | now left].
Qed.

Lemma provision_or_grant_is_quiet ev :
  isProvision ev = true \/ isGrant ev = true ->
  isFetch ev = false /\ isCreate ev = false /\ isUpdate ev = false /\ isDelete ev = false.
Proof. destruct ev; simpl; intros [H|H]; try discriminate; auto. Qed.

(** Create calls the provisioning, grants and createDistribution only:
    it never fetches, updates or deletes.  It sends at most one create
    request, and that request is its last call. *)
Theorem create_footprint (inputs : CloudFrontInputs) (w : W) :
  (forall ev,
      In ev (calls (createCloudFrontDistribution provider helpers inputs w)) ->
      isFetch ev = false /\ isUpdate ev = false /\ isDelete ev = false)
  /\ (length (filter isCreate
                (calls (createCloudFrontDistribution provider helpers inputs w)))
      <= 1)%nat
  /\ (forall req,
        In (EvCreateDistribution req)
           (calls (createCloudFrontDistribution provider helpers inputs w)) ->
        exists before,
          calls (createCloudFrontDistribution provider helpers inputs w)
            = before ++ [EvCreateDistribution req]
          /\ forall ev, In ev before -> isProvision ev = true \/ isGrant ev = true).
Proof.
  rewrite create_unfold.
  destruct (privateContentThen_shape inputs (submitCreate provider helpers inputs) w)
    as (pre & post & -> & Hpre & Hpost).
  assert (Hshape : post = [] \/ exists req, post = [EvCreateDistribution req]).
  { destruct Hpost as [->|(oaiId & w' & ->)]; [now left|]. apply submitCreate_shape. }
  assert (Hquiet : forall ev, In ev pre -> isCreate ev = false).
  { intros ev Hin. apply Hpre in Hin. now apply provision_or_grant_is_quiet in Hin. }
  split; [|split].
  - intros ev Hin. apply in_app_or in Hin as [Hin|Hin].
    + apply Hpre in Hin. apply provision_or_grant_is_quiet in Hin. tauto.
    + destruct Hshape as [->|(req & ->)]; [destruct Hin|].
      destruct Hin as [<-|[]]. repeat split.
  - rewrite filter_app, (filter_none _ _ Hquiet).
    destruct Hshape as [->|(req & ->)]; simpl; lia.
  - intros req Hin. apply in_app_or in Hin as [Hin|Hin].
    + apply Hquiet in Hin. discriminate.
    + destruct Hshape as [->|(req' & ->)]; [destruct Hin|].
      destruct Hin as [Heq|[]]. inversion Heq; subst req'. exists pre. auto.
Qed.

(** Update starts with the fetch and fetches only once; after it come
    the provisioning, grants and updateDistribution only, never a create
    or a delete.  It sends at most one update request, and that request
    is its last call. *)
Theorem update_footprint (id : string) (inputs : CloudFrontInputs) (w : W) :
  exists rest,
    calls (updateCloudFrontDistribution provider helpers id inputs w)
      = EvGetDistributionConfig id :: rest
    /\ (forall ev, In ev rest ->
          isFetch ev = false /\ isCreate ev = false /\ isDelete ev = false)
    /\ (length (filter isUpdate rest) <= 1)%nat
    /\ (forall req, In (EvUpdateDistribution req) rest ->
          exists before,
            rest = before ++ [EvUpdateDistribution req]
            /\ forall ev, In ev before -> isProvision ev = true \/ isGrant ev = true).
Proof.
  rewrite update_unfold. cbn zeta.
  assert (Hnil : forall (l : list Event), l = [] ->
    (forall ev, In ev l -> isFetch ev = false /\ isCreate ev = false /\ isDelete ev = false)
    /\ (length (filter isUpdate l) <= 1)%nat
    /\ (forall req, In (EvUpdateDistribution req) l ->
          exists before,
            l = before ++ [EvUpdateDistribution req]
            /\ forall ev, In ev before -> isProvision ev = true \/ isGrant ev = true)).
  { intros l ->. split; [intros ev []|]. split; [simpl; lia | intros req []]. }
  destruct (fst (cf_getDistributionConfig provider id w)) as [resp|e];
    [|exists []; split; [reflexivity | now apply Hnil]].
  destruct (DistributionConfig_ resp) as [fetched|];
    [|exists []; split; [reflexivity | now apply Hnil]].
  cbn [calls]. eexists. split; [reflexivity|].
  destruct (privateContentThen_shape inputs
              (submitUpdate provider helpers id resp fetched inputs)
              (snd (cf_getDistributionConfig provider id w)))
    as (pre & post & -> & Hpre & Hpost).
  assert (Hshape : post = [] \/ exists req, post = [EvUpdateDistribution req]).
  { destruct Hpost as [->|(oaiId & w' & ->)]; [now left|]. apply submitUpdate_shape. }
  assert (Hquiet : forall ev, In ev pre -> isUpdate ev = false).
  { intros ev Hin. apply Hpre in Hin. now apply provision_or_grant_is_quiet in Hin. }
  split; [|split].
  - intros ev Hin. apply in_app_or in Hin as [Hin|Hin].
    + apply Hpre in Hin. apply provision_or_grant_is_quiet in Hin. tauto.
    + destruct Hshape as [->|(req & ->)]; [destruct Hin|].
      destruct Hin as [<-|[]]. repeat split.
  - rewrite filter_app, (filter_none _ _ Hquiet).
    destruct Hshape as [->|(req & ->)]; simpl; lia.
  - intros req Hin. apply in_app_or in Hin as [Hin|Hin].
    + apply Hquiet in Hin. discriminate.
    + destruct Hshape as [->|(req' & ->)]; [destruct Hin|].
      destruct Hin as [Heq|[]]. inversion Heq; subst req'. exists pre. auto.
Qed.

(** The calls of disable: the fetch, then at most its one update. *)
Lemma disable_shape id (w : W) :
  calls (disableCloudFrontDistribution provider id w) = [EvGetDistributionConfig id]
  \/ exists resp fetched,
      calls (disableCloudFrontDistribution provider id w)
      = [EvGetDistributionConfig id;
         EvUpdateDistribution (disableDistributionRequest id resp fetched)].
Proof.
  destruct (cf_getDistributionConfig provider id w) as [[resp|e] w1] eqn:Hget.
  - destruct (DistributionConfig_ resp) as [fetched|] eqn:Hcfg.
    + right. exists resp, fetched. now rewrite (disable_run_fetched _ _ _ _ _ _ Hget Hcfg).
    + left. now rewrite (disable_run_missing _ _ _ _ _ Hget Hcfg).
  - left. now rewrite (disable_run_failed _ _ _ _ _ Hget).
Qed.

(** How delete runs when its fetch is rejected. *)
Lemma delete_run_fetch_rejected id (w : W) e w1 :
  cf_getDistributionConfig provider id w = (Rejected e, w1) ->
  deleteCloudFrontDistribution provider id w
  = if code_is e "DistributionNotDisabled"
    then
      let d := disableCloudFrontDistribution provider id w1 in
      mkRun (match result d with
             | Fulfilled _ => Fulfilled tt
             | Rejected e' => Rejected e'
             end)
            (world d) (EvGetDistributionConfig id :: calls d)
    else mkRun (Rejected e) w1 [EvGetDistributionConfig id].
Proof.
  intros Hget.
  unfold deleteCloudFrontDistribution, try_catch, bind, request, ret, throw.
  rewrite Hget. cbn [result world calls].
  destruct (code_is e "DistributionNotDisabled"); cbn [result world calls app].
  - destruct (result (disableCloudFrontDistribution provider id w1));
      cbn [result world calls]; rewrite ?app_nil_r; reflexivity.
  - reflexivity.
Qed.

(** The calls of delete: the fetch, the delete if the fetch answered,
    and the calls of the disable fallback if it ran. *)
Lemma delete_shape id (w : W) :
  exists attempt fallback,
    calls (deleteCloudFrontDistribution provider id w)
      = EvGetDistributionConfig id :: attempt ++ fallback
    /\ (attempt = [] \/ exists params, attempt = [EvDeleteDistribution params])
    /\ (fallback = []
        \/ fallback = [EvGetDistributionConfig id]
        \/ exists resp fetched,
            fallback = [EvGetDistributionConfig id;
                        EvUpdateDistribution (disableDistributionRequest id resp fetched)]).
Proof.
  destruct (cf_getDistributionConfig provider id w) as [[res|e] w1] eqn:Hget.
  - rewrite (delete_run _ _ _ _ _ Hget).
    destruct (cf_deleteDistribution provider _ w1) as [[u|e] w2].
    + eexists [_], []. split; [reflexivity|]. split; [right; eauto | now left].
    + destruct (code_is e "DistributionNotDisabled").
      * eexists [_], _. split; [reflexivity|]. split; [right; eauto|].
        right. apply disable_shape.
      * eexists [_], []. split; [reflexivity|]. split; [right; eauto | now left].
  - rewrite (delete_run_fetch_rejected _ _ _ _ Hget).
    destruct (code_is e "DistributionNotDisabled").
    + exists [], (calls (disableCloudFrontDistribution provider id w1)).
      split; [reflexivity|]. split; [now left|]. right. apply disable_shape.
    + exists [], []. split; [reflexivity|]. split; now left.
Qed.

(** Delete starts with the fetch and makes at most four calls: at most
    one delete and at most one update, never a create, a provisioning or
    a grant.  An update it sends is for the same distribution and
    disables it. *)
Theorem delete_footprint (id : string) (w : W) :
  (exists rest,
      calls (deleteCloudFrontDistribution provider id w)
        = EvGetDistributionConfig id :: rest)
  /\ (length (calls (deleteCloudFrontDistribution provider id w)) <= 4)%nat
  /\ (length (filter isDelete (calls (deleteCloudFrontDistribution provider id w)))
      <= 1)%nat
  /\ (length (filter isUpdate (calls (deleteCloudFrontDistribution provider id w)))
      <= 1)%nat
  /\ (forall ev,
        In ev (calls (deleteCloudFrontDistribution provider id w)) ->
        isCreate ev = false /\ isProvision ev = false /\ isGrant ev = false)
  /\ (forall req,
        In (EvUpdateDistribution req)
           (calls (deleteCloudFrontDistribution provider id w)) ->
        update_Id req = id /\ Enabled (update_DistributionConfig req) = false).
Proof.
  destruct (delete_shape id w) as (attempt & fallback & -> & Ha & Hf).
  split; [eexists; reflexivity|].
  destruct Ha as [->|(params & ->)];
    destruct Hf as [->|[->|(resp & fetched & ->)]]; simpl;
    (split; [lia|]); (split; [lia|]); (split; [lia|]);
    (split;
     [ intros ev Hin;
       repeat (destruct Hin as [<-|Hin]; [repeat split|]); destruct Hin
     | intros req Hin;
       repeat (destruct Hin as [Heq|Hin];
               [try discriminate; inversion Heq; split; reflexivity|]);
       destruct Hin ]).
Qed.

End Footprint.

(** ** Failures, fallbacks and results *)

Section Propagation.

Context {W : Type}.
Variable provider : Provider W.
Variable helpers : Helpers.

Lemma flow_provision_rejected inputs submit (w w1 : W) e :
  servePrivateContentEnabled inputs = true ->
  cf_createOriginAccessIdentity provider w = (Rejected e, w1) ->
  privateContentThen provider helpers inputs submit w
  = mkRun (Rejected e) w1 [EvCreateOriginAccessIdentity].
Proof.
  intros Hpriv Hoai. unfold privateContentThen, bind.
  rewrite (provision_run _ _ _ Hpriv), Hoai. reflexivity.
Qed.

Lemma flow_grant_rejected inputs submit (w w1 : W) oai e :
  servePrivateContentEnabled inputs = true ->
  cf_createOriginAccessIdentity provider w = (Fulfilled oai, w1) ->
  s3CanonicalUserId oai <> "" ->
  result (updateBucketsPolicies provider
            (Origins (parseInputOrigins helpers (origins inputs)
                        (Some (originAccessIdentityId oai))))
            (s3CanonicalUserId oai) w1) = Rejected e ->
  result (privateContentThen provider helpers inputs submit w) = Rejected e
  /\ calls (privateContentThen provider helpers inputs submit w)
     = EvCreateOriginAccessIdentity
       :: map (fun origin =>
                 EvGrantCloudFrontBucketAccess (Id origin) (s3CanonicalUserId oai))
              (bucketBacked
                 (Origins (parseInputOrigins helpers (origins inputs)
                             (Some (originAccessIdentityId oai))))).
Proof.
  intros Hpriv Hoai Huid Hstep.
  rewrite privateContentThen_result, privateContentThen_calls. cbn zeta.
  rewrite (provision_run _ _ _ Hpriv), Hoai. cbn [result world calls fst snd option_map].
  rewrite (grant_run _ _ _ _ (truthy_nonempty _ Huid)). cbn [result world calls].
  rewrite updateBucketsPolicies_run in Hstep. cbn [result] in Hstep.
  rewrite Hstep. rewrite app_nil_r. split; reflexivity.
Qed.

(** When the provisioning of the identity is refused, create and update
    are rejected with that error right there: no grant is issued and no
    distribution request is sent. *)
Theorem provisioning_failure_aborts (inputs : CloudFrontInputs) :
  servePrivateContentEnabled inputs = true ->
  (forall w w1 e,
      cf_createOriginAccessIdentity provider w = (Rejected e, w1) ->
      result (createCloudFrontDistribution provider helpers inputs w) = Rejected e
      /\ calls (createCloudFrontDistribution provider helpers inputs w)
         = [EvCreateOriginAccessIdentity])
  /\ (forall id w w0 w1 resp fetched e,
        cf_getDistributionConfig provider id w = (Fulfilled resp, w0) ->
        DistributionConfig_ resp = Some fetched ->
        cf_createOriginAccessIdentity provider w0 = (Rejected e, w1) ->
        result (updateCloudFrontDistribution provider helpers id inputs w) = Rejected e
        /\ calls (updateCloudFrontDistribution provider helpers id inputs w)
           = [EvGetDistributionConfig id; EvCreateOriginAccessIdentity]).
Proof.
  intros Hpriv. split.
  - intros w w1 e Hoai. rewrite create_unfold.
    rewrite (flow_provision_rejected _ _ _ _ _ Hpriv Hoai). split; reflexivity.
  - intros id w w0 w1 resp fetched e Hget Hcfg Hoai.
    rewrite update_unfold. cbn zeta. rewrite Hget. cbn [fst snd]. rewrite Hcfg.
    rewrite (flow_provision_rejected _ _ _ _ _ Hpriv Hoai). split; reflexivity.
Qed.

(** When the granting step is rejected, create and update are rejected
    with its error after the provisioning and all the grants, and send
    no distribution request. *)
Theorem grant_failure_aborts (inputs : CloudFrontInputs) (oai : AccessIdentity) :
  servePrivateContentEnabled inputs = true ->
  s3CanonicalUserId oai <> "" ->
  (forall w w1 e,
      cf_createOriginAccessIdentity provider w = (Fulfilled oai, w1) ->
      result (updateBucketsPolicies provider
                (Origins (parseInputOrigins helpers (origins inputs)
                            (Some (originAccessIdentityId oai))))
                (s3CanonicalUserId oai) w1) = Rejected e ->
      result (createCloudFrontDistribution provider helpers inputs w) = Rejected e
      /\ calls (createCloudFrontDistribution provider helpers inputs w)
         = EvCreateOriginAccessIdentity
           :: map (fun origin =>
                     EvGrantCloudFrontBucketAccess (Id origin) (s3CanonicalUserId oai))
                  (bucketBacked
                     (Origins (parseInputOrigins helpers (origins inputs)
                                 (Some (originAccessIdentityId oai))))))
  /\ (forall id w w0 w1 resp fetched e,
        cf_getDistributionConfig provider id w = (Fulfilled resp, w0) ->
        DistributionConfig_ resp = Some fetched ->
        cf_createOriginAccessIdentity provider w0 = (Fulfilled oai, w1) ->
        result (updateBucketsPolicies provider
                  (Origins (parseInputOrigins helpers (origins inputs)
                              (Some (originAccessIdentityId oai))))
                  (s3CanonicalUserId oai) w1) = Rejected e ->
        result (updateCloudFrontDistribution provider helpers id inputs w) = Rejected e
        /\ calls (updateCloudFrontDistribution provider helpers id inputs w)
           = EvGetDistributionConfig id
             :: EvCreateOriginAccessIdentity
             :: map (fun origin =>
                       EvGrantCloudFrontBucketAccess (Id origin) (s3CanonicalUserId oai))
                    (bucketBacked
                       (Origins (parseInputOrigins helpers (origins inputs)
                                   (Some (originAccessIdentityId oai)))))).
Proof.
  intros Hpriv Huid. split.
  - intros w w1 e Hoai Hstep. rewrite create_unfold.
    apply (flow_grant_rejected _ _ _ _ _ _ Hpriv Hoai Huid Hstep).
  - intros id w w0 w1 resp fetched e Hget Hcfg Hoai Hstep.
    rewrite update_unfold. cbn zeta. rewrite Hget. cbn [fst snd]. rewrite Hcfg.
    cbn [result calls].
    destruct (flow_grant_rejected inputs
                (submitUpdate provider helpers id resp fetched inputs)
                w0 w1 oai e Hpriv Hoai Huid Hstep) as [-> ->].
    split; reflexivity.
Qed.

(** When the fetch of update is refused, update is rejected with that
    error and has called nothing else. *)
Theorem update_fetch_rejected (id : string) (inputs : CloudFrontInputs)
    (w w1 : W) (e : Error) :
  cf_getDistributionConfig provider id w = (Rejected e, w1) ->
  updateCloudFrontDistribution provider helpers id inputs w
  = mkRun (Rejected e) w1 [EvGetDistributionConfig id].
Proof.
  intros Hget. rewrite update_unfold. cbn zeta. rewrite Hget. reflexivity.
Qed.

(** When the fetch of delete is refused, no delete is attempted.  The
    error is the outcome, unless its code is DistributionNotDisabled:
    then the disable fallback runs, as it does after a refused delete,
    and delete ends as disable does. *)
Theorem delete_fetch_rejected (id : string) (w w1 : W) (e : Error) :
  cf_getDistributionConfig provider id w = (Rejected e, w1) ->
  (forall ev, In ev (calls (deleteCloudFrontDistribution provider id w)) ->
              isDelete ev = false)
  /\ (code_is e "DistributionNotDisabled" = false ->
      deleteCloudFrontDistribution provider id w
      = mkRun (Rejected e) w1 [EvGetDistributionConfig id])
  /\ (code_is e "DistributionNotDisabled" = true ->
      calls (deleteCloudFrontDistribution provider id w)
        = EvGetDistributionConfig id
          :: calls (disableCloudFrontDistribution provider id w1)
      /\ (forall v, result (disableCloudFrontDistribution provider id w1) = Fulfilled v ->
                    result (deleteCloudFrontDistribution provider id w) = Fulfilled tt)
      /\ (forall e',
            result (disableCloudFrontDistribution provider id w1) = Rejected e' ->
            result (deleteCloudFrontDistribution provider id w) = Rejected e')).
Proof.
  intros Hget. rewrite (delete_run_fetch_rejected _ _ _ _ _ Hget).
  destruct (code_is e "DistributionNotDisabled"); split; [|split| |split];
    try discriminate.
  - cbn zeta. cbn [calls]. intros ev [<-|Hin]; [reflexivity|].
    eapply disable_calls_no_delete. exact Hin.
  - intros _. cbn zeta. cbn [result calls]. split; [reflexivity|].
    split; intros x Hx; rewrite Hx; reflexivity.
  - cbn [calls]. intros ev [<-|[]]. reflexivity.
  - reflexivity.
Qed.

(** The disable fallback of delete works from a fetch of its own: after
    a delete refused as not disabled, the update is guarded by the ETag
    of the second fetch and built from the config of the second fetch,
    and delete ends as that update does. *)
Theorem delete_fallback_refetches (id : string) (w w1 w2 w3 : W)
    (res resp' : GetDistributionConfigResult) (fetched' : DistributionConfig)
    (e : Error) :
  cf_getDistributionConfig provider id w = (Fulfilled res, w1) ->
  cf_deleteDistribution provider
    {| delete_Id := id; delete_IfMatch := ETag res |} w1 = (Rejected e, w2) ->
  code_is e "DistributionNotDisabled" = true ->
  cf_getDistributionConfig provider id w2 = (Fulfilled resp', w3) ->
  DistributionConfig_ resp' = Some fetched' ->
  exists req,
    calls (deleteCloudFrontDistribution provider id w)
      = [EvGetDistributionConfig id;
         EvDeleteDistribution {| delete_Id := id; delete_IfMatch := ETag res |};
         EvGetDistributionConfig id;
         EvUpdateDistribution req]
    /\ IfMatch req = ETag resp'
    /\ CallerReference (update_DistributionConfig req) = CallerReference fetched'
    /\ Origins_ (update_DistributionConfig req) = Origins_ fetched'
    /\ Enabled (update_DistributionConfig req) = false
    /\ world (deleteCloudFrontDistribution provider id w)
       = snd (cf_updateDistribution provider req w3)
    /\ result (deleteCloudFrontDistribution provider id w)
       = match fst (cf_updateDistribution provider req w3) with
         | Fulfilled _ => Fulfilled tt
         | Rejected e' => Rejected e'
         end.
Proof.
  intros Hget Hdel Hcode Hget' Hcfg'.
  exists (disableDistributionRequest id resp' fetched').
  rewrite (delete_run _ _ _ _ _ Hget), Hdel, Hcode. cbn zeta.
  rewrite (disable_run_fetched _ _ _ _ _ _ Hget' Hcfg'). cbn [result world calls app].
  repeat split.
  destruct (fst (cf_updateDistribution provider _ w3)); reflexivity.
Qed.

(** *** Requests and results *)

(** Every create request has no aliases, price class PriceClass_All and
    HTTP version http2; comment and enabled are those of the inputs; its
    origins and cache behaviours are the ones parsed with the identity
    the provisioning returned, or without one when no origin is private;
    its caller reference is the clock, read after the provisioning and
    the grants of this run, as a decimal string. *)
Theorem create_request_fields (inputs : CloudFrontInputs) (w : W)
    (req : CreateDistributionRequest) :
  In (EvCreateDistribution req)
     (calls (createCloudFrontDistribution provider helpers inputs w)) ->
  Aliases_ (create_DistributionConfig req) = Some {| al_Quantity := 0; al_Items := [] |}
  /\ PriceClass (create_DistributionConfig req) = Some "PriceClass_All"
  /\ HttpVersion (create_DistributionConfig req) = Some "http2"
  /\ Comment (create_DistributionConfig req) = comment inputs
  /\ Enabled (create_DistributionConfig req) = enabled inputs
  /\ (exists oai,
        result (provisionIfPrivate provider inputs w) = Fulfilled oai
        /\ CallerReference (create_DistributionConfig req)
           = String_of_Z
               (Date_now provider
                  (world (grantStep provider helpers inputs oai
                            (world (provisionIfPrivate provider inputs w)))))
        /\ Origins_ (create_DistributionConfig req)
           = Origins (parseInputOrigins helpers (origins inputs)
                        (option_map originAccessIdentityId oai))
        /\ CacheBehaviors_ (create_DistributionConfig req)
           = CacheBehaviors (parseInputOrigins helpers (origins inputs)
                               (option_map originAccessIdentityId oai))
        /\ (servePrivateContentEnabled inputs = false ->
            oai = None
            /\ CallerReference (create_DistributionConfig req)
               = String_of_Z (Date_now provider w))).
Proof.
  intros Hin. apply create_request_pinned in Hin as (oai & origin & H). cbn zeta in H.
  destruct H as (Hp & _ & -> & _). cbn [create_DistributionConfig createDistributionRequest
    Aliases_ PriceClass HttpVersion Comment Enabled CallerReference Origins_ CacheBehaviors_].
  repeat (split; [reflexivity|]).
  exists oai. split; [exact Hp|]. repeat (split; [reflexivity|]).
  intros Hpub. pose proof (provision_skipped_result _ _ _ _ Hpub Hp) as ->.
  split; [reflexivity|].
  unfold grantStep. rewrite (provision_skipped _ _ _ Hpub). cbn [world option_map].
  rewrite grant_skipped by reflexivity. reflexivity.
Qed.

(** Every update request takes comment and enabled from the inputs and
    its origins and cache behaviours from parsing the inputs, not from
    the fetched config, and has no aliases, price class or HTTP
    version. *)
Theorem update_request_fields (id : string) (inputs : CloudFrontInputs) (w : W)
    (req : UpdateDistributionRequest) :
  In (EvUpdateDistribution req)
     (calls (updateCloudFrontDistribution provider helpers id inputs w)) ->
  Comment (update_DistributionConfig req) = comment inputs
  /\ Enabled (update_DistributionConfig req) = enabled inputs
  /\ Aliases_ (update_DistributionConfig req) = None
  /\ PriceClass (update_DistributionConfig req) = None
  /\ HttpVersion (update_DistributionConfig req) = None
  /\ (exists oaiId,
        Origins_ (update_DistributionConfig req)
          = Origins (parseInputOrigins helpers (origins inputs) oaiId)
        /\ CacheBehaviors_ (update_DistributionConfig req)
           = CacheBehaviors (parseInputOrigins helpers (origins inputs) oaiId)
        /\ (servePrivateContentEnabled inputs = false -> oaiId = None)).
Proof.
  intros Hin. apply update_requests in Hin as (resp & fetched & oai & origin & H).
  cbn zeta in H. destruct H as (_ & _ & Hp & _ & ->). cbn.
  repeat split; try reflexivity.
  eexists. split; [reflexivity|]. split; [reflexivity|].
  intros Hpub. apply (provision_skipped_result _ _ _ _ Hpub) in Hp. now subst oai.
Qed.

Lemma normalize_cases (res : DistributionResult) :
  match Distribution_ res with
  | Some d =>
      normalize res
      = {| id := Some (dist_Id d); arn := Some (ARN d);
           res_url := ("https://" ++ dist_DomainName d)%string |}
  | None =>
      normalize res = {| id := None; arn := None; res_url := "https://undefined" |}
  end.
Proof. unfold normalize. destruct (Distribution_ res); reflexivity. Qed.

(** A fulfilled create has sent its request as its last call, after the
    provisioning and the grants, and returns what the provider answered
    to that very call: id, ARN and https URL of the distribution, or no
    id, no ARN and the URL https://undefined when the answer has no
    distribution.  The world it leaves is the one that call left. *)
Theorem create_result_is_normalized (inputs : CloudFrontInputs) (w : W) (v : Result) :
  result (createCloudFrontDistribution provider helpers inputs w) = Fulfilled v ->
  exists oai req res,
    let g := grantStep provider helpers inputs oai
                       (world (provisionIfPrivate provider inputs w)) in
    result (provisionIfPrivate provider inputs w) = Fulfilled oai
    /\ calls (createCloudFrontDistribution provider helpers inputs w)
       = calls (provisionIfPrivate provider inputs w) ++ calls g
         ++ [EvCreateDistribution req]
    /\ cf_createDistribution provider req (world g)
       = (Fulfilled res, world (createCloudFrontDistribution provider helpers inputs w))
    /\ match Distribution_ res with
       | Some d =>
           v = {| id := Some (dist_Id d); arn := Some (ARN d);
                  res_url := ("https://" ++ dist_DomainName d)%string |}
       | None => v = {| id := None; arn := None; res_url := "https://undefined" |}
       end.
Proof.
  intros Hres.
  destruct (create_cases provider helpers inputs w)
    as [(e & Hp & Hrun)|[(oai & e & Hp & Hg & Hrun)
        |[(oai & u & Hp & Hg & Hitems & Hrun)|(oai & u & origin & Hp & Hg & Hnth & Hrun)]]];
    rewrite Hrun in Hres |- *; cbn [result world calls] in Hres |- *;
    try discriminate.
  set (g := grantStep provider helpers inputs oai
                      (world (provisionIfPrivate provider inputs w))) in *.
  set (req := createDistributionRequest helpers (Date_now provider (world g)) inputs
                                        (flowParsed helpers inputs oai) (Id origin)) in *.
  destruct (cf_createDistribution provider req (world g)) as [[res|e] w2] eqn:Hanswer;
    cbn [fst snd] in Hres |- *; [|discriminate].
  inversion Hres; subst v.
  exists oai, req, res. cbn zeta. fold g.
  split; [exact Hp|]. split; [reflexivity|]. split; [exact Hanswer|].
  apply normalize_cases.
Qed.

(** The same for a fulfilled update, whose calls start with the
    fetch. *)
Theorem update_result_is_normalized (id : string) (inputs : CloudFrontInputs)
    (w : W) (v : Result) :
  result (updateCloudFrontDistribution provider helpers id inputs w) = Fulfilled v ->
  exists resp fetched oai req res,
    let w0 := snd (cf_getDistributionConfig provider id w) in
    let g := grantStep provider helpers inputs oai
                       (world (provisionIfPrivate provider inputs w0)) in
    fst (cf_getDistributionConfig provider id w) = Fulfilled resp
    /\ DistributionConfig_ resp = Some fetched
    /\ result (provisionIfPrivate provider inputs w0) = Fulfilled oai
    /\ calls (updateCloudFrontDistribution provider helpers id inputs w)
       = EvGetDistributionConfig id
         :: calls (provisionIfPrivate provider inputs w0) ++ calls g
            ++ [EvUpdateDistribution req]
    /\ cf_updateDistribution provider req (world g)
       = (Fulfilled res,
          world (updateCloudFrontDistribution provider helpers id inputs w))
    /\ match Distribution_ res with
       | Some d =>
           v = {| id := Some (dist_Id d); arn := Some (ARN d);
                  res_url := ("https://" ++ dist_DomainName d)%string |}
       | None => v = {| id := None; arn := None; res_url := "https://undefined" |}
       end.
Proof.
  destruct (cf_getDistributionConfig provider id w) as [[resp|e0] w0] eqn:Hget.
  - destruct (DistributionConfig_ resp) as [fetched|] eqn:Hcfg.
    + intros Hres.
      destruct (update_cases provider helpers id inputs w w0 resp fetched Hget Hcfg)
        as [(e & Hp & Hrun)|[(oai & e & Hp & Hg & Hrun)
            |[(oai & u & Hp & Hg & Hitems & Hrun)
             |(oai & u & origin & Hp & Hg & Hnth & Hrun)]]];
        rewrite Hrun in Hres |- *; cbn [result world calls] in Hres |- *;
        try discriminate.
      set (g := grantStep provider helpers inputs oai
                          (world (provisionIfPrivate provider inputs w0))) in *.
      set (req := updateDistributionRequest helpers id resp fetched inputs
                                            (flowParsed helpers inputs oai) (Id origin))
        in *.
      destruct (cf_updateDistribution provider req (world g)) as [[res|e] w2] eqn:Hanswer;
        cbn [fst snd] in Hres |- *; [|discriminate].
      inversion Hres; subst v.
      exists resp, fetched, oai, req, res. cbn zeta. cbn [fst snd]. fold g.
      split; [reflexivity|]. split; [exact Hcfg|]. split; [exact Hp|].
      split; [reflexivity|]. split; [exact Hanswer|].
      apply normalize_cases.
    + rewrite update_unfold. cbn zeta. rewrite Hget. cbn [fst snd]. rewrite Hcfg.
      discriminate.
  - rewrite update_unfold. cbn zeta. rewrite Hget. discriminate.
Qed.

End Propagation.

(** ** The statements at concrete inputs *)

Module Checks.

Import Demo Sample.


(** Disable on the sample distribution. *)
Lemma disable_submits_required_fields_witness :
  cf_getDistributionConfig scripted distributionId happy = (Fulfilled fetchedResponse, happy)
  /\ DistributionConfig_ fetchedResponse = Some stored
  /\ exists req,
       calls (disableCloudFrontDistribution scripted distributionId happy)
         = [EvGetDistributionConfig distributionId; EvUpdateDistribution req]
       /\ update_Id req = distributionId
       /\ IfMatch req = ETag fetchedResponse
       /\ CallerReference (update_DistributionConfig req) = CallerReference stored
       /\ Comment (update_DistributionConfig req) = Comment stored
       /\ DefaultCacheBehavior_ (update_DistributionConfig req)
          = DefaultCacheBehavior_ stored
       /\ Origins_ (update_DistributionConfig req) = Origins_ stored
       /\ Enabled (update_DistributionConfig req) = false
       /\ CacheBehaviors_ (update_DistributionConfig req) = None
       /\ Aliases_ (update_DistributionConfig req) = None
       /\ PriceClass (update_DistributionConfig req) = None
       /\ HttpVersion (update_DistributionConfig req) = None.
Proof.
  split; [reflexivity|]. split; [reflexivity|].
  apply (disable_submits_required_fields scripted distributionId happy happy
           fetchedResponse stored); reflexivity.
Defined.

(** The fetched config has cache behaviours, aliases, a price class and
    an HTTP version; the config disable submits has none of them, so it
    is not the fetched config with Enabled set to false. *)
Lemma disable_drops_optional_fields :
  exists req,
    calls (disableCloudFrontDistribution scripted distributionId happy)
      = [EvGetDistributionConfig distributionId; EvUpdateDistribution req]
    /\ update_DistributionConfig req <> withEnabled false stored
    /\ CacheBehaviors_ (update_DistributionConfig req) = None
    /\ CacheBehaviors_ (withEnabled false stored) = CacheBehaviors_ stored
    /\ CacheBehaviors_ stored <> None.
Proof.
  eexists. split; [vm_compute; reflexivity|].
  split; [|split; [reflexivity | split; [reflexivity | discriminate]]].
  intros H. apply (f_equal PriceClass) in H. vm_compute in H. discriminate.
Qed.

(** Delete on the enabled sample distribution. *)
Lemma delete_falls_back_to_disable_witness :
  cf_getDistributionConfig scripted distributionId enabledDistribution
    = (Fulfilled fetchedResponse, enabledDistribution)
  /\ (exists rest,
        calls (deleteCloudFrontDistribution scripted distributionId enabledDistribution)
          = EvGetDistributionConfig distributionId
            :: EvDeleteDistribution deleteParams :: rest
        /\ forall ev, In ev rest -> isDelete ev = false)
  /\ result (deleteCloudFrontDistribution scripted distributionId enabledDistribution)
     = Fulfilled tt.
Proof.
  split; [reflexivity|].
  destruct (delete_falls_back_to_disable scripted distributionId
              enabledDistribution enabledDistribution fetchedResponse eq_refl)
    as (Hattempt & _ & Hfallback & _).
  split; [exact Hattempt|].
  destruct (Hfallback notDisabled enabledDistribution eq_refl eq_refl)
    as (_ & Hok & _).
  apply (Hok (normalize (answer stored))). reflexivity.
Defined.

(** The delete is refused as not disabled, and the update of the
    disable fallback is refused too: delete is rejected. *)
Lemma delete_fails_when_disable_fails :
  cf_deleteDistribution scripted deleteParams enabledAndChanging
    = (Rejected notDisabled, enabledAndChanging)
  /\ code_is notDisabled "DistributionNotDisabled" = true
  /\ result (deleteCloudFrontDistribution scripted distributionId enabledAndChanging)
     = Rejected preconditionFailed
  /\ calls (deleteCloudFrontDistribution scripted distributionId enabledAndChanging)
     = [EvGetDistributionConfig distributionId;
        EvDeleteDistribution deleteParams;
        EvGetDistributionConfig distributionId;
        EvUpdateDistribution
          (disableDistributionRequest distributionId fetchedResponse stored)]
  /\ result (deleteCloudFrontDistribution scripted distributionId enabledAndChanging)
     <> Fulfilled tt.
Proof.
  repeat split; try reflexivity. vm_compute. discriminate.
Qed.

(** A fetch without a config. *)
Lemma missing_config_is_reported_witness :
  cf_getDistributionConfig scripted distributionId withoutConfigEnabled
    = (Fulfilled emptyResponse, withoutConfigEnabled)
  /\ DistributionConfig_ emptyResponse = None
  /\ (forall inputs,
        result (updateCloudFrontDistribution scripted helpers distributionId inputs
                  withoutConfigEnabled)
          = Rejected couldNotGetConfig
        /\ calls (updateCloudFrontDistribution scripted helpers distributionId inputs
                    withoutConfigEnabled)
           = [EvGetDistributionConfig distributionId])
  /\ result (deleteCloudFrontDistribution scripted distributionId withoutConfigEnabled)
     = Rejected couldNotGetConfig
  /\ calls (deleteCloudFrontDistribution scripted distributionId withoutConfigEnabled)
     = [EvGetDistributionConfig distributionId;
        EvDeleteDistribution deleteParams;
        EvGetDistributionConfig distributionId].
Proof.
  split; [reflexivity|]. split; [reflexivity|].
  destruct (missing_config_is_reported scripted helpers distributionId
              withoutConfigEnabled withoutConfigEnabled emptyResponse
              eq_refl eq_refl)
    as (_ & Hupdate & _ & _ & Hdelete).
  split; [exact Hupdate|].
  apply (Hdelete notDisabled withoutConfigEnabled emptyResponse withoutConfigEnabled);
    reflexivity.
Defined.

(** The fetch of delete answers without a config; the delete is issued
    all the same, and delete is fulfilled. *)
Lemma delete_ignores_missing_config :
  cf_getDistributionConfig scripted distributionId withoutConfig
    = (Fulfilled emptyResponse, withoutConfig)
  /\ DistributionConfig_ emptyResponse = None
  /\ result (deleteCloudFrontDistribution scripted distributionId withoutConfig)
     = Fulfilled tt
  /\ calls (deleteCloudFrontDistribution scripted distributionId withoutConfig)
     = [EvGetDistributionConfig distributionId; EvDeleteDistribution deleteParams]
  /\ existsb isWrite
       (calls (deleteCloudFrontDistribution scripted distributionId withoutConfig))
     = true.
Proof. repeat split; reflexivity. Qed.

(** A distribution created from [my-bucket], enabled, then updated with
    the same inputs, disabled: the update keeps the caller reference of
    the fetched config, and its config is the fetched one with Enabled
    false and without the three fields only create sets. *)
Lemma update_preserves_CallerReference_witness :
  cf_getDistributionConfig remembering distributionId (Some afterCreate)
    = (Fulfilled {| DistributionConfig_ := Some afterCreate; ETag := Some "E1" |},
       Some afterCreate)
  /\ DistributionConfig_ {| DistributionConfig_ := Some afterCreate; ETag := Some "E1" |}
     = Some afterCreate
  /\ world (createCloudFrontDistribution remembering helpers
              (withInputEnabled true (inputs [OriginUrl "my-bucket"] true)) None)
     = Some afterCreate
  /\ exists req,
       In (EvUpdateDistribution req)
          (calls (updateCloudFrontDistribution remembering helpers distributionId
                    (withInputEnabled false (inputs [OriginUrl "my-bucket"] true))
                    (Some afterCreate)))
       /\ CallerReference (update_DistributionConfig req) = CallerReference afterCreate
       /\ IfMatch req = Some "E1"
       /\ update_DistributionConfig req = withoutOptional (withEnabled false afterCreate).
Proof.
  split; [reflexivity|]. split; [reflexivity|]. split; [reflexivity|].
  destruct (update_preserves_CallerReference remembering helpers distributionId
              (Some afterCreate) (Some afterCreate)
              {| DistributionConfig_ := Some afterCreate; ETag := Some "E1" |}
              afterCreate eq_refl eq_refl)
    as (Hkeep & Hsent & _ & Hfetched).
  destruct (Hsent (withInputEnabled false (inputs [OriginUrl "my-bucket"] true))
                  (normalize (answer afterCreate)) eq_refl) as (req & Hin).
  exists req. split; [exact Hin|].
  destruct (Hkeep _ _ Hin) as (Href & Hmatch & _).
  split; [exact Href|]. split; [exact Hmatch|].
  assert (Hsame : forall (wa wb : option DistributionConfig) a b wa' wb',
    cf_createOriginAccessIdentity remembering wa = (Fulfilled a, wa') ->
    cf_createOriginAccessIdentity remembering wb = (Fulfilled b, wb') ->
    originAccessIdentityId a = originAccessIdentityId b).
  { intros wa wb a b wa' wb' Ha Hb. inversion Ha. inversion Hb. reflexivity. }
  destruct (Hfetched Hsame (inputs [OriginUrl "my-bucket"] true) req Hin)
    as (_ & Hcreate).
  destruct (Hcreate None {| create_DistributionConfig := afterCreate |}
                    (or_introl eq_refl) eq_refl) as (Heq & _).
  exact Heq.
Defined.

(** A distribution created from [my-bucket], enabled, and then updated
    with the same inputs, disabled: the fetched config is the one create
    submitted, and the config update submits differs from it in more
    than Enabled, the price class for one. *)
Lemma update_after_create_differs_beyond_Enabled :
  let on := inputs [OriginUrl "my-bucket"] true in
  let off := withInputEnabled false on in
  let w1 := world (createCloudFrontDistribution remembering helpers on None) in
  exists fetched req,
    w1 = Some fetched
    /\ fst (cf_getDistributionConfig remembering distributionId w1)
       = Fulfilled {| DistributionConfig_ := Some fetched; ETag := Some "E1" |}
    /\ calls (updateCloudFrontDistribution remembering helpers distributionId off w1)
       = [EvGetDistributionConfig distributionId; EvUpdateDistribution req]
    /\ update_DistributionConfig req <> withEnabled false fetched
    /\ PriceClass (withEnabled false fetched) = Some "PriceClass_All"
    /\ PriceClass (update_DistributionConfig req) = None.
Proof.
  intros on off w1. do 2 eexists.
  split; [vm_compute; reflexivity|].
  split; [vm_compute; reflexivity|].
  split; [vm_compute; reflexivity|].
  split; [|split; reflexivity].
  intros H. apply (f_equal PriceClass) in H. vm_compute in H. discriminate.
Qed.

(** Create and update from three public buckets. *)
Lemma default_behavior_targets_first_origin_witness :
  origins (inputs publicBuckets true) <> []
  /\ (exists req origin,
        In (EvCreateDistribution req)
           (calls (createCloudFrontDistribution scripted helpers
                     (inputs publicBuckets true) happy))
        /\ Origins_ (create_DistributionConfig req)
           = Origins (parseInputOrigins helpers publicBuckets None)
        /\ nth_error (Items (Origins_ (create_DistributionConfig req))) 0 = Some origin
        /\ TargetOriginId (DefaultCacheBehavior_ (create_DistributionConfig req))
           = Id origin
        /\ Id origin = "my-bucket")
  /\ (exists req origin,
        In (EvUpdateDistribution req)
           (calls (updateCloudFrontDistribution scripted helpers distributionId
                     (inputs publicBuckets true) happy))
        /\ Origins_ (update_DistributionConfig req)
           = Origins (parseInputOrigins helpers publicBuckets None)
        /\ nth_error (Items (Origins_ (update_DistributionConfig req))) 0 = Some origin
        /\ TargetOriginId (DefaultCacheBehavior_ (update_DistributionConfig req))
           = Id origin).
Proof.
  assert (Hne : origins (inputs publicBuckets true) <> []) by discriminate.
  split; [exact Hne|].
  destruct (default_behavior_targets_first_origin scripted helpers
              (inputs publicBuckets true) Hne)
    as (_ & Hcreate & Hupdate & _ & _ & Hsent & Hsent').
  split.
  - destruct (Hsent happy (normalize (answer stored)) eq_refl) as (req & Hin).
    destruct (Hcreate happy req Hin)
      as (oai & origin & Hp & Horigins & _ & Hnth & Htarget).
    vm_compute in Hp. inversion Hp; subst oai.
    exists req, origin. split; [exact Hin|]. split; [exact Horigins|].
    split; [exact Hnth|]. split; [exact Htarget|].
    rewrite Horigins in Hnth. vm_compute in Hnth. inversion Hnth. reflexivity.
  - destruct (Hsent' distributionId happy (normalize (answer stored)) eq_refl)
      as (req & Hin).
    destruct (Hupdate distributionId happy req Hin)
      as (oai & origin & Hp & Horigins & _ & Hnth & Htarget).
    vm_compute in Hp. inversion Hp; subst oai.
    exists req, origin. split; [exact Hin|]. split; [exact Horigins|].
    split; [exact Hnth | exact Htarget].
Defined.

(** Create from one private bucket: the identity, then the grant. *)
Lemma private_content_flow_witness :
  (exists origin, In origin (origins (inputs privateBucket true))
                  /\ privateFlag origin = Some true)
  /\ (exists tail,
        calls (createCloudFrontDistribution scripted helpers
                 (inputs privateBucket true) happy)
          = EvCreateOriginAccessIdentity
            :: [EvGrantCloudFrontBucketAccess "my-bucket" (s3CanonicalUserId identity)]
            ++ tail
        /\ forall ev, In ev tail -> isProvision ev = false /\ isGrant ev = false).
Proof.
  assert (Hex : exists origin, In origin (origins (inputs privateBucket true))
                               /\ privateFlag origin = Some true).
  { eexists. split; [left; reflexivity | reflexivity]. }
  split; [exact Hex|].
  destruct (private_content_flow scripted helpers (inputs privateBucket true) Hex)
    as (Hcreate & _).
  destruct (Hcreate happy) as (_ & Hgrants & _).
  apply (Hgrants identity happy); [reflexivity | discriminate].
Defined.

(** One private bucket.  With an identity whose canonical user id is
    empty, the parsed origin is backed by a bucket, yet create goes from
    the provisioning straight to its request, without a grant.  And
    when the fetch of update answers without a config, update ends
    before anything is provisioned. *)
Lemma private_origin_without_grant :
  let r := createCloudFrontDistribution scripted helpers (inputs privateBucket true)
                                        emptyCanonicalUser in
  let u := updateCloudFrontDistribution scripted helpers distributionId
                                        (inputs privateBucket true) withoutConfig in
  (exists origin, In origin (origins (inputs privateBucket true))
                  /\ privateFlag origin = Some true)
  /\ map Id (bucketBacked
               (Origins (parseInputOrigins helpers privateBucket (Some "E74FTE3AEXAMPLE"))))
     = ["my-bucket"]
  /\ (exists req, calls r = [EvCreateOriginAccessIdentity; EvCreateDistribution req])
  /\ existsb isGrant (calls r) = false
  /\ isFulfilled (result r) = true
  /\ calls u = [EvGetDistributionConfig distributionId]
  /\ existsb isProvision (calls u) = false.
Proof.
  intros r u.
  split; [eexists; split; [left; reflexivity | reflexivity]|].
  split; [reflexivity|].
  split; [eexists; vm_compute; reflexivity|].
  repeat split; reflexivity.
Qed.

(** The first of three parsed origins is in bounds: create and update
    send their request and end as the provider answers. *)
Lemma first_origin_in_bounds_witness :
  (forall oaiId,
      Items (Origins (parseInputOrigins helpers (origins (inputs publicBuckets true))
                        oaiId)) <> [])
  /\ (exists origin,
        nth_error (Items (Origins (parseInputOrigins helpers publicBuckets None))) 0
          = Some origin
        /\ firstOriginId (Origins (parseInputOrigins helpers publicBuckets None))
           = Fulfilled (Id origin))
  /\ (exists before req,
        calls (createCloudFrontDistribution scripted helpers
                 (inputs publicBuckets true) happy)
          = before ++ [EvCreateDistribution req]
        /\ result (createCloudFrontDistribution scripted helpers
                     (inputs publicBuckets true) happy)
           = Fulfilled (normalize (answer stored)))
  /\ (exists before req,
        calls (updateCloudFrontDistribution scripted helpers distributionId
                 (inputs publicBuckets true) happy)
          = before ++ [EvUpdateDistribution req]
        /\ result (updateCloudFrontDistribution scripted helpers distributionId
                     (inputs publicBuckets true) happy)
           = Fulfilled (normalize (answer stored))).
Proof.
  assert (Hne : forall oaiId,
    Items (Origins (parseInputOrigins helpers (origins (inputs publicBuckets true))
                      oaiId)) <> []).
  { intros oaiId H. vm_compute in H. discriminate. }
  split; [exact Hne|].
  destruct (first_origin_in_bounds scripted helpers (inputs publicBuckets true) Hne)
    as (Hbounds & Hcreate & Hupdate & _).
  split; [exact (Hbounds None)|]. split.
  - destruct (Hcreate happy) as [(e & Hp & _)|[(oai & e & H)|(oai & origin & H)]].
    + vm_compute in Hp. discriminate.
    + cbn zeta in H. destruct H as (Hp & Hg & _).
      vm_compute in Hp. inversion Hp; subst oai. vm_compute in Hg. discriminate.
    + cbn zeta in H. destruct H as (Hp & _ & Hcalls & Hres).
      vm_compute in Hp. inversion Hp; subst oai.
      rewrite app_assoc in Hcalls. do 2 eexists. split; [exact Hcalls|].
      rewrite Hres. reflexivity.
  - destruct (Hupdate distributionId happy happy fetchedResponse stored eq_refl eq_refl)
      as [(e & Hp & _)|[(oai & e & H)|(oai & origin & H)]].
    + vm_compute in Hp. discriminate.
    + cbn zeta in H. destruct H as (Hp & Hg & _).
      vm_compute in Hp. inversion Hp; subst oai. vm_compute in Hg. discriminate.
    + cbn zeta in H. destruct H as (Hp & _ & Hcalls & Hres).
      vm_compute in Hp. inversion Hp; subst oai.
      rewrite app_assoc, app_comm_cons in Hcalls. do 2 eexists.
      split; [exact Hcalls|]. rewrite Hres. reflexivity.
Defined.

(** No origin at all: create is rejected by the access itself. *)
Lemma create_without_origins :
  result (createCloudFrontDistribution scripted helpers (inputs [] true) happy)
    = Rejected (TypeError_reading "Id")
  /\ calls (createCloudFrontDistribution scripted helpers (inputs [] true) happy) = []
  /\ result (updateCloudFrontDistribution scripted helpers distributionId
               (inputs [] true) happy)
     = Rejected (TypeError_reading "Id")
  /\ calls (updateCloudFrontDistribution scripted helpers distributionId
              (inputs [] true) happy)
     = [EvGetDistributionConfig distributionId].
Proof. repeat split; reflexivity. Qed.

(** Three public origins, all backed by a bucket: nothing is
    provisioned, nothing granted. *)
Lemma no_private_origin_no_provisioning_witness :
  (forall origin, In origin (origins (inputs publicBuckets true)) ->
                  privateFlag origin <> Some true)
  /\ length (bucketBacked
               (Origins (parseInputOrigins helpers publicBuckets None))) = 3%nat
  /\ (forall ev,
        In ev (calls (createCloudFrontDistribution scripted helpers
                        (inputs publicBuckets true) happy)) ->
        isProvision ev = false /\ isGrant ev = false)
  /\ (forall ev,
        In ev (calls (updateCloudFrontDistribution scripted helpers distributionId
                        (inputs publicBuckets true) happy)) ->
        isProvision ev = false /\ isGrant ev = false).
Proof.
  assert (Hnone : forall origin, In origin (origins (inputs publicBuckets true)) ->
                                 privateFlag origin <> Some true).
  { intros origin [<-|[<-|[<-|[]]]]; discriminate. }
  split; [exact Hnone|]. split; [reflexivity|].
  destruct (no_private_origin_no_provisioning scripted helpers
              (inputs publicBuckets true) Hnone) as (Hcreate & Hupdate).
  split; [apply Hcreate | apply Hupdate].
Defined.

Lemma grants_all_issued_first_rejection_wins :
  let r := updateBucketsPolicies scripted threeBuckets "user" twoRefusals in
  calls r = [EvGrantCloudFrontBucketAccess "a" "user";
             EvGrantCloudFrontBucketAccess "b" "user";
             EvGrantCloudFrontBucketAccess "c" "user"]
  /\ result r = Rejected noSuchBucket.
Proof. split; reflexivity. Qed.

Lemma grants_use_Id_not_DomainName :
  let r := updateBucketsPolicies scripted threeBuckets "user" happy in
  In (EvGrantCloudFrontBucketAccess "a" "user") (calls r)
  /\ ~ In (EvGrantCloudFrontBucketAccess "a.s3.amazonaws.com" "user") (calls r)
  /\ result r = Fulfilled [tt; tt; tt].
Proof.
  split; [left; reflexivity|]. split; [|reflexivity].
  vm_compute. intros [H|[H|[H|[]]]]; discriminate.
Qed.

End Checks.

(** ** The further properties at concrete inputs *)

Module MoreChecks.

Import Demo Sample.

(** Two custom origins: nothing to grant. *)
Lemma updateBucketsPolicies_nothing_to_grant_witness :
  (forall origin, In origin (Items customOnly) -> S3OriginConfig origin = None)
  /\ updateBucketsPolicies scripted customOnly "user" happy = mkRun (Fulfilled []) happy [].
Proof.
  assert (H : forall origin, In origin (Items customOnly) -> S3OriginConfig origin = None).
  { intros origin [<-|[<-|[]]]; reflexivity. }
  split; [exact H|].
  apply (updateBucketsPolicies_nothing_to_grant scripted customOnly "user" happy H).
Defined.

(** A private bucket, and the identity is refused. *)
Lemma provisioning_failure_aborts_witness :
  servePrivateContentEnabled (inputs privateBucket true) = true
  /\ result (createCloudFrontDistribution scripted helpers (inputs privateBucket true)
               provisionRefused)
     = Rejected accessDenied
  /\ calls (createCloudFrontDistribution scripted helpers (inputs privateBucket true)
              provisionRefused)
     = [EvCreateOriginAccessIdentity]
  /\ calls (updateCloudFrontDistribution scripted helpers distributionId
              (inputs privateBucket true) provisionRefused)
     = [EvGetDistributionConfig distributionId; EvCreateOriginAccessIdentity].
Proof.
  split; [reflexivity|].
  destruct (provisioning_failure_aborts scripted helpers (inputs privateBucket true)
              eq_refl) as (Hcreate & Hupdate).
  destruct (Hcreate provisionRefused provisionRefused accessDenied eq_refl)
    as (Hres & Hcalls).
  split; [exact Hres|]. split; [exact Hcalls|].
  apply (Hupdate distributionId provisionRefused provisionRefused provisionRefused
           fetchedResponse stored accessDenied); reflexivity.
Defined.

(** Three buckets, two grants refused: the earlier refusal is the
    outcome of create, after all three grants and without a request. *)
Lemma grant_failure_aborts_witness :
  servePrivateContentEnabled (inputs privateBuckets true) = true
  /\ s3CanonicalUserId identity <> ""
  /\ result (createCloudFrontDistribution scripted helpers (inputs privateBuckets true)
               twoRefusals)
     = Rejected noSuchBucket
  /\ calls (createCloudFrontDistribution scripted helpers (inputs privateBuckets true)
              twoRefusals)
     = [EvCreateOriginAccessIdentity;
        EvGrantCloudFrontBucketAccess "a" (s3CanonicalUserId identity);
        EvGrantCloudFrontBucketAccess "b" (s3CanonicalUserId identity);
        EvGrantCloudFrontBucketAccess "c" (s3CanonicalUserId identity)].
Proof.
  assert (Huid : s3CanonicalUserId identity <> "") by discriminate.
  split; [reflexivity|]. split; [exact Huid|].
  destruct (grant_failure_aborts scripted helpers (inputs privateBuckets true) identity
              eq_refl Huid) as (Hcreate & _).
  apply (Hcreate twoRefusals twoRefusals noSuchBucket); reflexivity.
Defined.

(** A refused fetch. *)
Lemma update_fetch_rejected_witness :
  cf_getDistributionConfig scripted distributionId fetchRefused
    = (Rejected accessDenied, fetchRefused)
  /\ updateCloudFrontDistribution scripted helpers distributionId
       (inputs privateBucket true) fetchRefused
     = mkRun (Rejected accessDenied) fetchRefused
             [EvGetDistributionConfig distributionId].
Proof.
  split; [reflexivity|].
  apply (update_fetch_rejected scripted helpers distributionId
           (inputs privateBucket true) fetchRefused fetchRefused accessDenied).
  reflexivity.
Defined.

Lemma delete_fetch_rejected_witness :
  cf_getDistributionConfig scripted distributionId fetchRefused
    = (Rejected accessDenied, fetchRefused)
  /\ deleteCloudFrontDistribution scripted distributionId fetchRefused
     = mkRun (Rejected accessDenied) fetchRefused
             [EvGetDistributionConfig distributionId].
Proof.
  split; [reflexivity|].
  destruct (delete_fetch_rejected scripted distributionId fetchRefused fetchRefused
              accessDenied eq_refl) as (_ & Hother & _).
  apply Hother. reflexivity.
Defined.

(** The ETag moves from E1 to E2 with the refused delete: the delete
    goes out under E1, the disabling update under E2. *)
Lemma delete_fallback_refetches_witness :
  cf_getDistributionConfig versioned distributionId 0%nat
    = (Fulfilled {| DistributionConfig_ := Some stored; ETag := Some "E1" |}, 0%nat)
  /\ cf_getDistributionConfig versioned distributionId 1%nat
     = (Fulfilled {| DistributionConfig_ := Some stored; ETag := Some "E2" |}, 1%nat)
  /\ exists req,
       calls (deleteCloudFrontDistribution versioned distributionId 0%nat)
         = [EvGetDistributionConfig distributionId;
            EvDeleteDistribution
              {| delete_Id := distributionId; delete_IfMatch := Some "E1" |};
            EvGetDistributionConfig distributionId;
            EvUpdateDistribution req]
       /\ IfMatch req = Some "E2"
       /\ Enabled (update_DistributionConfig req) = false
       /\ result (deleteCloudFrontDistribution versioned distributionId 0%nat)
          = Fulfilled tt.
Proof.
  split; [reflexivity|]. split; [reflexivity|].
  destruct (delete_fallback_refetches versioned distributionId 0%nat 0%nat 1%nat 1%nat
              {| DistributionConfig_ := Some stored; ETag := Some "E1" |}
              {| DistributionConfig_ := Some stored; ETag := Some "E2" |}
              stored notDisabled eq_refl eq_refl eq_refl eq_refl eq_refl)
    as (req & Hcalls & Hmatch & _ & _ & Henabled & _ & Hres).
  exists req. split; [exact Hcalls|]. split; [exact Hmatch|].
  split; [exact Henabled|]. exact Hres.
Defined.

(** The request of a create from three public buckets. *)
Lemma create_request_fields_witness :
  exists req,
    In (EvCreateDistribution req)
       (calls (createCloudFrontDistribution scripted helpers (inputs publicBuckets true)
                 happy))
    /\ PriceClass (create_DistributionConfig req) = Some "PriceClass_All"
    /\ HttpVersion (create_DistributionConfig req) = Some "http2"
    /\ Comment (create_DistributionConfig req) = "x"
    /\ Enabled (create_DistributionConfig req) = true
    /\ CallerReference (create_DistributionConfig req) = String_of_Z (clock happy).
Proof.
  eexists. split; [left; reflexivity|].
  destruct (create_request_fields scripted helpers (inputs publicBuckets true) happy _
              (or_introl eq_refl))
    as (_ & Hprice & Hhttp & Hcomment & Henabled & oai & _ & _ & _ & _ & Hpublic).
  destruct (Hpublic eq_refl) as (_ & Hclock).
  repeat split; assumption.
Defined.

(** The request of an update from three public buckets, disabled. *)
Lemma update_request_fields_witness :
  exists req,
    In (EvUpdateDistribution req)
       (calls (updateCloudFrontDistribution scripted helpers distributionId
                 (inputs publicBuckets false) happy))
    /\ Enabled (update_DistributionConfig req) = false
    /\ Aliases_ (update_DistributionConfig req) = None
    /\ PriceClass (update_DistributionConfig req) = None
    /\ HttpVersion (update_DistributionConfig req) = None.
Proof.
  eexists. split; [right; left; reflexivity|].
  destruct (update_request_fields scripted helpers distributionId
              (inputs publicBuckets false) happy _ (or_intror (or_introl eq_refl)))
    as (_ & Henabled & Haliases & Hprice & Hhttp & _).
  repeat split; assumption.
Defined.

(** The provider answers without a distribution: create is fulfilled
    all the same. *)
Lemma create_result_is_normalized_witness :
  result (createCloudFrontDistribution scripted helpers (inputs publicBuckets true)
            withoutDistribution)
    = Fulfilled {| id := None; arn := None; res_url := "https://undefined" |}
  /\ exists req res,
       calls (createCloudFrontDistribution scripted helpers
                (inputs publicBuckets true) withoutDistribution)
         = [EvCreateDistribution req]
       /\ cf_createDistribution scripted req withoutDistribution
          = (Fulfilled res, withoutDistribution).
Proof.
  split; [reflexivity|].
  destruct (create_result_is_normalized scripted helpers (inputs publicBuckets true)
              withoutDistribution _ eq_refl) as (oai & req & res & H).
  cbn zeta in H. destruct H as (Hp & Hcalls & Hanswer & _).
  vm_compute in Hp. inversion Hp; subst oai.
  exists req, res. split; [exact Hcalls | exact Hanswer].
Defined.

(** An update of the sample distribution returns its id, ARN and URL. *)
Lemma update_result_is_normalized_witness :
  result (updateCloudFrontDistribution scripted helpers distributionId
            (inputs publicBuckets true) happy)
    = Fulfilled
        {| id := Some "E2QWRUHAPOMQZL";
           arn := Some "arn:aws:cloudfront::123456789012:distribution/E2QWRUHAPOMQZL";
           res_url := "https://d111111abcdef8.cloudfront.net" |}
  /\ exists req res,
       calls (updateCloudFrontDistribution scripted helpers distributionId
                (inputs publicBuckets true) happy)
         = [EvGetDistributionConfig distributionId; EvUpdateDistribution req]
       /\ cf_updateDistribution scripted req happy = (Fulfilled res, happy).
Proof.
  split; [reflexivity|].
  destruct (update_result_is_normalized scripted helpers distributionId
              (inputs publicBuckets true) happy _ eq_refl)
    as (resp & fetched & oai & req & res & H).
  cbn zeta in H. destruct H as (_ & _ & Hp & Hcalls & Hanswer & _).
  vm_compute in Hp. inversion Hp; subst oai.
  exists req, res. split; [exact Hcalls | exact Hanswer].
Defined.

End MoreChecks.
